(** * qfx.py: the CSV to QFX converter, embedded and verified

    The development follows [src/qfx.py].  Python [str] values are Rocq
    strings whose characters are read as the code points U+0000..U+00FF;
    Python [float] values are binary64 numbers in the computational
    format of [SpecFloat] (precision 53, maximal exponent 1024); a Python
    exception is a value of [exn], carried by the [result] type.

    External collaborators of the program (the [datetime] library, the
    regular-expression engine, the stocks database behind
    [is_mutual_fund]) are the fields of the class [Qfx.Externals]. *)

From Stdlib Require Import ZArith List String Ascii Bool Lia Permutation.
From Stdlib Require Import Floats.SpecFloat.
Import ListNotations.

Local Open Scope string_scope.
Local Open Scope Z_scope.

(** ** The rows of the table *)

(** A row of the input table: the [dict] built from the header and one
    line, with the nine columns the program reads. *)
Record Row : Type := {
  Date : string;
  Account : string;
  Activity : string;
  Description : string;
  CUSIP : string;
  Symbol : string;
  Quantity : string;
  Price : string;
  Amount : string
}.

(** ** Python exceptions and fallible computations *)

(** Every [raise] the modelled code can reach, by exception class and
    raising site. *)
Inductive exn : Type :=
| UnknownActivity (activity : string)
    (* ValueError, generate_transaction: "Unknown activity: ..." *)
| NeitherAmountNorPrice (row : Row)
    (* ValueError, generate_buysell_transaction: "Transaction should have
       either amount or price but neither is supplied: ..." followed by
       the row *)
| NoCusipForIncome (description : string)
    (* ValueError, generate_income_transaction: "No CUSIP provided for
       income transaction: ..." *)
| NoCusipNoPattern (description : string)
    (* ValueError, generate_buysell_secid and
       generate_buysell_security_info: "No CUSIP provided and no matching
       pattern found for description: ..." *)
| MappingsNotInitialized
    (* RuntimeError: "missing_cusip_mappings not initialized" *)
| FloatOfNone
    (* TypeError: float() applied to None *)
| FloatOfString (s : string)
    (* ValueError: "could not convert string to float: ..." *)
| NoneHasNoStartswith
    (* AttributeError: 'NoneType' object has no attribute 'startswith' *)
| NoAccountInformation
    (* ValueError, main: "No account information found in CSV." *)
| AccountNotMapped (name : string)
    (* KeyError, get_account_id *).

Inductive result (A : Type) : Type :=
| Ok (a : A)
| Raise (e : exn).
Arguments Ok {A} a.
Arguments Raise {A} e.

Definition bind {A B : Type} (r : result A) (k : A -> result B) : result B :=
  match r with
  | Ok a => k a
  | Raise e => Raise e
  end.

Notation "'let*' x ':=' r 'in' k" := (bind r (fun x => k))
  (at level 10, x pattern, r at level 100, k at level 200).

(** ** The [str] methods the program uses *)

Module PyStr.

Definition nl : string := String (ascii_of_nat 10) "".
Definition dquote : ascii := ascii_of_nat 34.

Definition code (c : ascii) : Z := Z.of_nat (nat_of_ascii c).

(** [str.isspace] on U+0000..U+00FF: the characters [str.strip()]
    removes. *)
Definition is_space (c : ascii) : bool :=
  let n := code c in
  ((9 <=? n) && (n <=? 13)) || ((28 <=? n) && (n <=? 32))
  || (n =? 133) || (n =? 160).

(** Removal of the leading, or trailing, characters of a class. *)
Fixpoint lstrip_by (P : ascii -> bool) (s : string) : string :=
  match s with
  | String c s' => if P c then lstrip_by P s' else s
  | EmptyString => EmptyString
  end.

Fixpoint rstrip_by (P : ascii -> bool) (s : string) : string :=
  match s with
  | String c s' =>
      match rstrip_by P s' with
      | EmptyString => if P c then EmptyString else String c EmptyString
      | r => String c r
      end
  | EmptyString => EmptyString
  end.

Definition lstrip (s : string) : string := lstrip_by is_space s.
Definition rstrip (s : string) : string := rstrip_by is_space s.
Definition strip (s : string) : string := lstrip (rstrip s).

(** [s.lstrip(ch)] for a one-character argument. *)
Definition lstrip_char (ch : ascii) (s : string) : string :=
  lstrip_by (fun c => Ascii.eqb c ch) s.

Definition lower_char (c : ascii) : ascii :=
  let n := code c in
  if ((65 <=? n) && (n <=? 90))
     || ((192 <=? n) && (n <=? 222) && negb (n =? 215))
  then ascii_of_nat (nat_of_ascii c + 32)
  else c.

Fixpoint lower (s : string) : string :=
  match s with
  | String c s' => String (lower_char c) (lower s')
  | EmptyString => EmptyString
  end.

Fixpoint startswith (s pre : string) : bool :=
  match pre, s with
  | EmptyString, _ => true
  | String a pre', String b s' => Ascii.eqb b a && startswith s' pre'
  | String _ _, EmptyString => false
  end.

Fixpoint endswith (s suf : string) : bool :=
  String.eqb s suf ||
  match s with
  | String _ s' => endswith s' suf
  | EmptyString => false
  end.

(** [s.replace(old, new)] for a one-character [old]. *)
Fixpoint replace (old : ascii) (new : string) (s : string) : string :=
  match s with
  | String c s' =>
      if Ascii.eqb c old then new ++ replace old new s'
      else String c (replace old new s')
  | EmptyString => EmptyString
  end.

(** [s[1:]] and [s[:-1]]. *)
Definition drop_first (s : string) : string :=
  match s with
  | String _ s' => s'
  | EmptyString => EmptyString
  end.

Fixpoint drop_last (s : string) : string :=
  match s with
  | String c EmptyString => EmptyString
  | String c s' => String c (drop_last s')
  | EmptyString => EmptyString
  end.

(** [sep.join(xs)]. *)
Fixpoint join (sep : string) (xs : list string) : string :=
  match xs with
  | [] => ""
  | [x] => x
  | x :: rest => x ++ sep ++ join sep rest
  end.

(** [" " * n]. *)
Fixpoint spaces (n : nat) : string :=
  match n with
  | O => ""
  | S k => String " " (spaces k)
  end.

(** Truth value of a string: [bool(s)]. *)
Definition truthy (s : string) : bool := negb (String.eqb s "").

(** Decimal digits of a non-negative integer, most significant first. *)
Definition digit_char (d : Z) : ascii := ascii_of_nat (48 + Z.to_nat d).

Fixpoint digits_fuel (fuel : nat) (n : Z) (acc : string) : string :=
  let acc' := String (digit_char (n mod 10)) acc in
  match fuel with
  | O => acc'
  | S f => if n <? 10 then acc' else digits_fuel f (n / 10) acc'
  end.

Definition str_nat (n : Z) : string :=
  digits_fuel (Z.to_nat (Z.log2 n)) n "".

(** [str(n)] for an integer. *)
Definition str_int (n : Z) : string :=
  if n <? 0 then "-" ++ str_nat (- n) else str_nat n.

Fixpoint zeros (n : nat) : string :=
  match n with
  | O => ""
  | S k => String "0" (zeros k)
  end.

(** Left-pad with zeros to [width] characters. *)
Definition zfill (width : nat) (s : string) : string :=
  zeros (width - String.length s) ++ s.

(** The format specifier [{n:04d}]. *)
Definition format_04d (n : Z) : string :=
  if n <? 0 then "-" ++ zfill 3 (str_nat (- n)) else zfill 4 (str_nat n).

End PyStr.

(** ** Python floats: binary64 *)

Module PyFloat.
Import PyStr.

Definition float : Type := spec_float.

Definition prec : Z := 53.
Definition emax : Z := 1024.

Definition fzero : float := S754_zero false.
Definition fneg (x : float) : float := SFopp x.
Definition fmul (x y : float) : float := SFmul prec emax x y.
Definition fdiv (x y : float) : float := SFdiv prec emax x y.
Definition feqb (x y : float) : bool := SFeqb x y.
Definition fltb (x y : float) : bool := SFltb x y.

(** [a / b] rounded to the nearest integer, ties to the even one
    ([0 <= a], [0 < b]). *)
Definition round_div (a b : Z) : Z :=
  let d := a / b in
  match 2 * (a mod b) ?= b with
  | Lt => d
  | Gt => d + 1
  | Eq => if Z.even d then d else d + 1
  end.

(** Every finite binary64 number is a whole number of units of
    [2^-1074]: [m * 2^e] is [m * 2^(e + 1074)] units. *)
Definition unit_shift : Z := 1074.

(** The integer part of the binary logarithm of [p / q], for
    [0 < q <= p]. *)
Definition ilog2_ratio (p q : Z) : Z :=
  let l := Z.log2 p - Z.log2 q in
  if q * 2 ^ l <=? p then l else l - 1.

(** The binary64 number nearest to [p / q] (ties to even), with sign
    [s]; [0 < p], [0 < q].  The quotient is taken in units of
    [2^-1074]; its mantissa keeps 53 bits, or fewer below the normal
    range, where the exponent stays [-1074]; a result of [2^1024] or more
    is an infinity. *)
Definition of_ratio (s : bool) (p q : Z) : float :=
  let pu := p * 2 ^ unit_shift in
  let e := Z.max 0 (ilog2_ratio pu q - 52) in
  let m := round_div pu (q * 2 ^ e) in
  let '(m, e) := if m =? 2 ^ 53 then (2 ^ 52, e + 1) else (m, e) in
  match m with
  | Zpos mp =>
      if e - unit_shift <=? 971 then S754_finite s mp (e - unit_shift)
      else S754_infinity s
  | _ => S754_zero s
  end.

(** The value [mant * 10^exp10] of a decimal literal. *)
Definition of_decimal (s : bool) (mant exp10 : Z) : float :=
  if mant =? 0 then S754_zero s
  else if 0 <=? exp10 then of_ratio s (mant * 10 ^ exp10) 1
  else of_ratio s mant (10 ^ (- exp10)).

(** *** [float(s)] for a string *)

Definition is_digit (c : ascii) : bool :=
  (48 <=? code c) && (code c <=? 57).

Definition digit_val (c : ascii) : Z := code c - 48.

Fixpoint digits_value (acc : Z) (s : string) : Z :=
  match s with
  | String c s' => digits_value (10 * acc + digit_val c) s'
  | EmptyString => acc
  end.

(** The longest prefix of digits, and the rest. *)
Fixpoint span_digits (s : string) : string * string :=
  match s with
  | String c s' =>
      if is_digit c
      then let '(ds, rest) := span_digits s' in (String c ds, rest)
      else ("", s)
  | EmptyString => ("", "")
  end.

(** White space that [float] skips at both ends of its argument. *)
Definition is_float_space (c : ascii) : bool :=
  let n := code c in
  ((9 <=? n) && (n <=? 13)) || (n =? 32) || (n =? 133) || (n =? 160).

Definition float_lstrip (s : string) : string :=
  lstrip_by is_float_space s.
Definition float_rstrip (s : string) : string :=
  rstrip_by is_float_space s.

(** Underscores are dropped; each one must stand between two digits. *)
Fixpoint drop_underscores (prev : ascii) (s : string) : option string :=
  match s with
  | String c s' =>
      if Ascii.eqb c "_"
      then if is_digit prev then drop_underscores c s' else None
      else if Ascii.eqb prev "_" && negb (is_digit c) then None
      else option_map (String c) (drop_underscores c s')
  | EmptyString => if Ascii.eqb prev "_" then None else Some ""
  end.

Definition split_sign (s : string) : bool * string :=
  match s with
  | String "-" s' => (true, s')
  | String "+" s' => (false, s')
  | _ => (false, s)
  end.

(** The exponent part: empty, or [e], an optional sign and digits. *)
Definition parse_exponent (s : string) : option Z :=
  match s with
  | EmptyString => Some 0
  | String c s' =>
      if Ascii.eqb c "e" || Ascii.eqb c "E" then
        let '(neg, t) := split_sign s' in
        match span_digits t with
        | (String d ds, EmptyString) =>
            let v := digits_value 0 (String d ds) in
            Some (if neg then - v else v)
        | _ => None
        end
      else None
  end.

(** An unsigned decimal literal as mantissa and decimal exponent. *)
Definition parse_decimal (s : string) : option (Z * Z) :=
  let '(ip, rest1) := span_digits s in
  let '(fp, rest2) :=
    match rest1 with
    | String "." t => span_digits t
    | _ => ("", rest1)
    end in
  if String.eqb (ip ++ fp) "" then None
  else
    match parse_exponent rest2 with
    | Some ex =>
        Some (digits_value 0 (ip ++ fp), ex - Z.of_nat (String.length fp))
    | None => None
    end.

Definition parse_inf_or_nan (neg : bool) (s : string) : option float :=
  let l := lower s in
  if String.eqb l "inf" || String.eqb l "infinity"
  then Some (S754_infinity neg)
  else if String.eqb l "nan" then Some S754_nan
  else None.

(** [float(s)]: [None] stands for the [ValueError] it raises. *)
Definition float_of_string (s : string) : option float :=
  match drop_underscores "000" (float_lstrip (float_rstrip s)) with
  | None => None
  | Some t =>
      let '(neg, body) := split_sign t in
      match parse_decimal body with
      | Some (mant, exp10) => Some (of_decimal neg mant exp10)
      | None => parse_inf_or_nan neg body
      end
  end.

(** *** Fixed-point formatting, [f"{x:.<nd>f}"] with [0 < nd]: the
    exact value [m * 2^e] times [10^nd], rounded to an integer (ties
    to even), with the decimal point put back.  The value is taken in
    units of [2^-1074]. *)

Definition sign_str (s : bool) : string := if s then "-" else "".

(** [n / 10^nd] written with [nd] fraction digits. *)
Definition fixed_digits (nd : nat) (n : Z) : string :=
  let scale := 10 ^ Z.of_nat nd in
  str_nat (n / scale) ++ "." ++ zfill nd (str_nat (n mod scale)).

Definition format_fixed (nd : nat) (x : float) : string :=
  match x with
  | S754_nan => "nan"
  | S754_infinity s => sign_str s ++ "inf"
  | S754_zero s => sign_str s ++ fixed_digits nd 0
  | S754_finite s m e =>
      sign_str s ++
      fixed_digits nd
        (round_div (Zpos m * 10 ^ Z.of_nat nd * 2 ^ (e + unit_shift))
                   (2 ^ unit_shift))
  end.

End PyFloat.

(** ** The program *)

Module Qfx.
Import PyStr PyFloat.

Record SecurityInfo : Type := {
  uniqueid : string;
  info_entry : string
}.

Record TransactionEntry : Type := {
  txn_str : string;
  is_invbanktran : bool
}.

(** An element of the [missing_cusip_mapping] list of the account
    mapping file. *)
Record MissingCusipRule : Type := {
  description_regex : string;
  rule_uniqueid : string;
  rule_symbol : string;
  rule_info_tag : string
}.

(** [f"{v}"] for a value that is [None] or a string. *)
Definition str_of_option (v : option string) : string :=
  match v with
  | Some s => s
  | None => "None"
  end.

Definition truthy_option (v : option string) : bool :=
  match v with
  | Some s => truthy s
  | None => false
  end.

(** *** Field normalizers *)

Definition normalize_currency (value : string) (inverseAmount : bool)
  : option string :=
  let s := strip value in
  if negb (truthy s) then None
  else
    let negative := false in
    let '(negative, s) :=
      if startswith s "(" && endswith s ")"
      then (true, drop_last (drop_first s))
      else (negative, s) in
    let s := strip (replace "," "" (replace "$" "" s)) in
    let '(negative, s) :=
      if startswith s "-"
      then (true, strip (lstrip_char "-" s))
      else (negative, s) in
    match float_of_string s with
    | None => Some "0.00"
    | Some num =>
        let negative := if inverseAmount then negb negative else negative in
        let num := if negative then fneg num else num in
        Some (format_fixed 2 num)
    end.

Definition normalize_quantity (value : string) : string :=
  replace "," "" (strip value).

(** The values of the variable [amount] of
    [generate_buysell_transaction]: [None], a normalized string, or the
    float [0.0] that the "reinvest dist" dispatch passes as
    [amount_default] (the only default other than [None]). *)
Inductive amount_val : Type :=
| AmountNone
| AmountStr (s : string)
| AmountZero.

Definition amount_is_none (a : amount_val) : bool :=
  match a with
  | AmountNone => true
  | _ => false
  end.

Definition amount_truthy (a : amount_val) : bool :=
  match a with
  | AmountStr s => truthy s
  | _ => false
  end.

(** [float(amount)], [None] for a [ValueError]; never applied to
    [None]. *)
Definition float_of_amount (a : amount_val) : option float :=
  match a with
  | AmountStr s => float_of_string s
  | _ => Some fzero
  end.

(** [f"{amount}"]. *)
Definition str_of_amount (a : amount_val) : string :=
  match a with
  | AmountNone => "None"
  | AmountStr s => s
  | AmountZero => "0.0"
  end.

Definition compute_price (quantity : string) (amount : amount_val)
  : string :=
  match float_of_string quantity with
  | None => "0.00"
  | Some q =>
      let q := if fltb q fzero then fneg q else q in
      match float_of_amount amount with
      | None => "0.00"
      | Some a =>
          let a := if fltb a fzero then fneg a else a in
          if negb (feqb q fzero) then format_fixed 9 (fdiv a q)
          else "0.00"
      end
  end.

Definition cash_secid (indent : nat) : string :=
  let indent_str := spaces indent in
  indent_str ++ "<SECID>" ++ nl ++
  indent_str ++ "  <UNIQUEID>CASH</UNIQUEID>" ++ nl ++
  indent_str ++ "  <UNIQUEIDTYPE>CUSIP</UNIQUEIDTYPE>" ++ nl ++
  indent_str ++ "</SECID>" ++ nl.

Definition xml_escape (text : string) : string :=
  replace "'" "&apos;"
    (replace dquote "&quot;"
       (replace ">" "&gt;"
          (replace "<" "&lt;"
             (replace "&" "&amp;" text)))).

Definition is_funding_activity (row : Row) : result bool :=
  if String.eqb (lower (strip (Activity row))) "buy"
     && endswith (lower (strip (Description row))) "initial"
     && negb (truthy (strip (CUSIP row)))
     && negb (truthy (strip (Symbol row)))
  then
    match normalize_currency (Amount row) false with
    | None => Raise FloatOfNone
    | Some a =>
        match float_of_string a with
        | None => Raise (FloatOfString a)
        | Some fa =>
            match float_of_string (Quantity row) with
            | None => Raise (FloatOfString (Quantity row))
            | Some fq => Ok (feqb fa (fneg fq))
            end
        end
    end
  else Ok false.

Definition _make_txn_entry (txn_data : string * option SecurityInfo)
  (is_invbanktran : bool) : TransactionEntry * option SecurityInfo :=
  ({| txn_str := fst txn_data; is_invbanktran := is_invbanktran |},
   snd txn_data).

(** The collaborators of the program that live outside it.

    The [datetime] library: [strptime s fmt] is [None] when it raises;
    [add_days] is [dt + timedelta(days=n)], [None] when it raises;
    [now_at n] is what the [n]-th reading of the clock returns.
    [re_search pattern text] is [re.search(pattern, text) is not None].
    [is_mutual_fund symbol] is the query of the stocks database: [true]
    when the symbol is not a ticker of [stocks_day]. *)
Class Externals : Type := {
  datetime : Type;
  strptime : string -> string -> option datetime;
  strftime : datetime -> string -> string;
  add_days : datetime -> Z -> option datetime;
  dt_ltb : datetime -> datetime -> bool;
  now_at : nat -> datetime;
  re_search : string -> string -> bool;
  is_mutual_fund : string -> bool
}.

Section Program.

Context `{Externals}.

Definition parse_date (date_str : string) : option datetime :=
  let s := strip date_str in
  match strptime s "%m/%d/%Y" with
  | Some d => Some d
  | None => strptime s "%Y-%m-%d"
  end.

(** [format_ofx_datetime] for an argument that is not [None]. *)
Definition format_ofx_datetime (dt_obj : datetime) : string :=
  strftime dt_obj "%Y%m%d" ++ "120000.000[-5:EST]".

Fixpoint first_match (mappings : list MissingCusipRule)
  (description : string) : option MissingCusipRule :=
  match mappings with
  | m :: rest =>
      if re_search (description_regex m) description then Some m
      else first_match rest description
  | [] => None
  end.

Definition secid_block (indent_str id idtype : string) : string :=
  indent_str ++ "<SECID>" ++ nl ++
  indent_str ++ "  <UNIQUEID>" ++ id ++ "</UNIQUEID>" ++ nl ++
  indent_str ++ "  <UNIQUEIDTYPE>" ++ idtype ++ "</UNIQUEIDTYPE>" ++ nl ++
  indent_str ++ "</SECID>" ++ nl.

Definition generate_buysell_secid
  (_missing_cusip_mappings : option (list MissingCusipRule))
  (row : Row) (indent : nat) : result string :=
  match _missing_cusip_mappings with
  | None => Raise MappingsNotInitialized
  | Some mappings =>
      let indent_str := spaces indent in
      let cusip := strip (CUSIP row) in
      if truthy cusip then Ok (secid_block indent_str cusip "CUSIP")
      else
        let description := strip (Description row) in
        match first_match mappings description with
        | Some mapping =>
            Ok (secid_block indent_str (rule_uniqueid mapping) "OTHER")
        | None => Raise (NoCusipNoPattern description)
        end
  end.

Definition security_info_entry (info_tag secid symbol : string)
  : string :=
  "      <" ++ info_tag ++ ">" ++ nl ++
  "        <SECINFO>" ++ nl ++
  secid ++
  "          <SECNAME>" ++ symbol ++ "</SECNAME>" ++ nl ++
  "          <TICKER>" ++ symbol ++ "</TICKER>" ++ nl ++
  "        </SECINFO>" ++ nl ++
  "      </" ++ info_tag ++ ">" ++ nl.

Definition generate_buysell_security_info
  (_missing_cusip_mappings : option (list MissingCusipRule))
  (row : Row) : result SecurityInfo :=
  let symbol := strip (Symbol row) in
  let cusip := strip (CUSIP row) in
  if truthy cusip then
    let symbol := if negb (truthy symbol) then cusip else symbol in
    let info_tag :=
      if is_mutual_fund symbol then "MFINFO" else "STOCKINFO" in
    let* secid := generate_buysell_secid _missing_cusip_mappings row 10 in
    Ok {| uniqueid := cusip;
          info_entry := security_info_entry info_tag secid symbol |}
  else
    match _missing_cusip_mappings with
    | None => Raise MappingsNotInitialized
    | Some mappings =>
        match first_match mappings (strip (Description row)) with
        | Some mapping =>
            let* secid :=
              generate_buysell_secid _missing_cusip_mappings row 10 in
            Ok {| uniqueid := rule_symbol mapping;
                  info_entry :=
                    security_info_entry (rule_info_tag mapping) secid
                      (rule_symbol mapping) |}
        | None => Raise (NoCusipNoPattern (strip (Description row)))
        end
    end.


(** *** Buy and sell *)

Definition generate_buysell_transaction
  (_missing_cusip_mappings : option (list MissingCusipRule))
  (row : Row) (sell : bool) (fitid date_str : string)
  (amount_default : amount_val)
  : result (string * option SecurityInfo) :=
  let activity := strip (Activity row) in
  let description := strip (Description row) in
  let quantity := normalize_quantity (Quantity row) in
  let price := normalize_currency (Price row) false in
  let amount :=
    match normalize_currency (Amount row) false with
    | Some a => AmountStr a
    | None => amount_default
    end in
  let buysell := if sell then "SELL" else "BUY" in
  let* (price, amount) :=
    if truthy quantity && negb (amount_is_none amount) then
      (* the comparison with a given price only prints a warning *)
      Ok (compute_price quantity amount, amount)
    else
      match price with
      | Some p =>
          if truthy quantity && negb (amount_truthy amount) then
            match float_of_string quantity, float_of_string p with
            | Some q, Some pf =>
                Ok (p, AmountStr (format_fixed 2 (fmul (fneg q) pf)))
            | _, _ => Ok (p, AmountStr "0.00")
            end
          else Raise (NeitherAmountNorPrice row)
      | None => Raise (NeitherAmountNorPrice row)
      end in
  let outer :=
    if sell
    then if is_mutual_fund (strip (Symbol row)) then "SELLMF"
         else "SELLSTOCK"
    else if is_mutual_fund (strip (Symbol row)) then "BUYMF"
         else "BUYSTOCK" in
  let dt_settle :=
    match strptime date_str "%Y%m%d" with
    | Some dt_trade =>
        match add_days dt_trade 2 with
        | Some d => strftime d "%Y%m%d"
        | None => date_str
        end
    | None => date_str
    end in
  let* secid := generate_buysell_secid _missing_cusip_mappings row 12 in
  let out :=
    "          <" ++ outer ++ ">" ++ nl ++
    "            <INV" ++ buysell ++ ">" ++ nl ++
    "            <INVTRAN>" ++ nl ++
    "              <FITID>" ++ fitid ++ "</FITID>" ++ nl ++
    "              <DTTRADE>" ++ date_str ++ "</DTTRADE>" ++ nl ++
    "              <DTSETTLE>" ++ dt_settle ++ "</DTSETTLE>" ++ nl ++
    "              <MEMO>" ++ activity ++ ": " ++ xml_escape description
      ++ "</MEMO>" ++ nl ++
    "            </INVTRAN>" ++ nl ++
    secid ++
    "            <UNITS>" ++ quantity ++ "</UNITS>" ++ nl ++
    "            <UNITPRICE>" ++ price ++ "</UNITPRICE>" ++ nl ++
    "            <TOTAL>" ++ str_of_amount amount ++ "</TOTAL>" ++ nl ++
    "            <SUBACCTSEC>CASH</SUBACCTSEC>" ++ nl ++
    "            <SUBACCTFUND>CASH</SUBACCTFUND>" ++ nl ++
    "            </INV" ++ buysell ++ ">" ++ nl ++
    "            <" ++ buysell ++ "TYPE>" ++ buysell ++ "</" ++ buysell
      ++ "TYPE>" ++ nl ++
    "          </" ++ outer ++ ">" ++ nl in
  let* info := generate_buysell_security_info _missing_cusip_mappings row in
  Ok (out, Some info).

(** *** Fees and interest: bank transactions *)

Definition bank_transaction (trntype date_str trnamt fitid : string)
  (row : Row) : string :=
  "          <INVBANKTRAN>" ++ nl ++
  "            <STMTTRN>" ++ nl ++
  "              <TRNTYPE>" ++ trntype ++ "</TRNTYPE>" ++ nl ++
  "              <DTPOSTED>" ++ date_str ++ "</DTPOSTED>" ++ nl ++
  "              <TRNAMT>" ++ trnamt ++ "</TRNAMT>" ++ nl ++
  "              <FITID>" ++ fitid ++ "</FITID>" ++ nl ++
  "              <MEMO>" ++ strip (Activity row) ++ ": "
    ++ xml_escape (strip (Description row)) ++ "</MEMO>" ++ nl ++
  "              <CURRENCY>" ++ nl ++
  "                <CURRATE>1.0</CURRATE>" ++ nl ++
  "                <CURSYM>USD</CURSYM>" ++ nl ++
  "              </CURRENCY>" ++ nl ++
  "            </STMTTRN>" ++ nl ++
  "            <SUBACCTFUND>CASH</SUBACCTFUND>" ++ nl ++
  "          </INVBANKTRAN>" ++ nl.

Definition generate_fee_transaction (row : Row) (fitid date_str : string)
  (inverseAmount : bool) : result (string * option SecurityInfo) :=
  let stmttrn :=
    bank_transaction "FEE" date_str
      (str_of_option (normalize_currency (Amount row) inverseAmount))
      fitid row in
  Ok (stmttrn, None).

(** The second call of [normalize_currency] receives the normalized
    amount itself as [inverseAmount]; its truth value decides. *)
Definition generate_intrest_transaction (row : Row)
  (fitid date_str : string) : result (string * option SecurityInfo) :=
  let amount := normalize_currency (Amount row) false in
  let stmttrn :=
    bank_transaction "INT" date_str
      (str_of_option
         (normalize_currency (Amount row) (truthy_option amount)))
      fitid row in
  Ok (stmttrn, None).

(** *** Income *)

Definition generate_income_transaction
  (_missing_cusip_mappings : option (list MissingCusipRule))
  (row : Row) (fitid date_str incometype : string)
  : result (string * option SecurityInfo) :=
  let description := strip (Description row) in
  let amount := normalize_currency (Amount row) false in
  let dttrade := date_str ++ "120000.000[-5:EST]" in
  let invtran :=
    "            <INVTRAN>" ++ nl ++
    "              <FITID>" ++ fitid ++ "</FITID>" ++ nl ++
    "              <DTTRADE>" ++ dttrade ++ "</DTTRADE>" ++ nl ++
    "              <MEMO>" ++ xml_escape description ++ "</MEMO>" ++ nl ++
    "            </INVTRAN>" ++ nl in
  let cusip := strip (CUSIP row) in
  let* (secid, secid_info) :=
    if truthy cusip then
      let secid :=
        "            <SECID>" ++ nl ++
        "              <UNIQUEID>" ++ cusip ++ "</UNIQUEID>" ++ nl ++
        "              <UNIQUEIDTYPE>CUSIP</UNIQUEIDTYPE>" ++ nl ++
        "            </SECID>" ++ nl in
      let* info :=
        generate_buysell_security_info _missing_cusip_mappings row in
      Ok (secid, info)
    else Raise (NoCusipForIncome description) in
  let income :=
    "          <INCOME>" ++ nl ++
    invtran ++
    secid ++
    "            <INCOMETYPE>" ++ incometype ++ "</INCOMETYPE>" ++ nl ++
    "            <TOTAL>" ++ str_of_option amount ++ "</TOTAL>" ++ nl ++
    "            <SUBACCTSEC>CASH</SUBACCTSEC>" ++ nl ++
    "            <SUBACCTFUND>CASH</SUBACCTFUND>" ++ nl ++
    "          </INCOME>" ++ nl in
  Ok (income, Some secid_info).

(** *** Asset transfers *)

Definition cash_security_info : SecurityInfo :=
  {| uniqueid := "CASH";
     info_entry :=
       "      <OTHERINFO>" ++ nl ++
       "        <SECINFO>" ++ nl ++
       cash_secid 10 ++
       "          <SECNAME>Cash Balance</SECNAME>" ++ nl ++
       "        </SECINFO>" ++ nl ++
       "      </OTHERINFO>" |}.

Definition generate_asset_transfer
  (_missing_cusip_mappings : option (list MissingCusipRule))
  (row : Row) (fitid date_str : string)
  : result (string * option SecurityInfo) :=
  let full_date :=
    match parse_date (Date row) with
    | Some dt_obj => format_ofx_datetime dt_obj
    | None => date_str ++ "120000.000[-5:EST]"
    end in
  let activity := strip (Activity row) in
  let description := strip (Description row) in
  let cusip := strip (CUSIP row) in
  let quantity := normalize_quantity (Quantity row) in
  let amount := normalize_currency (Amount row) false in
  if negb (truthy cusip) then
    let out :=
      "          <TRANSFER>" ++ nl ++
      "            <INVTRAN>" ++ nl ++
      "              <FITID>" ++ fitid ++ "</FITID>" ++ nl ++
      "              <DTTRADE>" ++ full_date ++ "</DTTRADE>" ++ nl ++
      "              <MEMO>" ++ activity ++ ": " ++ xml_escape description
        ++ "</MEMO>" ++ nl ++
      "            </INVTRAN>" ++ nl ++
      cash_secid 12 ++
      "            <SUBACCTSEC>CASH</SUBACCTSEC>" ++ nl ++
      "            <UNITS>" ++ str_of_option amount ++ "</UNITS>" ++ nl in
    match amount with
    | None => Raise NoneHasNoStartswith
    | Some a =>
        let transfer_dir := if startswith a "-" then "OUT" else "IN" in
        let out :=
          out ++
          "            <TFERACTION>" ++ transfer_dir ++ "</TFERACTION>"
            ++ nl ++
          "            <POSTYPE>LONG</POSTYPE>" ++ nl ++
          "          </TRANSFER>" ++ nl in
        Ok (out, Some cash_security_info)
    end
  else
    (* [transfer_dir] is computed from the quantity and never used *)
    let out :=
      "  <TRANSFER>" ++ nl ++
      "    <INVTRAN>" ++ nl ++
      "      <FITID>" ++ fitid ++ "</FITID>" ++ nl ++
      "      <DTTRADE>" ++ full_date ++ "</DTTRADE>" ++ nl ++
      "      <MEMO>" ++ activity ++ ": " ++ xml_escape description
        ++ "</MEMO>" ++ nl ++
      "    </INVTRAN>" ++ nl ++
      "    <SECID>" ++ nl ++
      "      <UNIQUEID>" ++ cusip ++ "</UNIQUEID>" ++ nl ++
      "      <UNIQUEIDTYPE>CUSIP</UNIQUEIDTYPE>" ++ nl ++
      "    </SECID>" ++ nl ++
      "    <SUBACCTSEC>CASH</SUBACCTSEC>" ++ nl ++
      "    <UNITS>" ++ quantity ++ "</UNITS>" ++ nl ++
      "    <TFERACTION>IN</TFERACTION>" ++ nl ++
      "    <POSTYPE>LONG</POSTYPE>" ++ nl ++
      "  </TRANSFER>" ++ nl in
    let* info := generate_buysell_security_info _missing_cusip_mappings row in
    Ok (out, Some info).

(** *** Dispatch *)

Definition mem (x : string) (xs : list string) : bool :=
  existsb (String.eqb x) xs.

Definition make_entry (r : result (string * option SecurityInfo))
  (is_invbanktran : bool)
  : result (TransactionEntry * option SecurityInfo) :=
  let* txn_data := r in Ok (_make_txn_entry txn_data is_invbanktran).

Definition generate_transaction
  (_missing_cusip_mappings : option (list MissingCusipRule))
  (row : Row) (counter : Z)
  : result (TransactionEntry * option SecurityInfo) :=
  let date_str :=
    match parse_date (Date row) with
    | Some dt_obj => strftime dt_obj "%Y%m%d"
    | None => "00000000"
    end in
  let fitid := "TXN" ++ date_str ++ format_04d counter in
  let act_lower := lower (strip (Activity row)) in
  let* funding := is_funding_activity row in
  if funding then
    make_entry
      (generate_asset_transfer _missing_cusip_mappings row fitid date_str)
      false
  else if mem act_lower
            ["buy"; "reinvest dividend"; "rein stc gain"; "rein cap gain"]
  then
    make_entry
      (generate_buysell_transaction _missing_cusip_mappings row false
         fitid date_str AmountNone) false
  else if String.eqb act_lower "sell" then
    make_entry
      (generate_buysell_transaction _missing_cusip_mappings row true
         fitid date_str AmountNone) false
  else if mem act_lower ["asset trf"; "ach activity"] then
    make_entry
      (generate_asset_transfer _missing_cusip_mappings row fitid date_str)
      false
  else if mem act_lower ["dividend"] then
    make_entry
      (generate_income_transaction _missing_cusip_mappings row fitid
         date_str "DIV") false
  else if mem act_lower ["interest"] then
    make_entry (generate_intrest_transaction row fitid date_str) true
  else if mem act_lower ["lt cap gain"] then
    make_entry
      (generate_income_transaction _missing_cusip_mappings row fitid
         date_str "CGLONG") false
  else if mem act_lower ["shrt trm gain"] then
    make_entry
      (generate_income_transaction _missing_cusip_mappings row fitid
         date_str "CGSHORT") false
  else if mem act_lower ["advisory fee"] then
    make_entry (generate_fee_transaction row fitid date_str false) true
  else if mem act_lower ["journal"] then
    make_entry (generate_fee_transaction row fitid date_str false) true
  else if mem act_lower ["reinvest dist"] then
    make_entry
      (generate_buysell_transaction _missing_cusip_mappings row false
         fitid date_str AmountZero) false
  else Raise (UnknownActivity (Activity row)).


(** *** The main loop and the document

    The model of [main] starts where the account mapping file is
    loaded and the data lines of the CSV file are turned into rows;
    before that point the program writes nothing.  The world is the
    set of files written and the number of clock readings; standard
    output is not modelled. *)

Record World : Type := {
  files : list (string * string);
  clock_reads : nat
}.

Definition now (w : World) : datetime * World :=
  (now_at (clock_reads w),
   {| files := files w; clock_reads := S (clock_reads w) |}).

Definition write_file (path content : string) (w : World) : World :=
  {| files := (path, content) :: files w;
     clock_reads := clock_reads w |}.

(** The variables the loop over the rows updates.  [securities] is
    the insertion-ordered [dict] from identifier to entry. *)
Record LoopState : Type := {
  transactions : list TransactionEntry;
  counter : Z;
  first_account : option string;
  min_date : option datetime;
  max_date : option datetime;
  securities : list (string * SecurityInfo)
}.

Definition initial_state : LoopState :=
  {| transactions := [];
     counter := 1;
     first_account := None;
     min_date := None;
     max_date := None;
     securities := [] |}.

Definition has_key (k : string) (d : list (string * SecurityInfo))
  : bool :=
  existsb (fun kv => String.eqb (fst kv) k) d.

Definition record_security (secid_info : option SecurityInfo)
  (d : list (string * SecurityInfo)) : list (string * SecurityInfo) :=
  match secid_info with
  | Some info =>
      if negb (has_key (uniqueid info) d)
      then d ++ [(uniqueid info, info)]
      else d
  | None => d
  end.

Definition process_row
  (_missing_cusip_mappings : option (list MissingCusipRule))
  (st : LoopState) (row : Row) : result LoopState :=
  let first_account :=
    match first_account st with
    | None => Some (strip (Account row))
    | Some a => Some a
    end in
  let '(min_date, max_date) :=
    match parse_date (Date row) with
    | Some dt_obj =>
        (match min_date st with
         | None => Some dt_obj
         | Some m => if dt_ltb dt_obj m then Some dt_obj else Some m
         end,
         match max_date st with
         | None => Some dt_obj
         | Some m => if dt_ltb m dt_obj then Some dt_obj else Some m
         end)
    | None => (min_date st, max_date st)
    end in
  let* (txn_entry, secid_info) :=
    generate_transaction _missing_cusip_mappings row (counter st) in
  Ok {| transactions := transactions st ++ [txn_entry];
        counter := counter st + 1;
        first_account := first_account;
        min_date := min_date;
        max_date := max_date;
        securities := record_security secid_info (securities st) |}.

Fixpoint process_rows
  (_missing_cusip_mappings : option (list MissingCusipRule))
  (st : LoopState) (rows : list Row) : result LoopState :=
  match rows with
  | [] => Ok st
  | row :: rest =>
      let* st' := process_row _missing_cusip_mappings st row in
      process_rows _missing_cusip_mappings st' rest
  end.

Definition get_account_id (account_name : string)
  (mapping : string -> option string) : result string :=
  let normalized_name := strip account_name in
  match mapping normalized_name with
  | Some id => Ok id
  | None => Raise (AccountNotMapped normalized_name)
  end.

(** [format_ofx_datetime] for an argument that may be [None], in
    which case the clock is read. *)
Definition format_ofx_datetime_opt (dt_obj : option datetime) (w : World)
  : string * World :=
  match dt_obj with
  | Some d => (format_ofx_datetime d, w)
  | None => let '(d, w') := now w in (format_ofx_datetime d, w')
  end.

Definition all_txns (txns : list TransactionEntry) : list string :=
  let non_fee_txns :=
    map txn_str (filter (fun txn => negb (is_invbanktran txn)) txns) in
  let invbanktrans := map txn_str (filter is_invbanktran txns) in
  non_fee_txns ++ invbanktrans.

Definition header_lines (dtnow dtasof account_id dtstart_str dtend_str
                         : string) : list string :=
  [ "OFXHEADER:100";
    "DATA:OFXSGML";
    "VERSION:102";
    "SECURITY:NONE";
    "ENCODING:USASCII";
    "CHARSET:1252";
    "COMPRESSION:NONE";
    "OLDFILEUID:NONE";
    "NEWFILEUID:NONE";
    "";
    "<OFX>";
    "  <SIGNONMSGSRSV1>";
    "    <SONRS>";
    "      <STATUS>";
    "        <CODE>0</CODE>";
    "        <SEVERITY>INFO</SEVERITY>";
    "      </STATUS>";
    "      <DTSERVER>" ++ dtnow ++ "</DTSERVER>";
    "      <LANGUAGE>ENG</LANGUAGE>";
    "      <FI>";
    "        <ORG>4705</ORG>";
    "      </FI>";
    "      <INTU.BID>4705</INTU.BID>";
    "      <INTU.USERID>U424465</INTU.USERID>";
    "    </SONRS>";
    "  </SIGNONMSGSRSV1>";
    "  <INVSTMTMSGSRSV1>";
    "    <INVSTMTTRNRS>";
    "      <TRNUID>0</TRNUID>";
    "      <STATUS>";
    "        <CODE>0</CODE>";
    "        <SEVERITY>INFO</SEVERITY>";
    "      </STATUS>";
    "      <INVSTMTRS>";
    "        <DTASOF>" ++ dtasof ++ "</DTASOF>";
    "        <CURDEF>USD</CURDEF>";
    "        <INVACCTFROM>";
    "          <BROKERID>WellsFargo</BROKERID>";
    "          <ACCTID>" ++ account_id ++ "</ACCTID>";
    "        </INVACCTFROM>";
    "        <INVTRANLIST>";
    "          <DTSTART>" ++ dtstart_str ++ "</DTSTART>";
    "          <DTEND>" ++ dtend_str ++ "</DTEND>" ].

Definition balance_lines : list string :=
  [ "        </INVTRANLIST>";
    "        <INVBAL>";
    "          <AVAILCASH>0.00</AVAILCASH>";
    "          <MARGINBALANCE>0.00</MARGINBALANCE>";
    "          <SHORTBALANCE>0.00</SHORTBALANCE>";
    "        </INVBAL>";
    "      </INVSTMTRS>";
    "    </INVSTMTTRNRS>";
    "  </INVSTMTMSGSRSV1>" ].

Definition seclist_lines (securities : list (string * SecurityInfo))
  : list string :=
  match securities with
  | [] => []
  | _ =>
      [ "  <SECLISTMSGSRSV1>"; "    <SECLIST>" ] ++
      map (fun kv => "      " ++ strip (info_entry (snd kv))) securities ++
      [ "    </SECLIST>"; "  </SECLISTMSGSRSV1>" ]
  end.

Definition qfx_lines (dtnow dtasof account_id dtstart_str dtend_str
                      : string) (st : LoopState) : list string :=
  header_lines dtnow dtasof account_id dtstart_str dtend_str ++
  map rstrip (all_txns (transactions st)) ++
  balance_lines ++
  seclist_lines (securities st) ++
  [ "</OFX>" ].

Definition main (output_qfx : string)
  (account_mapping : string -> option string)
  (_missing_cusip_mappings : option (list MissingCusipRule))
  (valid_lines : list Row) (w : World) : World * result unit :=
  match process_rows _missing_cusip_mappings initial_state valid_lines with
  | Raise e => (w, Raise e)
  | Ok st =>
      match first_account st with
      | None => (w, Raise NoAccountInformation)
      | Some first_account =>
          match get_account_id first_account account_mapping with
          | Raise e => (w, Raise e)
          | Ok account_id =>
              let '(dtstart_str, w) :=
                format_ofx_datetime_opt (min_date st) w in
              let '(dtend_str, w) :=
                format_ofx_datetime_opt (max_date st) w in
              let '(t, w) := now w in
              let dtasof := strftime t "%Y%m%d" in
              let '(t, w) := now w in
              let dtnow := strftime t "%Y%m%d%H%M%S" in
              let qfx_content :=
                join nl
                  (qfx_lines dtnow dtasof account_id dtstart_str
                     dtend_str st) in
              (write_file output_qfx qfx_content w, Ok tt)
          end
      end
  end.

End Program.

(** *** Reading the table and naming the output

    The functions of [main] that come before the loop over the rows. *)

(** [re.sub(r'\s*\d+$', '', h)]: the only match, if any, is the longest
    suffix made of white space followed by at least one digit; it starts
    where the white space before the trailing digits starts. *)
Definition ends_with_digit (h : string) : bool :=
  negb (String.eqb (rstrip_by PyFloat.is_digit h) h).

Definition sub_trailing_number (h : string) : string :=
  if ends_with_digit h then rstrip (rstrip_by PyFloat.is_digit h) else h.

Definition normalize_header (header : string) : string :=
  let h := strip header in
  if startswith (lower h) "price" || startswith (lower h) "amount"
  then sub_trailing_number h
  else h.

Definition row_is_empty (row : list string) : bool :=
  forallb (fun field => negb (truthy (strip field))) row.

(** The exceptions of the search for the header row: the [ValueError]
    "Could not find header row starting with 'Date'", and the
    [IndexError] of [row[1]] on a row of one field that reads "Date". *)
Inductive table_error : Type :=
| HeaderNotFound
| RowIndexOutOfRange.

(** The lines that follow the header, up to the first empty one. *)
Fixpoint data_lines (rows : list (list string)) : list (list string) :=
  match rows with
  | [] => []
  | row :: rest => if row_is_empty row then [] else row :: data_lines rest
  end.

(** The first loop of [main] over the lines of the CSV file: the header
    row [raw_fieldnames] and the list [valid_lines]. *)
Fixpoint read_table (rows : list (list string))
  : table_error + (list string * list (list string)) :=
  match rows with
  | [] => inl HeaderNotFound
  | row :: rest =>
      match row with
      | [] => read_table rest
      | field0 :: others =>
          if String.eqb (strip field0) "Date" then
            match others with
            | [] => inl RowIndexOutOfRange
            | field1 :: _ =>
                if String.eqb (strip field1) "Account"
                then inr (row, data_lines rest)
                else read_table rest
            end
          else read_table rest
      end
  end.

(** [s[:-n]] for a string of at least [n] characters. *)
Fixpoint drop_last_n (n : nat) (s : string) : string :=
  match n with
  | O => s
  | S k => drop_last_n k (drop_last s)
  end.

Definition _output_from_input (input : string) : string :=
  if endswith input ".csv" then drop_last_n 4 input ++ ".qfx"
  else input ++ ".qfx".

End Qfx.

(** ** Vocabulary of the statements *)

Module Spec.
Import PyStr PyFloat Qfx.

(** The activity keywords of the dispatch, after trimming and
    lower-casing. *)
Definition recognized_activities : list string :=
  [ "buy"; "reinvest dividend"; "rein stc gain"; "rein cap gain";
    "sell"; "asset trf"; "ach activity"; "dividend"; "interest";
    "lt cap gain"; "shrt trm gain"; "advisory fee"; "journal";
    "reinvest dist" ].

(** An unsigned amount: what is left of a currency text once the
    parentheses, the currency signs, the thousands separators and the
    leading minus signs are gone parses as a number that is not
    negative and not a NaN. *)
Definition unsigned_number (x : float) : bool :=
  match x with
  | S754_zero s | S754_infinity s | S754_finite s _ _ => negb s
  | S754_nan => false
  end.

Fixpoint string_forall (P : ascii -> bool) (s : string) : bool :=
  match s with
  | String c s' => P c && string_forall P s'
  | EmptyString => true
  end.

(** The characters of a printed fixed-point number. *)
Definition numeric_char (c : ascii) : bool :=
  is_digit c || Ascii.eqb c ".".

(** The steps of [normalize_currency] before the call of [float]:
    the sign found so far and the text handed to [float]. *)
Definition currency_parts (value : string) : bool * string :=
  let s := strip value in
  let '(negative, s) :=
    if startswith s "(" && endswith s ")"
    then (true, drop_last (drop_first s))
    else (false, s) in
  let s := strip (replace "," "" (replace "$" "" s)) in
  if startswith s "-"
  then (true, strip (lstrip_char "-" s))
  else (negative, s).

(** A trimmed currency text is parenthesized, or starts with a minus
    sign once the currency signs and thousands separators are gone. *)
Definition parenthesized (s : string) : bool :=
  startswith s "(" && endswith s ")".

Definition minus_prefixed (s : string) : bool :=
  startswith (strip (replace "," "" (replace "$" "" s))) "-".

Definition no_money_marks (c : ascii) : bool :=
  negb (Ascii.eqb c "$") && negb (Ascii.eqb c ",").

(** A number text with the minus sign toggled. *)
Definition flip_sign (s : string) : string :=
  if startswith s "-" then drop_first s else "-" ++ s.

Definition is_nan (x : float) : bool :=
  match x with
  | S754_nan => true
  | _ => false
  end.

(** The sign a number is printed with. *)
Definition sign_bit (x : float) : bool :=
  match x with
  | S754_zero s | S754_infinity s | S754_finite s _ _ => s
  | S754_nan => false
  end.

(** The finite numbers of binary64: a mantissa below [2^53], an
    exponent between [-1074] and [971], and a full mantissa unless the
    exponent is the least one. *)
Definition well_formed (x : float) : Prop :=
  match x with
  | S754_finite _ m e =>
      Zpos m < 2 ^ 53 /\ -1074 <= e <= 971
      /\ (2 ^ 52 <= Zpos m \/ e = -1074)
  | _ => True
  end.

Section WithExternals.

Context `{Externals}.

(** The local variables [date_str] and [fitid] of
    [generate_transaction]. *)
Definition date_str_of (row : Row) : string :=
  match parse_date (Date row) with
  | Some dt_obj => strftime dt_obj "%Y%m%d"
  | None => "00000000"
  end.

Definition fitid_of (row : Row) (counter : Z) : string :=
  "TXN" ++ date_str_of row ++ format_04d counter.

(** What [generate_transaction] returns for each row in turn, the
    counter growing by one per row. *)
Fixpoint generate_all
  (mappings : option (list MissingCusipRule)) (counter : Z)
  (rows : list Row)
  : result (list (TransactionEntry * option SecurityInfo)) :=
  match rows with
  | [] => Ok []
  | row :: rest =>
      let* g := generate_transaction mappings row counter in
      let* gs := generate_all mappings (counter + 1) rest in
      Ok (g :: gs)
  end.

End WithExternals.

(** One step of the dictionary of securities. *)
Definition add_security (d : list (string * SecurityInfo))
  (g : TransactionEntry * option SecurityInfo)
  : list (string * SecurityInfo) :=
  record_security (snd g) d.

(** The security entries among the results, in input order. *)
Definition produced_entries
  (gens : list (TransactionEntry * option SecurityInfo))
  : list SecurityInfo :=
  flat_map (fun g => match snd g with Some i => [i] | None => [] end) gens.

(** The distinct elements of a list in order of first appearance. *)
Fixpoint first_appearances (seen ids : list string) : list string :=
  match ids with
  | [] => []
  | k :: rest =>
      if existsb (String.eqb k) seen then first_appearances seen rest
      else k :: first_appearances (seen ++ [k]) rest
  end.

(** The value a key has in an insertion-ordered dictionary. *)
Definition lookup (k : string) (d : list (string * SecurityInfo))
  : option SecurityInfo :=
  option_map snd (find (fun kv => String.eqb (fst kv) k) d).

(** The first entry with a given identifier. *)
Definition first_with_id (k : string) (infos : list SecurityInfo)
  : option SecurityInfo :=
  find (fun i => String.eqb (uniqueid i) k) infos.

Definition render_security (kv : string * SecurityInfo) : string :=
  "      " ++ strip (info_entry (snd kv)).

(** *** Vocabulary for the functions around the generators *)

(** One character of a memo, escaped on its own. *)
Definition escape_char (c : ascii) : string :=
  if Ascii.eqb c "&" then "&amp;"
  else if Ascii.eqb c "<" then "&lt;"
  else if Ascii.eqb c ">" then "&gt;"
  else if Ascii.eqb c dquote then "&quot;"
  else if Ascii.eqb c "'" then "&apos;"
  else String c "".

Fixpoint escape_each (s : string) : string :=
  match s with
  | String c s' => escape_char c ++ escape_each s'
  | EmptyString => EmptyString
  end.

(** The characters that may not stand in the text of an element. *)
Definition markup_char (c : ascii) : bool :=
  Ascii.eqb c "<" || Ascii.eqb c ">" || Ascii.eqb c dquote
  || Ascii.eqb c "'".

(** A line of the CSV file that the search takes as the header, and a
    line on which the search fails. *)
Definition is_header (row : list string) : bool :=
  match row with
  | field0 :: field1 :: _ =>
      String.eqb (strip field0) "Date" && String.eqb (strip field1) "Account"
  | _ => false
  end.

Definition lone_date_field (row : list string) : bool :=
  match row with
  | [field0] => String.eqb (strip field0) "Date"
  | _ => false
  end.

(** A row with another Price, or another Account. *)
Definition set_price (row : Row) (price : string) : Row :=
  {| Date := Date row; Account := Account row; Activity := Activity row;
     Description := Description row; CUSIP := CUSIP row;
     Symbol := Symbol row; Quantity := Quantity row; Price := price;
     Amount := Amount row |}.

Definition set_account (account : string) (row : Row) : Row :=
  {| Date := Date row; Account := account; Activity := Activity row;
     Description := Description row; CUSIP := CUSIP row;
     Symbol := Symbol row; Quantity := Quantity row; Price := Price row;
     Amount := Amount row |}.

(** Two exceptions that differ at most in the Account of the row that
    the error of the missing amount and price prints; two outcomes that
    are equal, or are such exceptions. *)
Definition same_but_account (e1 e2 : exn) : Prop :=
  e1 = e2
  \/ exists row account,
      e2 = NeitherAmountNorPrice row
      /\ e1 = NeitherAmountNorPrice (set_account account row).

Definition alike_but_account {A : Type} (r1 r2 : result A) : Prop :=
  match r1, r2 with
  | Ok x, Ok y => x = y
  | Raise e1, Raise e2 => same_but_account e1 e2
  | _, _ => False
  end.

(** The activities rendered as bank transactions. *)
Definition bank_activities : list string :=
  [ "interest"; "advisory fee"; "journal" ].


Section Dates.

Context `{Externals}.

(** The dates of the rows that have one, in input order. *)
Definition parsed_dates (rows : list Row) : list datetime :=
  flat_map
    (fun row => match parse_date (Date row) with
                | Some d => [d]
                | None => []
                end)
    rows.

(** One step of the running minimum and maximum of the loop. *)
Definition earliest (acc : option datetime) (d : datetime)
  : option datetime :=
  match acc with
  | None => Some d
  | Some m => if dt_ltb d m then Some d else Some m
  end.

Definition latest (acc : option datetime) (d : datetime)
  : option datetime :=
  match acc with
  | None => Some d
  | Some m => if dt_ltb m d then Some d else Some m
  end.

(** The number of clock readings of a successful run. *)
Definition clock_readings (rows : list Row) : nat :=
  match parsed_dates rows with
  | [] => 4
  | _ => 2
  end.

End Dates.

End Spec.
(** ** A small world for the examples

    Dates are triples; [strptime] knows the three formats the program
    uses, on fully padded input; the regular expressions are literal
    texts; the stocks database holds two tickers. *)

Module Demo.
Import PyStr PyFloat Qfx.

Definition date : Type := Z * Z * Z.

Definition is_leap (y : Z) : bool :=
  ((y mod 4 =? 0) && negb (y mod 100 =? 0)) || (y mod 400 =? 0).

Definition days_in_month (y m : Z) : Z :=
  if m =? 2 then (if is_leap y then 29 else 28)
  else if (m =? 4) || (m =? 6) || (m =? 9) || (m =? 11) then 30
  else 31.

Definition all_digits (s : string) : bool :=
  String.eqb (snd (span_digits s)) "" && negb (String.eqb s "").

Definition number (s : string) (len : nat) : option Z :=
  if all_digits s && Nat.eqb (String.length s) len
  then Some (digits_value 0 s) else None.

Definition make_date (y m d : option Z) : option date :=
  match y, m, d with
  | Some y, Some m, Some d =>
      if (1 <=? y) && (1 <=? m) && (m <=? 12) && (1 <=? d)
         && (d <=? days_in_month y m)
      then Some (y, m, d) else None
  | _, _, _ => None
  end.

Definition demo_strptime (s fmt : string) : option date :=
  if String.eqb fmt "%m/%d/%Y" then
    if String.eqb (substring 2 1 s) "/" && String.eqb (substring 5 1 s) "/"
    then make_date (number (substring 6 (String.length s - 6) s) 4)
           (number (substring 0 2 s) 2) (number (substring 3 2 s) 2)
    else None
  else if String.eqb fmt "%Y-%m-%d" then
    if String.eqb (substring 4 1 s) "-" && String.eqb (substring 7 1 s) "-"
    then make_date (number (substring 0 4 s) 4)
           (number (substring 5 2 s) 2)
           (number (substring 8 (String.length s - 8) s) 2)
    else None
  else if String.eqb fmt "%Y%m%d" then
    make_date (number (substring 0 4 s) 4) (number (substring 4 2 s) 2)
      (number (substring 6 (String.length s - 6) s) 2)
  else None.

Definition demo_strftime (d : date) (fmt : string) : string :=
  let '(y, m, dd) := d in
  let ymd := zfill 4 (str_nat y) ++ zfill 2 (str_nat m)
             ++ zfill 2 (str_nat dd) in
  if String.eqb fmt "%Y%m%d" then ymd
  else if String.eqb fmt "%Y%m%d%H%M%S" then ymd ++ "000000"
  else "".

Definition next_day (d : date) : option date :=
  let '(y, m, dd) := d in
  if dd <? days_in_month y m then Some (y, m, dd + 1)
  else if m <? 12 then Some (y, m + 1, 1)
  else if y <? 9999 then Some (y + 1, 1, 1)
  else None.

Definition demo_add_days (d : date) (n : Z) : option date :=
  Z.iter n (fun o => match o with Some x => next_day x | None => None end)
    (Some d).

Definition demo_dt_ltb (a b : date) : bool :=
  let '(y1, m1, d1) := a in
  let '(y2, m2, d2) := b in
  (y1 <? y2) || ((y1 =? y2) && ((m1 <? m2) || ((m1 =? m2) && (d1 <? d2)))).

Fixpoint contains (pat s : string) : bool :=
  String.prefix pat s ||
  match s with
  | String _ s' => contains pat s'
  | EmptyString => false
  end.

Definition externals : Externals :=
  {| datetime := date;
     strptime := demo_strptime;
     strftime := demo_strftime;
     add_days := demo_add_days;
     dt_ltb := demo_dt_ltb;
     now_at := fun _ => (2024, 1, 1);
     re_search := fun pat s => contains pat s;
     is_mutual_fund := fun sym => negb (mem sym ["AAPL"; "MSFT"]) |}.

Definition empty_world : World :=
  {| files := []; clock_reads := 0 |}.

Definition mk_row (date activity description cusip symbol quantity price
                   amount : string) : Row :=
  {| Date := date; Account := "Brokerage"; Activity := activity;
     Description := description; CUSIP := cusip; Symbol := symbol;
     Quantity := quantity; Price := price; Amount := amount |}.

Definition account_mapping (name : string) : option string :=
  if String.eqb name "Brokerage" then Some "12345678" else None.

(** Rows of the examples. *)

Definition funding_row : Row :=
  mk_row "01/05/2023" "buy" "XYZ initial" "" "" "500" "" "-500.00".

Definition sell_row_incomplete : Row :=
  mk_row "03/20/2023" "sell" "Fund" "999888777" "VFIAX" "5" "" "".

Definition reinvest_dist_row : Row :=
  mk_row "03/20/2023" "reinvest dist" "Fund" "999888777" "VFIAX" "5" "" "".

Definition dividend_row_no_cusip : Row :=
  mk_row "02/01/2023" "dividend" "Fund payout" "" "VFIAX" "" "" "12.00".

Definition rebalance_row : Row :=
  mk_row "02/02/2023" "rebalance" "Quarterly" "" "" "" "" "".

Definition fee_row : Row :=
  mk_row "01/05/2023" "Advisory Fee" "Q1 fee" "" "" "" "" "-25.00".

Definition buy_row : Row :=
  mk_row "01/06/2023" "Buy" "ACME <Corp>" "000123456" "AAPL" "10" ""
    "-1,500.00".

Definition interest_row : Row :=
  mk_row "2023-01-30" "Interest" "Bank interest" "" "" "" "" "1.23".

Definition sell_row : Row :=
  mk_row "03/20/2023" "Sell" "Fund & Co" "999888777" "VFIAX" "3" "$100.00"
    "".

Definition cash_out_row : Row :=
  mk_row "04/01/2023" "ach activity" "Withdrawal" "" "" "" "" "(250.00)".

Definition security_transfer_row : Row :=
  mk_row "04/02/2023" "asset trf" "Shares out" "000123456" "AAPL" "-7" ""
    "".

Definition buy_again_row : Row :=
  mk_row "05/06/2023" "buy" "ACME again" "000123456" "" "2" "" "-310.00".

Definition four_rows : list Row :=
  [fee_row; buy_row; interest_row; sell_row].

Definition same_cusip_rows : list Row := [buy_row; buy_again_row].

(** What the rows of an example are turned into, computed once. *)
Definition results_of (rows : list Row)
  : list (TransactionEntry * option SecurityInfo) :=
  match Spec.generate_all (H := externals) (Some []) 1 rows with
  | Ok gens => gens
  | Raise _ => []
  end.

Definition four_rows_results
  : list (TransactionEntry * option SecurityInfo) :=
  Eval vm_compute in results_of four_rows.

Definition same_cusip_results
  : list (TransactionEntry * option SecurityInfo) :=
  Eval vm_compute in results_of same_cusip_rows.

Definition state_after_fee : LoopState (H := externals) :=
  Eval vm_compute in
    match process_rows (H := externals) (Some []) initial_state [fee_row]
    with
    | Ok st => st
    | Raise _ => initial_state
    end.

(** The kind of a fragment, read from its tags. *)
Definition kind_of (fragment : string) : string :=
  if contains "<TRNTYPE>FEE</TRNTYPE>" fragment then "Fee"
  else if contains "<TRNTYPE>INT</TRNTYPE>" fragment then "Interest"
  else if contains "<INVBUY>" fragment then "Buy"
  else if contains "<INVSELL>" fragment then "Sell"
  else if contains "<TRANSFER>" fragment then "Transfer"
  else "Other".

(** Rules for rows without CUSIP: both match "Money Market Fund". *)
Definition money_market_rule : MissingCusipRule :=
  {| description_regex := "Money Market"; rule_uniqueid := "MMF01";
     rule_symbol := "MMKT"; rule_info_tag := "MFINFO" |}.

Definition market_rule : MissingCusipRule :=
  {| description_regex := "Market"; rule_uniqueid := "MKT99";
     rule_symbol := "MKT"; rule_info_tag := "STOCKINFO" |}.

Definition bond_rule : MissingCusipRule :=
  {| description_regex := "Bond"; rule_uniqueid := "BND01";
     rule_symbol := "BOND"; rule_info_tag := "MFINFO" |}.

Definition rules : list MissingCusipRule :=
  [bond_rule; money_market_rule; market_rule].

Definition money_market_row : Row :=
  mk_row "02/10/2023" "buy" "Money Market Fund" "" "" "100" "" "-100.00".

Definition priced_sell_row : Row :=
  mk_row "03/20/2023" "sell" "Fund" "999888777" "VFIAX" "3" "100.00" "".

Definition blank_fee_row : Row :=
  mk_row "01/05/2023" "advisory fee" "Q1 fee" "" "" "" "" "".

Definition blank_transfer_row : Row :=
  mk_row "04/01/2023" "ach activity" "Withdrawal" "" "" "" "" "  ".

Definition blank_funding_row : Row :=
  mk_row "01/05/2023" "buy" "XYZ initial" "" "" "500" "" "".

Definition separator_funding_row : Row :=
  mk_row "01/05/2023" "buy" "XYZ initial" "" "" "1,000" "" "-1,000.00".

Definition undated_fee_row : Row :=
  mk_row "soon" "journal" "Adjustment" "" "" "" "" "3.00".

(** Rows with dates in two formats, and one without a readable date. *)
Definition dated_rows : list Row :=
  [interest_row; undated_fee_row; fee_row].

Definition state_after_dated : LoopState (H := externals) :=
  Eval vm_compute in
    match process_rows (H := externals) (Some []) initial_state dated_rows
    with
    | Ok st => st
    | Raise _ => initial_state
    end.

Definition csv_lines : list (list string) :=
  [ ["Statement"; "2023"];
    [];
    [" Date"; "Account "; "Activity"; "Price 1"; "Price 2"];
    ["01/05/2023"; "Brokerage"; "buy"; "1.00"; "2.00"];
    ["01/06/2023"; "Brokerage"; "sell"; ""; ""];
    [""; "  "; ""];
    ["Total"; "2"] ].

End Demo.

(** * Properties *)

Import PyStr PyFloat Qfx Spec.

(** ** Rounding to the nearest integer *)

Section RoundDiv.

Lemma round_div_cases (a b : Z) :
  0 < b ->
  exists d r,
    a = b * d + r /\ 0 <= r < b
    /\ ((2 * r < b /\ round_div a b = d)
        \/ (2 * r > b /\ round_div a b = d + 1)
        \/ (2 * r = b /\ round_div a b = d /\ Z.even d = true)
        \/ (2 * r = b /\ round_div a b = d + 1 /\ Z.even d = false)).
Proof.
  intros Hb. exists (a / b), (a mod b).
  pose proof (Z.div_mod a b ltac:(lia)) as Hdm.
  pose proof (Z.mod_pos_bound a b Hb) as Hr.
  split; [ exact Hdm | split; [ exact Hr | ] ].
  unfold round_div.
  destruct (Z.compare_spec (2 * (a mod b)) b) as [E | E | E].
  - destruct (Z.even (a / b)) eqn:Hev; [ right; right; left | do 3 right ];
      auto.
  - left. auto.
  - right. left. split; [ lia | reflexivity ].
Qed.

Lemma round_div_bounds (a b : Z) :
  0 < b ->
  2 * a - b <= 2 * b * round_div a b <= 2 * a + b.
Proof.
  intros Hb.
  destruct (round_div_cases a b Hb) as (d & r & Ha & Hr & Hc).
  destruct Hc as [[? ->] | [[? ->] | [(? & -> & _) | (? & -> & _)]]]; nia.
Qed.

Lemma round_div_unique (a b n : Z) :
  0 < b ->
  - b < 2 * (a - n * b) < b ->
  round_div a b = n.
Proof.
  intros Hb Hn.
  destruct (round_div_cases a b Hb) as (d & r & Ha & Hr & Hc).
  destruct Hc as [[? ->] | [[? ->] | [(? & -> & _) | (? & -> & _)]]]; nia.
Qed.

Lemma round_div_exact (n b : Z) :
  0 < b -> round_div (n * b) b = n.
Proof.
  intros Hb. apply round_div_unique; [ exact Hb | lia ].
Qed.

Lemma round_div_scale (a b c : Z) :
  0 < b -> 0 < c ->
  round_div (a * c) (b * c) = round_div a b.
Proof.
  intros Hb Hc. unfold round_div.
  rewrite Z.div_mul_cancel_r by lia.
  rewrite Z.mul_mod_distr_r by lia.
  replace (2 * (a mod b * c)) with (2 * (a mod b) * c) by ring.
  rewrite <- Zmult_compare_compat_r by lia.
  reflexivity.
Qed.

Lemma round_div_nonneg (a b : Z) :
  0 <= a -> 0 < b -> 0 <= round_div a b.
Proof.
  intros Ha Hb. pose proof (round_div_bounds a b Hb). nia.
Qed.

Lemma round_div_le (a b k : Z) :
  0 < b -> a <= k * b -> round_div a b <= k.
Proof.
  intros Hb Hk. pose proof (round_div_bounds a b Hb). nia.
Qed.

Lemma round_div_ge (a b k : Z) :
  0 < b -> k * b <= a -> k <= round_div a b.
Proof.
  intros Hb Hk. pose proof (round_div_bounds a b Hb). nia.
Qed.

End RoundDiv.

(** ** The binary logarithm of a quotient *)

Section Log2.

Lemma ilog2_ratio_spec (p q : Z) :
  0 < q -> q <= p ->
  let l := ilog2_ratio p q in
  0 <= l /\ q * 2 ^ l <= p < q * 2 ^ (l + 1).
Proof.
  intros Hq Hp. unfold ilog2_ratio.
  pose proof (Z.log2_spec p ltac:(lia)) as [Hp1 Hp2].
  pose proof (Z.log2_spec q Hq) as [Hq1 Hq2].
  pose proof (Z.log2_le_mono q p Hp) as Hmono.
  set (a := Z.log2 p) in *. set (b := Z.log2 q) in *.
  assert (Hb : 0 <= b) by apply Z.log2_nonneg.
  replace (Z.succ a) with (a + 1) in Hp2 by lia.
  replace (Z.succ b) with (b + 1) in Hq2 by lia.
  assert (Hsplit : 2 ^ a = 2 ^ b * 2 ^ (a - b)).
  { rewrite <- Z.pow_add_r by lia. f_equal. lia. }
  assert (Hs1 : 2 ^ (a + 1) = 2 * 2 ^ a) by (rewrite Z.pow_add_r; lia).
  assert (Hs2 : 2 ^ (b + 1) = 2 * 2 ^ b) by (rewrite Z.pow_add_r; lia).
  assert (Hs3 : 2 ^ (a - b + 1) = 2 * 2 ^ (a - b))
    by (rewrite Z.pow_add_r; lia).
  assert (Hpos : 0 < 2 ^ (a - b)) by (apply Z.pow_pos_nonneg; lia).
  destruct (Z.leb_spec (q * 2 ^ (a - b)) p) as [Hle | Hgt].
  - split; [ lia | split; [ exact Hle | ] ]. rewrite Hs3. nia.
  - assert (Hab : 0 < a - b).
    { destruct (Z.eq_dec a b) as [E | E]; [ | lia ].
      rewrite E, Z.sub_diag in Hgt. simpl in Hgt. lia. }
    assert (Hs4 : 2 ^ (a - b) = 2 * 2 ^ (a - b - 1)).
    { replace (a - b) with ((a - b - 1) + 1) at 1 by lia.
      rewrite Z.pow_add_r; lia. }
    replace (a - b - 1 + 1) with (a - b) by lia.
    split; [ lia | split; [ nia | lia ] ].
Qed.

Lemma ilog2_ratio_small (p q : Z) :
  0 < p -> p < q -> ilog2_ratio p q <= 0.
Proof.
  intros Hp Hq. unfold ilog2_ratio.
  pose proof (Z.log2_le_mono p q ltac:(lia)).
  destruct (q * 2 ^ (Z.log2 p - Z.log2 q) <=? p); lia.
Qed.

Lemma ilog2_ratio_unique (p q l : Z) :
  0 < q -> 0 <= l ->
  q * 2 ^ l <= p < q * 2 ^ (l + 1) ->
  ilog2_ratio p q = l.
Proof.
  intros Hq Hl [H1 H2].
  assert (Hpl : 0 < 2 ^ l) by (apply Z.pow_pos_nonneg; lia).
  assert (Hqp : q <= p) by nia.
  destruct (ilog2_ratio_spec p q Hq Hqp) as [Hk [H3 H4]].
  set (k := ilog2_ratio p q) in *.
  destruct (Z.lt_trichotomy k l) as [Hlt | [E | Hgt]]; [ | exact E | ].
  - assert (2 ^ (k + 1) <= 2 ^ l) by (apply Z.pow_le_mono_r; lia). nia.
  - assert (2 ^ (l + 1) <= 2 ^ k) by (apply Z.pow_le_mono_r; lia). nia.
Qed.

End Log2.

(** ** Decimal to binary64 *)

Section OfRatio.

Let T : Z := 2 ^ unit_shift.

Lemma of_ratio_mantissa (p q : Z) :
  0 < p -> 0 < q ->
  let e := Z.max 0 (ilog2_ratio (p * T) q - 52) in
  let m := round_div (p * T) (q * 2 ^ e) in
  0 <= m <= 2 ^ 53 /\ (0 < e -> 2 ^ 52 <= m).
Proof.
  intros Hp Hq e m.
  assert (HT : 0 < T) by (apply Z.pow_pos_nonneg; unfold unit_shift; lia).
  assert (HP : 0 < p * T) by nia.
  assert (He : 0 <= e) by (unfold e; lia).
  assert (Hpe : 0 < 2 ^ e) by (apply Z.pow_pos_nonneg; lia).
  assert (Hm0 : 0 <= m)
    by (apply round_div_nonneg; [ lia | nia ]).
  destruct (Z_lt_le_dec (p * T) q) as [Hsmall | Hbig].
  - pose proof (ilog2_ratio_small (p * T) q HP Hsmall) as Hl.
    assert (E0 : e = 0) by (unfold e; lia).
    split; [ | lia ].
    split; [ exact Hm0 | ].
    apply round_div_le; [ nia | ]. rewrite E0.
    change (2 ^ 0) with 1. assert (0 < 2 ^ 53) by reflexivity. nia.
  - destruct (ilog2_ratio_spec (p * T) q Hq Hbig) as [Hl [H1 H2]].
    set (l := ilog2_ratio (p * T) q) in *.
    destruct (Z_le_gt_dec l 52) as [Hle | Hgt].
    + assert (E0 : e = 0) by (unfold e; lia).
      split; [ | lia ].
      split; [ exact Hm0 | ].
      apply round_div_le; [ nia | ]. rewrite E0.
      change (2 ^ 0) with 1.
      assert (2 ^ (l + 1) <= 2 ^ 53) by (apply Z.pow_le_mono_r; lia).
      nia.
    + assert (El : l = e + 52) by (unfold e; lia).
      assert (Hs1 : 2 ^ l = 2 ^ e * 2 ^ 52)
        by (rewrite El, Z.pow_add_r; lia).
      assert (Hs2 : 2 ^ (l + 1) = 2 ^ e * 2 ^ 53).
      { replace (l + 1) with (e + 53) by lia. rewrite Z.pow_add_r; lia. }
      rewrite Hs1 in H1. rewrite Hs2 in H2.
      split; [ split; [ exact Hm0 | ] | intros _ ].
      * apply round_div_le; [ nia | ].
        generalize dependent (2 ^ 53). intros. nia.
      * apply round_div_ge; [ nia | ].
        generalize dependent (2 ^ 52). intros. nia.
Qed.

Lemma of_ratio_well_formed (s : bool) (p q : Z) :
  0 < p -> 0 < q -> well_formed (of_ratio s p q).
Proof.
  intros Hp Hq.
  pose proof (of_ratio_mantissa p q Hp Hq) as Hm. cbv zeta in Hm.
  unfold of_ratio. fold T.
  set (e := Z.max 0 (ilog2_ratio (p * T) q - 52)) in *.
  set (m := round_div (p * T) (q * 2 ^ e)) in *.
  assert (He : 0 <= e) by (unfold e; lia).
  destruct Hm as [[Hm0 Hm1] Hm2].
  destruct (Z.eqb_spec m (2 ^ 53)) as [Ec | Ec].
  - change (2 ^ 52) with (Zpos (2 ^ 52)%positive).
    cbv iota beta.
    destruct (Z.leb_spec (e + 1 - unit_shift) 971); simpl; [ | exact I ].
    unfold unit_shift in *. repeat split; lia.
  - destruct m as [| mp | mp]; simpl; try exact I.
    destruct (Z.leb_spec (e - unit_shift) 971); simpl; [ | exact I ].
    assert (Hfull : 2 ^ 52 <= Z.pos mp \/ e = 0).
    { destruct (Z.eq_dec e 0) as [E0 | E0]; [ right; exact E0 | left ].
      apply Hm2. lia. }
    unfold unit_shift in *. repeat split; lia.
Qed.

(** The heart of the round trip.  A binary64 number of [m * 2^E]
    units, written with two decimals as [N / 100], is read back as a
    number whose two-decimal form is [N / 100] again: at or above
    [2^46] the decimals determine the number itself; below, the number
    read lies within a quarter of a hundredth of [N / 100]. *)
Lemma units_reparse (m E : Z) :
  0 < m < 2 ^ 53 -> 0 <= E <= 2045 -> (2 ^ 52 <= m \/ E = 0) ->
  let N := round_div (m * 100 * 2 ^ E) T in
  0 < N ->
  let E' := Z.max 0 (ilog2_ratio (N * T) 100 - 52) in
  let m0 := round_div (N * T) (100 * 2 ^ E') in
  0 < m0 /\ E' <= 2045 /\ (m0 = 2 ^ 53 -> E' <= 2044)
  /\ round_div (m0 * 100 * 2 ^ E') T = N.
Proof.
  intros Hm HE Hfull N HN E' m0.
  assert (HT : 0 < T) by (apply Z.pow_pos_nonneg; unfold unit_shift; lia).
  assert (HpE : 0 < 2 ^ E) by (apply Z.pow_pos_nonneg; lia).
  assert (H52 : 0 < 2 ^ 52) by reflexivity.
  assert (H53 : 2 ^ 53 = 2 * 2 ^ 52) by reflexivity.
  destruct (Z_le_gt_dec 1068 E) as [Hbig | Hsmall].
  - (* at or above 2^46: the number itself is read back *)
    assert (Hm52 : 2 ^ 52 <= m) by lia.
    assert (Hgoal : ilog2_ratio (N * T) 100 = E + 52
                    /\ round_div (N * T) (100 * 2 ^ E) = m).
    { destruct (Z_le_gt_dec 1074 E) as [Hint | Hfrac].
      - (* a whole number of hundredths *)
        assert (HE2 : 2 ^ E = 2 ^ (E - 1074) * T).
        { unfold T, unit_shift. rewrite <- Z.pow_add_r by lia.
          f_equal. lia. }
        assert (HN' : N = m * 100 * 2 ^ (E - 1074)).
        { unfold N. rewrite HE2.
          replace (m * 100 * (2 ^ (E - 1074) * T))
            with (m * 100 * 2 ^ (E - 1074) * T) by ring.
          apply round_div_exact, HT. }
        assert (HP : N * T = m * (100 * 2 ^ E)).
        { rewrite HN', HE2. ring. }
        rewrite HP. split.
        + apply ilog2_ratio_unique; [ lia | lia | ].
          rewrite !Z.pow_add_r by lia. change (2 ^ 1) with 2.
          rewrite H53 in Hm. nia.
        + apply round_div_exact. nia.
      - (* between one and six binary fraction digits *)
        set (j := 1074 - E).
        assert (Hj : 1 <= j <= 6) by (unfold j; lia).
        assert (HTj : T = 2 ^ j * 2 ^ E).
        { unfold T, unit_shift, j. rewrite <- Z.pow_add_r by lia.
          f_equal. lia. }
        assert (Hpj : 2 <= 2 ^ j <= 64).
        { split.
          - change 2 with (2 ^ 1) at 1. apply Z.pow_le_mono_r; lia.
          - change 64 with (2 ^ 6). apply Z.pow_le_mono_r; lia. }
        assert (HN' : N = round_div (m * 100) (2 ^ j)).
        { unfold N. rewrite HTj. apply round_div_scale; lia. }
        pose proof (round_div_bounds (m * 100) (2 ^ j) ltac:(lia)) as Hb.
        rewrite <- HN' in Hb.
        assert (HP : N * T = N * 2 ^ j * 2 ^ E) by (rewrite HTj; ring).
        assert (Hlow : 100 * 2 ^ 52 <= N * 2 ^ j).
        { destruct (Z.eq_dec m (2 ^ 52)) as [Em | Em]; [ | lia ].
          assert (Hsp : 2 ^ 52 = 2 ^ (52 - j) * 2 ^ j).
          { rewrite <- Z.pow_add_r by lia. f_equal. lia. }
          assert (HNe : N = 100 * 2 ^ (52 - j)).
          { rewrite HN', Em, Hsp.
            replace (2 ^ (52 - j) * 2 ^ j * 100)
              with (100 * 2 ^ (52 - j) * 2 ^ j) by ring.
            apply round_div_exact. lia. }
          rewrite HNe, Hsp. lia. }
        split.
        + apply ilog2_ratio_unique; [ lia | lia | ].
          rewrite HP, !Z.pow_add_r by lia. change (2 ^ 1) with 2.
          rewrite H53 in Hm. nia.
        + rewrite HP.
          rewrite round_div_scale by lia.
          apply round_div_unique; lia. }
    destruct Hgoal as [Hlog Hround].
    assert (HE' : E' = E) by (unfold E'; rewrite Hlog; lia).
    unfold m0. rewrite HE', Hround.
    split; [ lia | split; [ lia | split; [ lia | reflexivity ] ] ].
  - (* below 2^46 *)
    assert (HT7 : T = 128 * 2 ^ 1067) by reflexivity.
    assert (H1067 : 0 < 2 ^ 1067) by reflexivity.
    assert (HEle : 2 ^ E <= 2 ^ 1067) by (apply Z.pow_le_mono_r; lia).
    assert (HNle : N <= 100 * 2 ^ 46).
    { apply round_div_le; [ exact HT | ].
      assert (H46 : 2 ^ 53 * 2 ^ 1067 = 2 ^ 46 * T) by reflexivity.
      rewrite H53 in Hm. nia. }
    assert (HP : 100 <= N * T) by (rewrite HT7; nia).
    destruct (ilog2_ratio_spec (N * T) 100 ltac:(lia) HP)
      as [Hl [Hl1 Hl2]].
    set (l := ilog2_ratio (N * T) 100) in *.
    assert (Hl1067 : 1067 <= l).
    { destruct (Z_le_gt_dec 1067 l) as [? | Hlt]; [ assumption | ].
      assert (2 ^ (l + 1) <= 2 ^ 1067) by (apply Z.pow_le_mono_r; lia).
      nia. }
    assert (Hl1120 : l <= 1120).
    { destruct (Z_le_gt_dec l 1120) as [? | Hgt]; [ assumption | ].
      assert (Hp' : 2 ^ 1121 <= 2 ^ l) by (apply Z.pow_le_mono_r; lia).
      assert (H1121 : 2 ^ 1121 = 2 * 2 ^ 46 * T) by reflexivity.
      nia. }
    assert (HE' : E' = l - 52) by (unfold E'; fold l; lia).
    assert (HpE' : 0 < 2 ^ E') by (apply Z.pow_pos_nonneg; lia).
    assert (Hs1 : 2 ^ l = 2 ^ 52 * 2 ^ E').
    { rewrite HE', <- Z.pow_add_r by lia. f_equal. lia. }
    pose proof (round_div_bounds (N * T) (100 * 2 ^ E') ltac:(lia)) as Hb.
    fold m0 in Hb.
    assert (Hm0 : 2 ^ 52 <= m0).
    { unfold m0. apply round_div_ge; [ lia | ]. rewrite Hs1 in Hl1. lia. }
    split; [ lia | split; [ lia | split; [ lia | ] ] ].
    destruct (Z_le_gt_dec E' 1067) as [Hle | Hgt].
    + assert (2 ^ E' <= 2 ^ 1067) by (apply Z.pow_le_mono_r; lia).
      apply round_div_unique; [ exact HT | ].
      rewrite HT7 in *. lia.
    + assert (El : l = 1120) by lia.
      assert (EE : E' = 1068) by lia.
      assert (H1120 : 2 ^ 1120 = 2 ^ 46 * T) by reflexivity.
      rewrite El, H1120 in Hl1.
      assert (EN : N = 100 * 2 ^ 46) by nia.
      assert (HPx : N * T = 2 ^ 52 * (100 * 2 ^ E')).
      { rewrite EN, EE. reflexivity. }
      assert (Em0 : m0 = 2 ^ 52).
      { unfold m0. rewrite HPx. apply round_div_exact. lia. }
      rewrite Em0.
      replace (2 ^ 52 * 100 * 2 ^ E') with (N * T) by (rewrite HPx; ring).
      apply round_div_exact, HT.
Qed.

End OfRatio.

(** ** Strings *)

Section Strings.

Lemma string_forall_app (P : ascii -> bool) (s t : string) :
  string_forall P (s ++ t) = string_forall P s && string_forall P t.
Proof.
  induction s as [| c s IH]; simpl.
  - reflexivity.
  - rewrite IH. apply andb_assoc.
Qed.

Lemma string_forall_impl (P Q : ascii -> bool) (s : string) :
  (forall c, P c = true -> Q c = true) ->
  string_forall P s = true -> string_forall Q s = true.
Proof.
  intros HPQ. induction s as [| c s IH]; simpl.
  - reflexivity.
  - intros Hs. apply andb_true_iff in Hs. destruct Hs as [Hc Hs].
    rewrite (HPQ c Hc), (IH Hs). reflexivity.
Qed.

Lemma append_nil_r (s : string) : s ++ "" = s.
Proof.
  induction s as [| c s IH]; simpl; [ reflexivity | now rewrite IH ].
Qed.

Lemma append_assoc (s t u : string) : (s ++ t) ++ u = s ++ t ++ u.
Proof.
  induction s as [| c s IH]; simpl; [ reflexivity | now rewrite IH ].
Qed.

Lemma length_append (s t : string) :
  String.length (s ++ t) = (String.length s + String.length t)%nat.
Proof.
  induction s as [| c s IH]; simpl; [ reflexivity | now rewrite IH ].
Qed.

(** *** Trimming *)

Section StripBy.

Variable P : ascii -> bool.

Lemma lstrip_by_idempotent (s : string) :
  lstrip_by P (lstrip_by P s) = lstrip_by P s.
Proof.
  induction s as [| c s IH]; simpl.
  - reflexivity.
  - destruct (P c) eqn:Hc; [ exact IH | ].
    simpl. rewrite Hc. reflexivity.
Qed.

Lemma rstrip_by_idempotent (s : string) :
  rstrip_by P (rstrip_by P s) = rstrip_by P s.
Proof.
  induction s as [| c s IH]; simpl.
  - reflexivity.
  - destruct (rstrip_by P s) as [| c' r] eqn:Hr.
    + destruct (P c) eqn:Hc; simpl; [ reflexivity | ].
      rewrite Hc. reflexivity.
    + simpl. simpl in IH. rewrite IH. reflexivity.
Qed.

Lemma rstrip_by_lstrip_by (s : string) :
  rstrip_by P (lstrip_by P s) = lstrip_by P (rstrip_by P s).
Proof.
  induction s as [| c s IH]; simpl.
  - reflexivity.
  - destruct (P c) eqn:Hc.
    + rewrite IH. destruct (rstrip_by P s) as [| c' r]; simpl.
      * reflexivity.
      * rewrite Hc. reflexivity.
    + simpl. destruct (rstrip_by P s) as [| c' r]; simpl; rewrite Hc;
        reflexivity.
Qed.

Lemma rstrip_by_none (s : string) :
  string_forall (fun c => negb (P c)) s = true -> rstrip_by P s = s.
Proof.
  induction s as [| c s IH]; simpl.
  - reflexivity.
  - intros Hs. apply andb_true_iff in Hs. destruct Hs as [Hc Hs].
    rewrite (IH Hs). apply negb_true_iff in Hc. rewrite Hc.
    destruct s; reflexivity.
Qed.

Lemma lstrip_by_first (c : ascii) (s : string) :
  P c = false -> lstrip_by P (String c s) = String c s.
Proof.
  intros Hc. simpl. rewrite Hc. reflexivity.
Qed.

Lemma lstrip_by_none (s : string) :
  string_forall (fun c => negb (P c)) s = true -> lstrip_by P s = s.
Proof.
  destruct s as [| c s]; simpl.
  - reflexivity.
  - intros Hs. apply andb_true_iff in Hs. destruct Hs as [Hc _].
    apply negb_true_iff in Hc. rewrite Hc. reflexivity.
Qed.

End StripBy.

Lemma strip_idempotent (s : string) : strip (strip s) = strip s.
Proof.
  unfold strip, lstrip, rstrip.
  rewrite (rstrip_by_lstrip_by is_space (rstrip_by is_space s)).
  rewrite rstrip_by_idempotent, lstrip_by_idempotent.
  reflexivity.
Qed.

Lemma strip_no_space (s : string) :
  string_forall (fun c => negb (is_space c)) s = true -> strip s = s.
Proof.
  intros Hs. unfold strip, lstrip, rstrip.
  rewrite (rstrip_by_none is_space s Hs). apply lstrip_by_none, Hs.
Qed.

Lemma replace_absent (old : ascii) (new s : string) :
  string_forall (fun c => negb (Ascii.eqb c old)) s = true ->
  replace old new s = s.
Proof.
  induction s as [| c s IH]; simpl.
  - reflexivity.
  - intros Hs. apply andb_true_iff in Hs. destruct Hs as [Hc Hs].
    apply negb_true_iff in Hc. rewrite Hc, (IH Hs). reflexivity.
Qed.

(** *** Digits *)

Lemma code_digit_char (d : Z) :
  0 <= d < 10 -> code (digit_char d) = 48 + d.
Proof.
  intros Hd. unfold code, digit_char.
  rewrite nat_ascii_embedding by lia. lia.
Qed.

Lemma is_digit_digit_char (d : Z) :
  0 <= d < 10 -> is_digit (digit_char d) = true.
Proof.
  intros Hd. unfold is_digit. rewrite code_digit_char by exact Hd.
  apply andb_true_iff. split; apply Z.leb_le; lia.
Qed.

Lemma digit_val_digit_char (d : Z) :
  0 <= d < 10 -> digit_val (digit_char d) = d.
Proof.
  intros Hd. unfold digit_val. rewrite code_digit_char by exact Hd. lia.
Qed.

Lemma digits_value_shift (s : string) :
  forall a,
    digits_value a s
    = a * 10 ^ Z.of_nat (String.length s) + digits_value 0 s.
Proof.
  induction s as [| c s IH]; intros a.
  - simpl. lia.
  - cbn [digits_value String.length].
    rewrite (IH (10 * a + digit_val c)), (IH (10 * 0 + digit_val c)).
    rewrite Nat2Z.inj_succ, Z.pow_succ_r by lia. ring.
Qed.

Lemma digits_value_app (s t : string) :
  digits_value 0 (s ++ t)
  = digits_value 0 s * 10 ^ Z.of_nat (String.length t) + digits_value 0 t.
Proof.
  induction s as [| c s IH].
  - simpl. lia.
  - cbn [append digits_value].
    rewrite (digits_value_shift (s ++ t)), (digits_value_shift s), IH.
    rewrite length_append, Nat2Z.inj_add, Z.pow_add_r by lia. ring.
Qed.

Lemma digits_value_nonneg (s : string) :
  string_forall is_digit s = true ->
  forall a, 0 <= a -> 0 <= digits_value a s.
Proof.
  induction s as [| c s IH]; cbn [digits_value string_forall];
    intros Hs a Ha.
  - exact Ha.
  - apply andb_true_iff in Hs. destruct Hs as [Hc Hs].
    apply IH; [ exact Hs | ].
    unfold is_digit in Hc. apply andb_true_iff in Hc.
    destruct Hc as [Hc _]. apply Z.leb_le in Hc.
    unfold digit_val. lia.
Qed.

Lemma single_digit (d : Z) :
  0 <= d < 10 ->
  string_forall is_digit (String (digit_char d) "") = true
  /\ String (digit_char d) "" <> ""
  /\ digits_value 0 (String (digit_char d) "") = d.
Proof.
  intros Hd. cbn [string_forall digits_value].
  rewrite is_digit_digit_char, digit_val_digit_char by exact Hd.
  split; [ reflexivity | split; [ discriminate | lia ] ].
Qed.

(** The digits written by [digits_fuel], given enough fuel. *)
Lemma digits_fuel_spec (fuel : nat) :
  forall n acc,
    0 <= n < 2 ^ Z.of_nat (S fuel) ->
    exists ds,
      digits_fuel fuel n acc = ds ++ acc
      /\ string_forall is_digit ds = true
      /\ ds <> ""
      /\ digits_value 0 ds = n.
Proof.
  induction fuel as [| f IH]; intros n acc Hn.
  - change (2 ^ Z.of_nat 1) with 2 in Hn. cbn [digits_fuel].
    exists (String (digit_char (n mod 10)) "").
    rewrite Z.mod_small by lia.
    split; [ reflexivity | apply single_digit; lia ].
  - cbn [digits_fuel].
    destruct (Z.ltb_spec n 10) as [Hlt | Hge].
    + exists (String (digit_char (n mod 10)) "").
      rewrite Z.mod_small by lia.
      split; [ reflexivity | apply single_digit; lia ].
    + assert (Hdiv : 0 <= n / 10 < 2 ^ Z.of_nat (S f)).
      { rewrite Nat2Z.inj_succ, Z.pow_succ_r in Hn by lia.
        split; [ apply Z.div_pos; lia | ].
        apply Z.div_lt_upper_bound; lia. }
      destruct (IH (n / 10) (String (digit_char (n mod 10)) acc) Hdiv)
        as (ds & Heq & Hdig & Hne & Hval).
      exists (ds ++ String (digit_char (n mod 10)) "").
      pose proof (Z.mod_pos_bound n 10 ltac:(lia)) as Hmod.
      destruct (single_digit (n mod 10) Hmod) as (Hd1 & _ & Hd3).
      rewrite Heq, append_assoc.
      split; [ reflexivity | ].
      rewrite string_forall_app, Hdig, Hd1.
      split; [ reflexivity | ].
      split; [ destruct ds; discriminate | ].
      rewrite digits_value_app, Hval, Hd3.
      change (Z.of_nat (String.length (String (digit_char (n mod 10)) "")))
        with 1.
      pose proof (Z.div_mod n 10 ltac:(lia)). lia.
Qed.

Lemma str_nat_spec (n : Z) :
  0 <= n ->
  string_forall is_digit (str_nat n) = true
  /\ str_nat n <> ""
  /\ digits_value 0 (str_nat n) = n.
Proof.
  intros Hn. unfold str_nat.
  assert (Hfuel : 0 <= n < 2 ^ Z.of_nat (S (Z.to_nat (Z.log2 n)))).
  { split; [ exact Hn | ].
    rewrite Nat2Z.inj_succ, Z2Nat.id by apply Z.log2_nonneg.
    destruct (Z.eq_dec n 0) as [-> | Hnz]; [ reflexivity | ].
    apply Z.log2_spec. lia. }
  destruct (digits_fuel_spec _ n "" Hfuel) as (ds & Heq & Hdig & Hne & Hval).
  rewrite Heq, append_nil_r. auto.
Qed.

Lemma span_digits_app (ds : string) (c : ascii) (rest : string) :
  string_forall is_digit ds = true ->
  is_digit c = false ->
  span_digits (ds ++ String c rest) = (ds, String c rest).
Proof.
  intros Hds Hc. induction ds as [| d ds IH]; simpl.
  - rewrite Hc. reflexivity.
  - simpl in Hds. apply andb_true_iff in Hds. destruct Hds as [Hd Hds].
    rewrite Hd, (IH Hds). reflexivity.
Qed.

Lemma span_digits_all (ds : string) :
  string_forall is_digit ds = true ->
  span_digits ds = (ds, "").
Proof.
  intros Hds. induction ds as [| d ds IH]; simpl.
  - reflexivity.
  - simpl in Hds. apply andb_true_iff in Hds. destruct Hds as [Hd Hds].
    rewrite Hd, (IH Hds). reflexivity.
Qed.

Lemma span_digits_digits (s : string) :
  string_forall is_digit (fst (span_digits s)) = true.
Proof.
  induction s as [| c s IH]; simpl.
  - reflexivity.
  - destruct (is_digit c) eqn:Hc; [ | reflexivity ].
    destruct (span_digits s) as [ds rest]. simpl in *.
    rewrite Hc, IH. reflexivity.
Qed.

End Strings.

(** ** Printing a number and reading it back *)

Section PrintParse.

Lemma numeric_char_class (c : ascii) :
  numeric_char c = true ->
  is_space c = false /\ is_float_space c = false
  /\ Ascii.eqb c "$" = false /\ Ascii.eqb c "," = false
  /\ Ascii.eqb c "_" = false.
Proof.
  destruct c as [[] [] [] [] [] [] [] []]; intros Hc;
    try discriminate Hc; repeat split; reflexivity.
Qed.

Lemma digit_class (c : ascii) :
  is_digit c = true ->
  numeric_char c = true
  /\ Ascii.eqb c "-" = false /\ Ascii.eqb c "+" = false
  /\ Ascii.eqb c "(" = false /\ Ascii.eqb c "." = false.
Proof.
  destruct c as [[] [] [] [] [] [] [] []]; intros Hc;
    try discriminate Hc; repeat split; reflexivity.
Qed.

Lemma two_digits (r : Z) :
  0 <= r < 100 ->
  zfill 2 (str_nat r)
  = String (digit_char (r / 10)) (String (digit_char (r mod 10)) "").
Proof.
  intros Hr.
  assert (Hall :
            forallb
              (fun k =>
                 String.eqb (zfill 2 (str_nat (Z.of_nat k)))
                   (String (digit_char (Z.of_nat k / 10))
                      (String (digit_char (Z.of_nat k mod 10)) "")))
              (seq 0 100) = true) by (vm_compute; reflexivity).
  rewrite forallb_forall in Hall.
  specialize (Hall (Z.to_nat r)).
  rewrite Z2Nat.id in Hall by lia.
  apply String.eqb_eq, Hall, in_seq. lia.
Qed.

(** The shape of a non-negative number printed with two decimals. *)
Lemma fixed_digits_2 (n : Z) :
  0 <= n ->
  exists c0 rest d1 d2,
    fixed_digits 2 n
    = String c0 rest ++ "." ++ String d1 (String d2 "")
    /\ string_forall is_digit (String c0 rest) = true
    /\ is_digit d1 = true /\ is_digit d2 = true
    /\ digits_value 0 (String c0 rest ++ String d1 (String d2 "")) = n.
Proof.
  intros Hn. unfold fixed_digits.
  change (10 ^ Z.of_nat 2) with 100.
  pose proof (Z.mod_pos_bound n 100 ltac:(lia)) as Hr.
  pose proof (Z.div_pos n 100 Hn ltac:(lia)) as Hq.
  destruct (str_nat_spec (n / 100) Hq) as (Hdig & Hne & Hval).
  destruct (str_nat (n / 100)) as [| c0 rest] eqn:Hs; [ congruence | ].
  rewrite (two_digits _ Hr).
  pose proof (Z.mod_pos_bound (n mod 100) 10 ltac:(lia)) as Hd2.
  assert (Hd1 : 0 <= n mod 100 / 10 < 10).
  { split; [ apply Z.div_pos; lia | apply Z.div_lt_upper_bound; lia ]. }
  exists c0, rest, (digit_char (n mod 100 / 10)),
    (digit_char (n mod 100 mod 10)).
  split; [ reflexivity | ].
  split; [ exact Hdig | ].
  split; [ now apply is_digit_digit_char | ].
  split; [ now apply is_digit_digit_char | ].
  rewrite digits_value_app, Hval.
  cbn [digits_value String.length].
  rewrite !digit_val_digit_char by assumption.
  change (10 ^ Z.of_nat 2) with 100.
  pose proof (Z.div_mod n 100 ltac:(lia)).
  pose proof (Z.div_mod (n mod 100) 10 ltac:(lia)).
  lia.
Qed.

Lemma drop_underscores_none (s : string) :
  string_forall (fun c => negb (Ascii.eqb c "_")) s = true ->
  forall prev,
    Ascii.eqb prev "_" = false ->
    drop_underscores prev s = Some s.
Proof.
  induction s as [| c s IH]; simpl; intros Hs prev Hprev.
  - rewrite Hprev. reflexivity.
  - apply andb_true_iff in Hs. destruct Hs as [Hc Hs].
    apply negb_true_iff in Hc. rewrite Hc, Hprev. simpl.
    rewrite (IH Hs c Hc). reflexivity.
Qed.

(** Reading a printed two-decimal number. *)
Lemma float_of_string_fixed (c0 : ascii) (rest : string) (d1 d2 : ascii) :
  string_forall is_digit (String c0 rest) = true ->
  is_digit d1 = true -> is_digit d2 = true ->
  float_of_string (String c0 rest ++ "." ++ String d1 (String d2 ""))
  = Some (of_decimal false
            (digits_value 0 (String c0 rest ++ String d1 (String d2 "")))
            (-2)).
Proof.
  intros Hip Hd1 Hd2.
  set (ip := String c0 rest) in *.
  set (fp := String d1 (String d2 "")).
  assert (Hfp : string_forall is_digit fp = true)
    by (unfold fp; simpl; rewrite Hd1, Hd2; reflexivity).
  assert (Hnum : string_forall numeric_char (ip ++ "." ++ fp) = true).
  { rewrite !string_forall_app.
    rewrite (string_forall_impl is_digit numeric_char ip), 
      (string_forall_impl is_digit numeric_char fp); auto;
      intros c Hc; apply digit_class, Hc. }
  unfold float_of_string, float_rstrip, float_lstrip.
  rewrite rstrip_by_none
    by (eapply string_forall_impl; [ | exact Hnum ];
        intros c Hc; apply negb_true_iff, numeric_char_class, Hc).
  rewrite lstrip_by_none
    by (eapply string_forall_impl; [ | exact Hnum ];
        intros c Hc; apply negb_true_iff, numeric_char_class, Hc).
  rewrite drop_underscores_none;
    [ | eapply string_forall_impl; [ | exact Hnum ];
        intros c Hc; apply negb_true_iff, numeric_char_class, Hc
      | reflexivity ].
  assert (Hc0 : is_digit c0 = true).
  { unfold ip in Hip. simpl in Hip. apply andb_true_iff in Hip. tauto. }
  assert (Hsign : split_sign (ip ++ "." ++ fp) = (false, ip ++ "." ++ fp)).
  { unfold ip. simpl.
    destruct c0 as [[] [] [] [] [] [] [] []]; try discriminate Hc0;
      reflexivity. }
  rewrite Hsign. unfold parse_decimal.
  change (ip ++ "." ++ fp) with (ip ++ String "." fp).
  rewrite span_digits_app by (auto; reflexivity).
  rewrite (span_digits_all fp Hfp).
  assert (Hne : String.eqb (ip ++ fp) "" = false) by reflexivity.
  rewrite Hne. reflexivity.
Qed.

(** *** Signs *)

Lemma of_ratio_fneg (s : bool) (p q : Z) :
  fneg (of_ratio s p q) = of_ratio (negb s) p q.
Proof.
  unfold of_ratio.
  destruct (round_div _ _ =? 2 ^ 53).
  - change (2 ^ 52) with (Zpos (2 ^ 52)%positive). cbv iota beta.
    destruct (_ <=? 971); reflexivity.
  - destruct (round_div _ _) as [| mp | mp]; try reflexivity.
    destruct (_ <=? 971); reflexivity.
Qed.

Lemma of_decimal_fneg (s : bool) (mant exp10 : Z) :
  fneg (of_decimal s mant exp10) = of_decimal (negb s) mant exp10.
Proof.
  unfold of_decimal.
  destruct (mant =? 0); [ reflexivity | ].
  destruct (0 <=? exp10); apply of_ratio_fneg.
Qed.

Lemma fneg_well_formed (x : float) :
  well_formed x -> well_formed (fneg x).
Proof.
  destruct x; simpl; auto.
Qed.

Lemma of_decimal_well_formed (s : bool) (mant exp10 : Z) :
  0 <= mant -> well_formed (of_decimal s mant exp10).
Proof.
  intros Hm. unfold of_decimal.
  destruct (Z.eqb_spec mant 0) as [E | E]; [ exact I | ].
  destruct (Z.leb_spec 0 exp10) as [He | He].
  - apply of_ratio_well_formed; [ | lia ].
    assert (0 < 10 ^ exp10) by (apply Z.pow_pos_nonneg; lia). nia.
  - apply of_ratio_well_formed; [ lia | ].
    apply Z.pow_pos_nonneg; lia.
Qed.

(** Whatever [float] reads is a binary64 number. *)
Lemma float_of_string_well_formed (s : string) (x : float) :
  float_of_string s = Some x -> well_formed x.
Proof.
  unfold float_of_string.
  destruct (drop_underscores _ _) as [t |]; [ | discriminate ].
  destruct (split_sign t) as [neg body].
  unfold parse_decimal.
  pose proof (span_digits_digits body) as Hip.
  destruct (span_digits body) as [ip rest1]. simpl in Hip.
  assert (Hfp : forall u, string_forall is_digit (fst (span_digits u)) = true)
    by apply span_digits_digits.
  assert (Hinf : forall y, parse_inf_or_nan neg body = Some y ->
                           well_formed y).
  { unfold parse_inf_or_nan. intros y.
    destruct (_ || _); [ intros E; injection E as <-; exact I | ].
    destruct (String.eqb _ "nan"); [ | discriminate ].
    intros E; injection E as <-; exact I. }
  assert (Hdec : forall fp ex,
             string_forall is_digit fp = true ->
             well_formed
               (of_decimal neg (digits_value 0 (ip ++ fp))
                  (ex - Z.of_nat (String.length fp)))).
  { intros fp ex Hf. apply of_decimal_well_formed.
    apply digits_value_nonneg; [ | lia ].
    rewrite string_forall_app, Hip, Hf. reflexivity. }
  destruct rest1 as [| c1 t1].
  - destruct (String.eqb (ip ++ "") ""); [ apply Hinf | ].
    simpl. intros E. injection E as <-.
    apply (Hdec "" 0). reflexivity.
  - assert (Hgen :
              forall fp rest2,
                string_forall is_digit fp = true ->
                (if String.eqb (ip ++ fp) "" then None
                 else
                   match parse_exponent rest2 with
                   | Some ex =>
                       Some (digits_value 0 (ip ++ fp),
                             ex - Z.of_nat (String.length fp))
                   | None => None
                   end)
                = None
                \/ exists ex,
                    (if String.eqb (ip ++ fp) "" then None
                     else
                       match parse_exponent rest2 with
                       | Some ex =>
                           Some (digits_value 0 (ip ++ fp),
                                 ex - Z.of_nat (String.length fp))
                       | None => None
                       end)
                    = Some (digits_value 0 (ip ++ fp),
                            ex - Z.of_nat (String.length fp))).
    { intros fp rest2 _.
      destruct (String.eqb (ip ++ fp) ""); [ left; reflexivity | ].
      destruct (parse_exponent rest2) as [ex |];
        [ right; now exists ex | left; reflexivity ]. }
    destruct (Ascii.eqb_spec c1 ".") as [-> | Hc1].
    + pose proof (Hfp t1) as Hf.
      destruct (span_digits t1) as [fp rest2]. simpl in Hf.
      destruct (Hgen fp rest2 Hf) as [-> | [ex ->]]; [ apply Hinf | ].
      intros E. injection E as <-. apply (Hdec fp ex Hf).
    + assert (Hsame :
                match String c1 t1 with
                | String "." t => span_digits t
                | _ => ("", String c1 t1)
                end = ("", String c1 t1)).
      { destruct c1 as [[] [] [] [] [] [] [] []]; try reflexivity.
        now elim Hc1. }
      rewrite Hsame.
      destruct (Hgen "" (String c1 t1) eq_refl) as [-> | [ex ->]];
        [ apply Hinf | ].
      intros E. injection E as <-. apply (Hdec "" ex). reflexivity.
Qed.

(** *** [normalize_currency] through its parts *)

Lemma normalize_currency_parts (value : string) (inverseAmount : bool) :
  normalize_currency value inverseAmount
  = if negb (truthy (strip value)) then None
    else
      match float_of_string (snd (currency_parts value)) with
      | None => Some "0.00"
      | Some num =>
          Some (format_fixed 2
                  (if xorb inverseAmount (fst (currency_parts value))
                   then fneg num else num))
      end.
Proof.
  unfold normalize_currency, currency_parts.
  destruct (negb (truthy (strip value))); [ reflexivity | ].
  destruct (startswith (strip value) "(" && endswith (strip value) ")");
    cbv iota beta;
    match goal with
    | |- context [startswith ?t "-"] => destruct (startswith t "-")
    end;
    cbv iota beta; simpl fst; simpl snd;
    destruct (float_of_string _); try reflexivity;
    destruct inverseAmount; reflexivity.
Qed.

Lemma currency_parts_signed (sg : bool) (body : string) :
  string_forall numeric_char body = true ->
  startswith body "(" = false ->
  startswith body "-" = false ->
  lstrip_char "-" body = body ->
  body <> "" ->
  currency_parts (sign_str sg ++ body) = (sg, body)
  /\ truthy (strip (sign_str sg ++ body)) = true.
Proof.
  intros Hnum Hpre1 Hpre2 Hls Hne.
  assert (Hsp : string_forall (fun c => negb (is_space c)) body = true).
  { eapply string_forall_impl; [ | exact Hnum ].
    intros c Hc. apply negb_true_iff, numeric_char_class, Hc. }
  assert (Hdollar :
            string_forall (fun c => negb (Ascii.eqb c "$")) body = true).
  { eapply string_forall_impl; [ | exact Hnum ].
    intros c Hc. apply negb_true_iff, numeric_char_class, Hc. }
  assert (Hcomma :
            string_forall (fun c => negb (Ascii.eqb c ",")) body = true).
  { eapply string_forall_impl; [ | exact Hnum ].
    intros c Hc. apply negb_true_iff, numeric_char_class, Hc. }
  assert (Htr : truthy body = true).
  { destruct body; [ now elim Hne | reflexivity ]. }
  unfold currency_parts.
  destruct sg; cbn [sign_str].
  - change ("-" ++ body) with (String "-" body).
    assert (Hfull : strip (String "-" body) = String "-" body).
    { apply strip_no_space. cbn [string_forall]. rewrite Hsp.
      reflexivity. }
    assert (Hrep : replace "," "" (replace "$" "" (String "-" body))
                   = String "-" body).
    { rewrite (replace_absent "$");
        [ rewrite (replace_absent ","); [ reflexivity | ] | ];
        cbn [string_forall];
        [ rewrite Hcomma | rewrite Hdollar ]; reflexivity. }
    assert (Hl : lstrip_char "-" (String "-" body) = body).
    { unfold lstrip_char in *. cbn [lstrip_by].
      change (Ascii.eqb "-" "-") with true. cbv iota. exact Hls. }
    rewrite Hfull.
    change (startswith (String "-" body) "(")
      with (Ascii.eqb "-" "(" && startswith body "").
    change (Ascii.eqb "-" "(") with false.
    cbn [andb]. cbv iota beta.
    rewrite Hrep, Hfull.
    change (startswith (String "-" body) "-")
      with (Ascii.eqb "-" "-" && startswith body "").
    change (Ascii.eqb "-" "-") with true.
    replace (startswith body "") with true by (destruct body; reflexivity).
    cbn [andb]. cbv iota.
    rewrite Hl, (strip_no_space body Hsp).
    split; reflexivity.
  - change ("" ++ body) with body.
    rewrite (strip_no_space body Hsp), Hpre1.
    cbn [andb]. cbv iota beta.
    rewrite (replace_absent "$" "" body Hdollar).
    rewrite (replace_absent "," "" body Hcomma).
    rewrite (strip_no_space body Hsp), Hpre2.
    split; [ reflexivity | exact Htr ].
Qed.

Lemma currency_parts_printed (sg : bool) (c0 : ascii) (rest : string) :
  is_digit c0 = true ->
  string_forall numeric_char (String c0 rest) = true ->
  currency_parts (sign_str sg ++ String c0 rest) = (sg, String c0 rest)
  /\ truthy (strip (sign_str sg ++ String c0 rest)) = true.
Proof.
  intros Hc0 Hnum.
  destruct (digit_class c0 Hc0) as (_ & Hminus & _ & Hparen & _).
  apply currency_parts_signed.
  - exact Hnum.
  - cbn [startswith]. rewrite Hparen. reflexivity.
  - cbn [startswith]. rewrite Hminus. reflexivity.
  - unfold lstrip_char. cbn [lstrip_by]. rewrite Hminus. reflexivity.
  - discriminate.
Qed.

(** *** The round trip *)

Lemma format_fixed_reparse (s : bool) (m : positive) (e : Z) :
  well_formed (S754_finite s m e) ->
  let n :=
    round_div (Zpos m * 100 * 2 ^ (e + unit_shift)) (2 ^ unit_shift) in
  0 <= n
  /\ format_fixed 2 (of_decimal s n (-2)) = sign_str s ++ fixed_digits 2 n.
Proof.
  intros (Hm & He & Hfull) n.
  assert (HT : 0 < 2 ^ unit_shift) by reflexivity.
  assert (HpE : 0 < 2 ^ (e + unit_shift))
    by (apply Z.pow_pos_nonneg; unfold unit_shift; lia).
  assert (Hn : 0 <= n) by (apply round_div_nonneg; [ nia | exact HT ]).
  split; [ exact Hn | ].
  unfold of_decimal.
  destruct (Z.eqb_spec n 0) as [E0 | Hnz].
  - rewrite E0. reflexivity.
  - change (0 <=? -2) with false. cbv iota.
    change (10 ^ (- -2)) with 100.
    destruct (units_reparse (Zpos m) (e + unit_shift))
      as (Hm0 & HE' & Hcarry & Hround);
      [ lia | unfold unit_shift; lia | unfold unit_shift; lia
      | fold n; lia | ].
    fold n in Hm0, HE', Hcarry, Hround.
    unfold of_ratio.
    set (E' := Z.max 0 (ilog2_ratio (n * 2 ^ unit_shift) 100 - 52)) in *.
    set (m0 := round_div (n * 2 ^ unit_shift) (100 * 2 ^ E')) in *.
    assert (HE0 : 0 <= E') by (unfold E'; lia).
    destruct (Z.eqb_spec m0 (2 ^ 53)) as [Ec | Ec].
    + change (2 ^ 52) with (Zpos (2 ^ 52)%positive). cbv iota beta.
      destruct (Z.leb_spec (E' + 1 - unit_shift) 971) as [Hle | Hgt];
        [ | unfold unit_shift in *; lia ].
      unfold format_fixed. f_equal. f_equal.
      change (10 ^ Z.of_nat 2) with 100.
      replace (E' + 1 - unit_shift + unit_shift) with (E' + 1) by lia.
      rewrite <- Hround, Ec, Z.pow_add_r by lia.
      f_equal. change (2 ^ 53) with (Zpos (2 ^ 52)%positive * 2 ^ 1).
      ring.
    + destruct m0 as [| mp | mp] eqn:Em0; try lia.
      destruct (Z.leb_spec (E' - unit_shift) 971) as [Hle | Hgt];
        [ | unfold unit_shift in *; lia ].
      unfold format_fixed. f_equal. f_equal.
      change (10 ^ Z.of_nat 2) with 100.
      replace (E' - unit_shift + unit_shift) with E' by lia.
      exact Hround.
Qed.

(** A normalized amount is a fixed point of [normalize_currency]. *)
Lemma normalize_currency_formatted (x : float) :
  well_formed x ->
  normalize_currency (format_fixed 2 x) false = Some (format_fixed 2 x).
Proof.
  intros Hwf. destruct x as [s | s | | s m e].
  - destruct s; reflexivity.
  - destruct s; reflexivity.
  - reflexivity.
  - destruct (format_fixed_reparse s m e Hwf) as [Hn Hre].
    set (n := round_div (Zpos m * 100 * 2 ^ (e + unit_shift))
                (2 ^ unit_shift)) in *.
    assert (Hfmt : format_fixed 2 (S754_finite s m e)
                   = sign_str s ++ fixed_digits 2 n) by reflexivity.
    destruct (fixed_digits_2 n Hn)
      as (c0 & rest & d1 & d2 & Hshape & Hdig & Hd1 & Hd2 & Hval).
    assert (Hc0 : is_digit c0 = true).
    { cbn [string_forall] in Hdig. apply andb_true_iff in Hdig. tauto. }
    pose proof (float_of_string_fixed c0 rest d1 d2 Hdig Hd1 Hd2) as Hfs.
    rewrite Hval in Hfs.
    assert (Hnum : string_forall numeric_char
                     (String c0 rest ++ "." ++ String d1 (String d2 ""))
                   = true).
    { rewrite !string_forall_app.
      rewrite (string_forall_impl is_digit numeric_char _
                 (fun c Hc => proj1 (digit_class c Hc)) Hdig).
      cbn [string_forall].
      rewrite (proj1 (digit_class d1 Hd1)), (proj1 (digit_class d2 Hd2)).
      reflexivity. }
    pose proof (currency_parts_printed s c0
                  (rest ++ "." ++ String d1 (String d2 "")) Hc0 Hnum)
      as [Hparts Htruthy].
    change (String c0 (rest ++ "." ++ String d1 (String d2 "")))
      with (String c0 rest ++ "." ++ String d1 (String d2 ""))
      in Hparts, Htruthy.
    rewrite <- Hshape in Hfs, Hparts, Htruthy.
    rewrite Hfmt.
    rewrite normalize_currency_parts, Htruthy, Hparts.
    cbn [fst snd negb xorb]. rewrite Hfs.
    rewrite <- Hre. f_equal. f_equal.
    destruct s; [ apply of_decimal_fneg | reflexivity ].
Qed.

End PrintParse.

(** ** The currency normalizer *)

Section Normalizer.

Lemma fixed_digits_first (nd : nat) (n : Z) :
  0 <= n ->
  exists c0 rest,
    fixed_digits nd n = String c0 rest /\ is_digit c0 = true.
Proof.
  intros Hn. unfold fixed_digits.
  assert (Hq : 0 <= n / 10 ^ Z.of_nat nd).
  { apply Z.div_pos; [ exact Hn | apply Z.pow_pos_nonneg; lia ]. }
  destruct (str_nat_spec _ Hq) as (Hdig & Hne & _).
  destruct (str_nat (n / 10 ^ Z.of_nat nd)) as [| c0 rest];
    [ congruence | ].
  exists c0, (rest ++ "." ++ zfill nd (str_nat (n mod 10 ^ Z.of_nat nd))).
  split; [ reflexivity | ].
  cbn [string_forall] in Hdig. apply andb_true_iff in Hdig. tauto.
Qed.

(** A printed number is its sign followed by a text that does not
    start with a minus sign. *)
Lemma format_fixed_signed (nd : nat) (x : float) :
  is_nan x = false ->
  exists c0 rest,
    format_fixed nd x = sign_str (sign_bit x) ++ String c0 rest
    /\ format_fixed nd (fneg x)
       = sign_str (negb (sign_bit x)) ++ String c0 rest
    /\ Ascii.eqb c0 "-" = false.
Proof.
  intros Hnan. destruct x as [s | s | | s m e]; try discriminate Hnan.
  - destruct (fixed_digits_first nd 0 ltac:(lia)) as (c0 & rest & E & Hc).
    exists c0, rest. cbn [format_fixed fneg SFopp sign_bit].
    rewrite E. repeat split. apply digit_class, Hc.
  - exists "i"%char, "nf". repeat split.
  - set (n := round_div (Zpos m * 10 ^ Z.of_nat nd * 2 ^ (e + unit_shift))
                (2 ^ unit_shift)).
    assert (Hn : 0 <= n).
    { apply round_div_nonneg; [ | reflexivity ].
      assert (0 <= 2 ^ (e + unit_shift)) by apply Z.pow_nonneg, Z.le_0_2.
      assert (0 < 10 ^ Z.of_nat nd) by (apply Z.pow_pos_nonneg; lia).
      nia. }
    destruct (fixed_digits_first nd n Hn) as (c0 & rest & E & Hc).
    exists c0, rest. cbn [format_fixed fneg SFopp sign_bit].
    fold n. rewrite E. repeat split. apply digit_class, Hc.
Qed.

Lemma format_fixed_minus (nd : nat) (x : float) :
  startswith (format_fixed nd x) "-" = sign_bit x.
Proof.
  destruct (is_nan x) eqn:Hnan.
  - destruct x; try discriminate Hnan. reflexivity.
  - destruct (format_fixed_signed nd x Hnan) as (c0 & rest & E & _ & Hc).
    rewrite E. destruct (sign_bit x); cbn [sign_str append startswith].
    + reflexivity.
    + rewrite Hc. reflexivity.
Qed.

Lemma format_fixed_fneg (nd : nat) (x : float) :
  is_nan x = false ->
  format_fixed nd (fneg x) = flip_sign (format_fixed nd x).
Proof.
  intros Hnan.
  destruct (format_fixed_signed nd x Hnan) as (c0 & rest & E & En & Hc).
  rewrite E, En. unfold flip_sign.
  destruct (sign_bit x); cbn [sign_str append startswith negb].
  - reflexivity.
  - rewrite Hc. reflexivity.
Qed.

Lemma unsigned_number_spec (x : float) :
  unsigned_number x = true ->
  is_nan x = false /\ sign_bit (fneg x) = true.
Proof.
  destruct x as [s | s | | s m e]; simpl; try discriminate;
    intros Hs; apply negb_true_iff in Hs; subst s; auto.
Qed.

Lemma truthy_empty (s : string) : truthy s = false <-> s = "".
Proof.
  unfold truthy. rewrite negb_false_iff. apply String.eqb_eq.
Qed.

Lemma currency_parts_strip (value : string) :
  currency_parts (strip value) = currency_parts value.
Proof.
  unfold currency_parts. rewrite strip_idempotent. reflexivity.
Qed.

Lemma currency_parts_negative (value : string) :
  parenthesized (strip value) = true \/ minus_prefixed (strip value) = true ->
  fst (currency_parts value) = true.
Proof.
  unfold parenthesized, minus_prefixed, currency_parts.
  destruct (startswith (strip value) "(" && endswith (strip value) ")").
  - intros _.
    match goal with
    | |- context [if ?b then _ else _] => destruct b
    end; reflexivity.
  - intros [Hf | Hm]; [ discriminate Hf | ].
    rewrite Hm. reflexivity.
Qed.

(** *** What is left for [float] holds no currency sign and no
    thousands separator *)

Lemma replace_removes (old : ascii) (s : string) :
  string_forall (fun c => negb (Ascii.eqb c old)) (replace old "" s) = true.
Proof.
  induction s as [| c s IH]; cbn [replace].
  - reflexivity.
  - destruct (Ascii.eqb c old) eqn:Hc.
    + exact IH.
    + cbn [string_forall]. rewrite Hc, IH. reflexivity.
Qed.

Lemma replace_keeps (P : ascii -> bool) (old : ascii) (s : string) :
  string_forall P s = true -> string_forall P (replace old "" s) = true.
Proof.
  induction s as [| c s IH]; cbn [replace string_forall].
  - reflexivity.
  - intros Hs. apply andb_true_iff in Hs. destruct Hs as [Hc Hs].
    destruct (Ascii.eqb c old).
    + apply IH, Hs.
    + cbn [string_forall]. rewrite Hc, (IH Hs). reflexivity.
Qed.

Lemma lstrip_by_keeps (P Q : ascii -> bool) (s : string) :
  string_forall P s = true -> string_forall P (lstrip_by Q s) = true.
Proof.
  induction s as [| c s IH]; cbn [lstrip_by string_forall].
  - reflexivity.
  - intros Hs. destruct (Q c).
    + apply IH. apply andb_true_iff in Hs. tauto.
    + exact Hs.
Qed.

Lemma rstrip_by_keeps (P Q : ascii -> bool) (s : string) :
  string_forall P s = true -> string_forall P (rstrip_by Q s) = true.
Proof.
  induction s as [| c s IH]; cbn [rstrip_by string_forall].
  - reflexivity.
  - intros Hs. apply andb_true_iff in Hs. destruct Hs as [Hc Hs].
    specialize (IH Hs).
    destruct (rstrip_by Q s) as [| c' r].
    + destruct (Q c); [ reflexivity | ].
      cbn [string_forall]. rewrite Hc. reflexivity.
    + cbn [string_forall] in *. rewrite Hc, IH. reflexivity.
Qed.

Lemma strip_keeps (P : ascii -> bool) (s : string) :
  string_forall P s = true -> string_forall P (strip s) = true.
Proof.
  intros Hs. unfold strip, lstrip, rstrip.
  apply lstrip_by_keeps, rstrip_by_keeps, Hs.
Qed.

Lemma currency_parts_no_marks (value : string) :
  string_forall no_money_marks (snd (currency_parts value)) = true.
Proof.
  unfold currency_parts.
  assert (Hclean : forall s,
             string_forall no_money_marks
               (strip (replace "," "" (replace "$" "" s))) = true).
  { intros s. apply strip_keeps.
    assert (H1 : string_forall (fun c => negb (Ascii.eqb c "$"))
                   (replace "," "" (replace "$" "" s)) = true)
      by apply replace_keeps, replace_removes.
    assert (H2 : string_forall (fun c => negb (Ascii.eqb c ","))
                   (replace "," "" (replace "$" "" s)) = true)
      by apply replace_removes.
    revert H1 H2. generalize (replace "," "" (replace "$" "" s)).
    intros t. induction t as [| c t IH]; cbn [string_forall].
    - reflexivity.
    - intros H1 H2. apply andb_true_iff in H1, H2.
      destruct H1 as [Ha H1], H2 as [Hb H2].
      unfold no_money_marks at 1. rewrite Ha, Hb, (IH H1 H2).
      reflexivity. }
  destruct (startswith (strip value) "(" && endswith (strip value) ")");
    cbv iota beta;
    match goal with
    | |- context [if ?b then _ else _] => destruct b
    end; cbn [snd];
    try apply Hclean;
    apply strip_keeps; unfold lstrip_char; apply lstrip_by_keeps, Hclean.
Qed.

Lemma normalize_currency_nonempty (value : string) :
  strip value <> "" -> negb (truthy (strip value)) = false.
Proof.
  intros Hne. apply negb_false_iff.
  destruct (truthy (strip value)) eqn:Ht; [ reflexivity | ].
  apply truthy_empty in Ht. contradiction.
Qed.

(** The inversion flag negates the number that the other steps
    produce. *)
Lemma normalize_currency_flag (value : string) (x : float) :
  strip value <> "" ->
  float_of_string (snd (currency_parts value)) = Some x ->
  exists y,
    normalize_currency value false = Some (format_fixed 2 y)
    /\ normalize_currency value true = Some (format_fixed 2 (fneg y))
    /\ (is_nan y = false ->
        format_fixed 2 (fneg y) = flip_sign (format_fixed 2 y)).
Proof.
  intros Hne Hx.
  exists (if fst (currency_parts value) then fneg x else x).
  rewrite !normalize_currency_parts, (normalize_currency_nonempty _ Hne), Hx.
  cbn [xorb].
  split; [ reflexivity | split ].
  - destruct (fst (currency_parts value)); cbn [negb]; [ | reflexivity ].
    destruct x as [s | s | | s m e]; try destruct s; reflexivity.
  - apply format_fixed_fneg.
Qed.

(** C7 (amended).  [normalize_currency] works on the trimmed text and
    returns [None] exactly when that is empty.  A text that is
    parenthesized, or that starts with a minus sign once the currency
    signs and thousands separators are removed, and whose remainder
    reads as a number [x], is normalized to minus [x]: it is printed
    with a leading "-" exactly when minus [x] carries a sign, hence
    whenever [x] is an unsigned number, and not when the remainder has
    a sign of its own; the text handed to [float] holds no "$" and no
    ",".
    A non-empty text that [float] rejects gives "0.00", with or without
    the inversion flag.  With the flag, the number is negated after
    all the other steps: the result is the one without the flag with
    its sign toggled.  The three examples of the specification hold. *)
Theorem normalize_currency_rules (value : string) (inverseAmount : bool) :
  normalize_currency value inverseAmount
  = normalize_currency (strip value) inverseAmount
  /\ (strip value = "" <-> normalize_currency value inverseAmount = None)
  /\ string_forall no_money_marks (snd (currency_parts value)) = true
  /\ (forall x,
         strip value <> "" ->
         parenthesized (strip value) = true
         \/ minus_prefixed (strip value) = true ->
         float_of_string (snd (currency_parts value)) = Some x ->
         normalize_currency value false = Some (format_fixed 2 (fneg x))
         /\ startswith (format_fixed 2 (fneg x)) "-" = sign_bit (fneg x)
         /\ (unsigned_number x = true ->
             startswith (format_fixed 2 (fneg x)) "-" = true))
  /\ (strip value <> "" ->
      float_of_string (snd (currency_parts value)) = None ->
      normalize_currency value inverseAmount = Some "0.00")
  /\ (forall x,
         strip value <> "" ->
         float_of_string (snd (currency_parts value)) = Some x ->
         exists y,
           normalize_currency value false = Some (format_fixed 2 y)
           /\ normalize_currency value true
              = Some (format_fixed 2 (fneg y))
           /\ (is_nan y = false ->
               format_fixed 2 (fneg y) = flip_sign (format_fixed 2 y)))
  /\ normalize_currency "(1,234.50)" false = Some "-1234.50"
  /\ normalize_currency "$1,234.50" true = Some "-1234.50"
  /\ normalize_currency "" false = None.
Proof.
  pose proof (normalize_currency_nonempty value) as Hnonempty.
  split; [ | split; [ | split; [ | split; [ | split; [ | split ] ] ] ] ].
  - rewrite !normalize_currency_parts, currency_parts_strip,
      strip_idempotent.
    reflexivity.
  - rewrite normalize_currency_parts. split.
    + intros E. rewrite E. reflexivity.
    + destruct (truthy (strip value)) eqn:Ht; cbn [negb].
      * destruct (float_of_string _); discriminate.
      * intros _. apply truthy_empty, Ht.
  - apply currency_parts_no_marks.
  - intros x Hne Hneg Hx.
    rewrite normalize_currency_parts, (Hnonempty Hne), Hx.
    rewrite (currency_parts_negative value Hneg). cbn [xorb].
    split; [ reflexivity | ].
    rewrite format_fixed_minus.
    split; [ reflexivity | ].
    intros Hun. apply unsigned_number_spec, Hun.
  - intros Hne Hx.
    rewrite normalize_currency_parts, (Hnonempty Hne), Hx. reflexivity.
  - intros x Hne Hx. apply (normalize_currency_flag value x Hne Hx).
  - repeat split; vm_compute; reflexivity.
Qed.

(** C8.  A normalized amount is normalized to itself: when
    [normalize_currency] returns a text, on any input and with either
    flag, the text is what [normalize_currency] returns on it. *)
Theorem normalize_currency_idempotent
        (x y : string) (inverseAmount : bool) :
  normalize_currency x inverseAmount = Some y ->
  normalize_currency y false = Some y.
Proof.
  rewrite normalize_currency_parts.
  destruct (negb (truthy (strip x))); [ discriminate | ].
  case_eq (float_of_string (snd (currency_parts x))).
  - intros num Hnum E. injection E as <-.
    apply normalize_currency_formatted.
    pose proof (float_of_string_well_formed _ _ Hnum) as Hwf.
    destruct (xorb inverseAmount (fst (currency_parts x)));
      [ apply fneg_well_formed | ]; exact Hwf.
  - intros _ E. injection E as <-. vm_compute. reflexivity.
Qed.

End Normalizer.

Lemma normalize_currency_idempotent_witness :
  normalize_currency "(1,234.50)" false = Some "-1234.50"
  /\ normalize_currency "-1234.50" false = Some "-1234.50".
Proof.
  split.
  - vm_compute. reflexivity.
  - apply (normalize_currency_idempotent "(1,234.50)" "-1234.50" false).
    vm_compute. reflexivity.
Defined.
(** ** Dispatch and the errors of the generators *)

Section Dispatch.

Context `{Externals}.

Variable mappings : option (list MissingCusipRule).

(** A row whose activity is not "buy" is never a funding activity, and
    the test raises nothing. *)
Lemma is_funding_activity_not_buy (row : Row) :
  lower (strip (Activity row)) <> "buy" ->
  is_funding_activity row = Ok false.
Proof.
  intros Hne. unfold is_funding_activity.
  destruct (String.eqb_spec (lower (strip (Activity row))) "buy") as [E|E].
  - contradiction.
  - reflexivity.
Qed.

Lemma generate_income_transaction_no_cusip
      (row : Row) (fitid date_str incometype : string) :
  strip (CUSIP row) = "" ->
  generate_income_transaction mappings row fitid date_str incometype
  = Raise (NoCusipForIncome (strip (Description row))).
Proof.
  intros Hc. unfold generate_income_transaction.
  rewrite Hc. reflexivity.
Qed.

(** C5.  A row whose activity is dividend, lt cap gain or shrt trm gain
    and whose CUSIP is empty after trimming makes the income generator,
    and with it [generate_transaction], raise the ValueError "No CUSIP
    provided for income transaction" (the spec's
    MissingIdentifierError), whatever the missing-CUSIP rules are: the
    description is never matched against them. *)
Theorem income_without_cusip_raises (row : Row) (counter : Z) :
  In (lower (strip (Activity row)))
     ["dividend"; "lt cap gain"; "shrt trm gain"] ->
  strip (CUSIP row) = "" ->
  generate_transaction mappings row counter
  = Raise (NoCusipForIncome (strip (Description row)))
  /\ forall fitid date_str incometype,
      generate_income_transaction mappings row fitid date_str incometype
      = Raise (NoCusipForIncome (strip (Description row))).
Proof.
  intros Hact Hc. split.
  - unfold generate_transaction.
    rewrite is_funding_activity_not_buy
      by (intro E; rewrite E in Hact; simpl in Hact;
          intuition discriminate).
    simpl in Hact.
    destruct Hact as [E | [E | [E | []]]]; rewrite <- E; simpl;
      rewrite generate_income_transaction_no_cusip by exact Hc;
      reflexivity.
  - intros. apply generate_income_transaction_no_cusip. exact Hc.
Qed.

(** *** Unknown activities *)

Lemma generate_transaction_unknown (row : Row) (counter : Z) :
  existsb (String.eqb (lower (strip (Activity row)))) recognized_activities
  = false ->
  generate_transaction mappings row counter
  = Raise (UnknownActivity (Activity row)).
Proof.
  intros Hun. unfold recognized_activities in Hun. simpl in Hun.
  repeat (apply orb_false_elim in Hun; destruct Hun as [? Hun]).
  unfold generate_transaction.
  rewrite is_funding_activity_not_buy
    by (intro E; rewrite E in *; discriminate).
  simpl.
  repeat match goal with
         | Hx : String.eqb _ _ = false |- _ => rewrite Hx; clear Hx
         end.
  reflexivity.
Qed.

(** *** Buy and sell without amount and price *)

Lemma generate_buysell_transaction_incomplete
      (row : Row) (sell : bool) (fitid date_str : string) :
  normalize_currency (Amount row) false = None ->
  normalize_currency (Price row) false = None ->
  generate_buysell_transaction mappings row sell fitid date_str AmountNone
  = Raise (NeitherAmountNorPrice row).
Proof.
  intros Ha Hp. unfold generate_buysell_transaction.
  rewrite Ha, Hp. simpl.
  rewrite andb_false_r. reflexivity.
Qed.

(** The lookups of the security never raise the error of the missing
    amount and price. *)
Lemma generate_buysell_secid_other_error
      (row r' : Row) (indent : nat) (e : exn) :
  generate_buysell_secid mappings row indent = Raise e ->
  e <> NeitherAmountNorPrice r'.
Proof.
  unfold generate_buysell_secid.
  destruct mappings as [ms |]; [ | intros [= <-]; discriminate ].
  destruct (truthy (strip (CUSIP row))); [ discriminate | ].
  destruct (first_match ms (strip (Description row)));
    [ discriminate | intros [= <-]; discriminate ].
Qed.

Lemma generate_buysell_security_info_other_error
      (row r' : Row) (e : exn) :
  generate_buysell_security_info mappings row = Raise e ->
  e <> NeitherAmountNorPrice r'.
Proof.
  unfold generate_buysell_security_info.
  pose proof (generate_buysell_secid_other_error row r' 10) as Hs.
  destruct (truthy (strip (CUSIP row))).
  - destruct (generate_buysell_secid mappings row 10) as [secid | e0];
      cbn [bind]; [ discriminate | ].
    intros [= <-]. apply Hs. reflexivity.
  - destruct mappings as [ms |]; [ | intros [= <-]; discriminate ].
    destruct (first_match ms (strip (Description row)));
      [ | intros [= <-]; discriminate ].
    destruct (generate_buysell_secid (Some ms) row 10) as [secid | e0];
      cbn [bind]; [ discriminate | ].
    intros [= <-]. apply Hs. reflexivity.
Qed.

(** With a quantity and the default amount 0.0 the generator finds an
    amount, whatever else goes wrong. *)
Lemma generate_buysell_transaction_default_zero
      (row r' : Row) (sell : bool) (fitid date_str : string) (e : exn) :
  normalize_quantity (Quantity row) <> "" ->
  generate_buysell_transaction mappings row sell fitid date_str AmountZero
  = Raise e ->
  e <> NeitherAmountNorPrice r'.
Proof.
  intros Hq.
  assert (Htq : truthy (normalize_quantity (Quantity row)) = true).
  { unfold truthy. apply negb_true_iff. apply String.eqb_neq. exact Hq. }
  assert (Hsome :
            negb (amount_is_none
                    match normalize_currency (Amount row) false with
                    | Some a => AmountStr a
                    | None => AmountZero
                    end) = true)
    by (destruct (normalize_currency (Amount row) false); reflexivity).
  unfold generate_buysell_transaction. rewrite Htq, Hsome.
  cbn [andb bind].
  pose proof (generate_buysell_secid_other_error row r' 12) as Hs.
  pose proof (generate_buysell_security_info_other_error row r') as Hi.
  destruct (generate_buysell_secid mappings row 12) as [secid | e0];
    cbn [bind]; [ | intros [= <-]; apply Hs; reflexivity ].
  destruct (generate_buysell_security_info mappings row) as [info | e0];
    cbn [bind]; [ discriminate | intros [= <-]; apply Hi; reflexivity ].
Qed.

(** C4 (amended).  When the row has neither a normalized Amount nor a
    Price, the buy/sell generator called without a default amount (the
    dispatch of buy, reinvest dividend, rein stc gain, rein cap gain and
    sell) raises the ValueError "Transaction should have either amount
    or price but neither is supplied" (the spec's
    IncompleteTransactionError); with any default amount it still does
    so when the Quantity is empty.  In particular a sell row missing
    both raises it from [generate_transaction].  A reinvest dist row,
    dispatched with the default amount 0.0, raises it exactly when its
    Quantity is empty. *)
Theorem buysell_without_amount_and_price_raises (row : Row) :
  normalize_currency (Amount row) false = None ->
  normalize_currency (Price row) false = None ->
  (forall sell fitid date_str,
      generate_buysell_transaction mappings row sell fitid date_str
        AmountNone
      = Raise (NeitherAmountNorPrice row))
  /\ (forall sell fitid date_str amount_default,
         normalize_quantity (Quantity row) = "" ->
         generate_buysell_transaction mappings row sell fitid date_str
           amount_default
         = Raise (NeitherAmountNorPrice row))
  /\ (forall counter,
         In (lower (strip (Activity row)))
            ["buy"; "reinvest dividend"; "rein stc gain"; "rein cap gain";
             "sell"] ->
         is_funding_activity row = Ok false ->
         generate_transaction mappings row counter
         = Raise (NeitherAmountNorPrice row))
  /\ (forall counter,
         lower (strip (Activity row)) = "sell" ->
         generate_transaction mappings row counter
         = Raise (NeitherAmountNorPrice row))
  /\ (forall counter,
         lower (strip (Activity row)) = "reinvest dist" ->
         (generate_transaction mappings row counter
          = Raise (NeitherAmountNorPrice row)
          <-> normalize_quantity (Quantity row) = "")).
Proof.
  intros Ha Hp.
  assert (Hgen : forall sell fitid date_str,
             generate_buysell_transaction mappings row sell fitid date_str
               AmountNone = Raise (NeitherAmountNorPrice row))
    by (intros; now apply generate_buysell_transaction_incomplete).
  assert (Hempty : forall sell fitid date_str amount_default,
             normalize_quantity (Quantity row) = "" ->
             generate_buysell_transaction mappings row sell fitid date_str
               amount_default = Raise (NeitherAmountNorPrice row)).
  { intros sell fitid date_str dflt Hq.
    unfold generate_buysell_transaction. rewrite Ha, Hp, Hq. reflexivity. }
  split; [ exact Hgen | ].
  split; [ exact Hempty | ].
  split; [ | split ].
  - intros counter Hact Hf. unfold generate_transaction. rewrite Hf.
    simpl in Hact.
    destruct Hact as [E | [E | [E | [E | [E | []]]]]]; rewrite <- E;
      simpl; rewrite Hgen; reflexivity.
  - intros counter E. unfold generate_transaction.
    rewrite is_funding_activity_not_buy by (rewrite E; discriminate).
    rewrite E. simpl. rewrite Hgen. reflexivity.
  - intros counter E. unfold generate_transaction.
    rewrite is_funding_activity_not_buy by (rewrite E; discriminate).
    rewrite E.
    cbn [bind mem existsb String.eqb Ascii.eqb Bool.eqb orb]. cbv iota.
    split.
    + intros Hraise.
      destruct (String.eqb_spec (normalize_quantity (Quantity row)) "")
        as [Hq | Hq]; [ exact Hq | ].
      exfalso.
      match type of Hraise with
      | make_entry ?g _ = _ => destruct g as [[out i] | e] eqn:Hg
      end.
      * discriminate Hraise.
      * apply (generate_buysell_transaction_default_zero row row _ _ _ e
                 Hq Hg).
        cbn [make_entry bind] in Hraise. congruence.
    + intros Hq. rewrite (Hempty _ _ _ _ Hq). reflexivity.
Qed.

(** *** The funding-activity override *)

Lemma generate_buysell_transaction_prefix
      (row : Row) (sell : bool) (fitid date_str : string)
      (dflt : amount_val) (out : string) (info : option SecurityInfo) :
  generate_buysell_transaction mappings row sell fitid date_str dflt
  = Ok (out, info) ->
  startswith out "          <TRANSFER>" = false.
Proof.
  unfold generate_buysell_transaction.
  match goal with
  | |- context [bind ?r _] => destruct r as [[price amount] | e]
  end; simpl; [ | discriminate ].
  destruct (generate_buysell_secid mappings row 12) as [secid | e];
    simpl; [ | discriminate ].
  destruct (generate_buysell_security_info mappings row) as [i | e];
    simpl; [ | discriminate ].
  intros E. injection E as E _. subst out.
  destruct sell; destruct (is_mutual_fund (strip (Symbol row)));
    reflexivity.
Qed.

(** C1.  A row whose activity is "buy" (trimmed, any case), whose
    description ends with "initial", whose CUSIP and Symbol are empty
    and whose normalized amount equals minus the quantity is handed to
    the transfer generator before the activity keyword is looked at:
    the result is the cash transfer fragment, not what the buy
    generator returns. *)
Theorem funding_activity_is_transfer
        (row : Row) (counter : Z) (a : string) (fa fq : float) :
  lower (strip (Activity row)) = "buy" ->
  endswith (lower (strip (Description row))) "initial" = true ->
  strip (CUSIP row) = "" ->
  strip (Symbol row) = "" ->
  normalize_currency (Amount row) false = Some a ->
  float_of_string a = Some fa ->
  float_of_string (Quantity row) = Some fq ->
  feqb fa (fneg fq) = true ->
  is_funding_activity row = Ok true
  /\ generate_transaction mappings row counter
     = make_entry
         (generate_asset_transfer mappings row (fitid_of row counter)
            (date_str_of row)) false
  /\ (exists out,
         generate_transaction mappings row counter
         = Ok ({| txn_str := out; is_invbanktran := false |},
               Some cash_security_info)
         /\ startswith out "          <TRANSFER>" = true)
  /\ generate_transaction mappings row counter
     <> make_entry
          (generate_buysell_transaction mappings row false
             (fitid_of row counter) (date_str_of row) AmountNone) false.
Proof.
  intros Hact Hdesc Hc Hs Ha Hfa Hfq Heq.
  assert (Hf : is_funding_activity row = Ok true).
  { unfold is_funding_activity.
    rewrite Hact, Hdesc, Hc, Hs, Ha, Hfa, Hfq, Heq. reflexivity. }
  assert (Hgt : generate_transaction mappings row counter
                = make_entry
                    (generate_asset_transfer mappings row
                       (fitid_of row counter) (date_str_of row)) false).
  { unfold generate_transaction. rewrite Hf. reflexivity. }
  assert (Hout : exists out,
             generate_asset_transfer mappings row (fitid_of row counter)
               (date_str_of row)
             = Ok (out, Some cash_security_info)
             /\ startswith out "          <TRANSFER>" = true).
  { unfold generate_asset_transfer. rewrite Hc, Ha. simpl.
    eexists. split; [ reflexivity | reflexivity ]. }
  destruct Hout as [out [Hgen Hpre]].
  split; [ exact Hf | split; [ exact Hgt | split ] ].
  - exists out. rewrite Hgt, Hgen. split; [ reflexivity | exact Hpre ].
  - rewrite Hgt, Hgen. unfold make_entry. simpl.
    case_eq (generate_buysell_transaction mappings row false
               (fitid_of row counter) (date_str_of row) AmountNone).
    + intros [out' info'] Hbuy. simpl. intros E.
      injection E as E _.
      apply generate_buysell_transaction_prefix in Hbuy.
      rewrite <- E in Hbuy. rewrite Hpre in Hbuy. discriminate.
    + intros e _. simpl. discriminate.
Qed.

End Dispatch.

(** ** Transfers and interest *)

Section Generators.

Context `{Externals}.

Variable mappings : option (list MissingCusipRule).

Lemma security_info_with_cusip (ms : list MissingCusipRule) (row : Row) :
  strip (CUSIP row) <> "" ->
  exists info, generate_buysell_security_info (Some ms) row = Ok info.
Proof.
  intros Hc. unfold generate_buysell_security_info, generate_buysell_secid.
  assert (Ht : truthy (strip (CUSIP row)) = true).
  { destruct (truthy (strip (CUSIP row))) eqn:E; [ reflexivity | ].
    apply truthy_empty in E. contradiction. }
  rewrite Ht. cbn [bind]. eexists. reflexivity.
Qed.

(** Cutting a concatenation before a given suffix. *)
Lemma split_here (suffix : string) : suffix = "" ++ suffix.
Proof. reflexivity. Qed.

Lemma split_later (a t pre suffix : string) :
  t = pre ++ suffix -> a ++ t = (a ++ pre) ++ suffix.
Proof. intros ->. symmetry. apply append_assoc. Qed.

(** C9.  For a cash transfer (no CUSIP) whose amount is present, the
    fragment ends with the direction tag OUT when the normalized
    amount starts with a minus sign, which is when the number printed
    carries the sign, and IN otherwise.  For a security transfer
    (a CUSIP is present) the fragment ends with the tag IN, whatever
    the quantity is. *)
Theorem transfer_direction_tag (row : Row) (fitid date_str : string) :
  (strip (CUSIP row) = "" ->
   forall a,
     normalize_currency (Amount row) false = Some a ->
     (exists pre,
         generate_asset_transfer mappings row fitid date_str
         = Ok (pre
               ++ "            <TFERACTION>"
               ++ (if startswith a "-" then "OUT" else "IN")
               ++ "</TFERACTION>" ++ nl
               ++ "            <POSTYPE>LONG</POSTYPE>" ++ nl
               ++ "          </TRANSFER>" ++ nl,
               Some cash_security_info))
     /\ exists y, a = format_fixed 2 y /\ startswith a "-" = sign_bit y)
  /\ (strip (CUSIP row) <> "" ->
      forall ms,
        mappings = Some ms ->
        exists pre info,
          generate_asset_transfer mappings row fitid date_str
          = Ok (pre
                ++ "    <UNITS>" ++ normalize_quantity (Quantity row)
                ++ "</UNITS>" ++ nl
                ++ "    <TFERACTION>IN</TFERACTION>" ++ nl
                ++ "    <POSTYPE>LONG</POSTYPE>" ++ nl
                ++ "  </TRANSFER>" ++ nl,
                Some info)).
Proof.
  split.
  - intros Hc a Ha. split.
    + unfold generate_asset_transfer. rewrite Hc, Ha.
      cbn [truthy String.eqb negb]. cbv iota.
      eexists. reflexivity.
    + rewrite normalize_currency_parts in Ha.
      destruct (negb (truthy (strip (Amount row)))); [ discriminate | ].
      destruct (float_of_string _) as [num |].
      * injection Ha as <-. eexists. split; [ reflexivity | ].
        apply format_fixed_minus.
      * injection Ha as <-. exists fzero. split; reflexivity.
  - intros Hc ms Hms. subst mappings.
    destruct (security_info_with_cusip ms row Hc) as [info Hinfo].
    unfold generate_asset_transfer. rewrite Hinfo.
    assert (Ht : negb (truthy (strip (CUSIP row))) = false).
    { apply negb_false_iff.
      destruct (truthy (strip (CUSIP row))) eqn:E; [ reflexivity | ].
      apply truthy_empty in E. contradiction. }
    rewrite Ht. cbn [bind].
    eexists. exists info. f_equal. f_equal.
    repeat first [ exact (split_here _) | apply split_later ].
Qed.

(** C10.  For a row whose amount is not empty and reads as a number,
    the interest generator writes in TRNAMT the normalized amount with
    its sign inverted: the amount normalized once is a non-empty text,
    hence a true inversion flag for the second normalization.  An
    unsigned amount is written with a leading minus sign.  The same
    holds for the entry that [generate_transaction] builds for the
    activity "interest". *)
Theorem interest_amount_is_inverted
        (row : Row) (fitid date_str : string) (x : float) :
  strip (Amount row) <> "" ->
  float_of_string (snd (currency_parts (Amount row))) = Some x ->
  exists y rest,
    normalize_currency (Amount row) false = Some (format_fixed 2 y)
    /\ truthy_option (normalize_currency (Amount row) false) = true
    /\ normalize_currency (Amount row) true
       = Some (format_fixed 2 (fneg y))
    /\ generate_intrest_transaction row fitid date_str
       = Ok ("          <INVBANKTRAN>" ++ nl
             ++ "            <STMTTRN>" ++ nl
             ++ "              <TRNTYPE>INT</TRNTYPE>" ++ nl
             ++ "              <DTPOSTED>" ++ date_str ++ "</DTPOSTED>" ++ nl
             ++ "              <TRNAMT>" ++ format_fixed 2 (fneg y)
             ++ "</TRNAMT>" ++ nl ++ rest,
             None)
    /\ (is_nan y = false ->
        format_fixed 2 (fneg y) = flip_sign (format_fixed 2 y))
    /\ (unsigned_number y = true ->
        startswith (format_fixed 2 (fneg y)) "-" = true)
    /\ (forall counter,
           lower (strip (Activity row)) = "interest" ->
           generate_transaction mappings row counter
           = Ok ({| txn_str :=
                      "          <INVBANKTRAN>" ++ nl
                      ++ "            <STMTTRN>" ++ nl
                      ++ "              <TRNTYPE>INT</TRNTYPE>" ++ nl
                      ++ "              <DTPOSTED>" ++ date_str_of row
                      ++ "</DTPOSTED>" ++ nl
                      ++ "              <TRNAMT>" ++ format_fixed 2 (fneg y)
                      ++ "</TRNAMT>" ++ nl
                      ++ "              <FITID>" ++ fitid_of row counter
                      ++ "</FITID>" ++ nl
                      ++ "              <MEMO>" ++ strip (Activity row)
                      ++ ": " ++ xml_escape (strip (Description row))
                      ++ "</MEMO>" ++ nl
                      ++ "              <CURRENCY>" ++ nl
                      ++ "                <CURRATE>1.0</CURRATE>" ++ nl
                      ++ "                <CURSYM>USD</CURSYM>" ++ nl
                      ++ "              </CURRENCY>" ++ nl
                      ++ "            </STMTTRN>" ++ nl
                      ++ "            <SUBACCTFUND>CASH</SUBACCTFUND>" ++ nl
                      ++ "          </INVBANKTRAN>" ++ nl;
                    is_invbanktran := true |},
                 None)).
Proof.
  intros Hne Hx.
  destruct (normalize_currency_flag (Amount row) x Hne Hx)
    as (y & Hplain & Hinverted & Hflip).
  assert (Htruthy : truthy_option (normalize_currency (Amount row) false)
                    = true).
  { rewrite Hplain. cbn [truthy_option].
    destruct (is_nan y) eqn:Hnan.
    - destruct y; try discriminate Hnan. reflexivity.
    - destruct (format_fixed_signed 2 y Hnan) as (c0 & r & E & _ & _).
      rewrite E. destruct (sign_bit y); reflexivity. }
  assert (Hgen : generate_intrest_transaction row fitid date_str
                 = Ok (bank_transaction "INT" date_str
                         (format_fixed 2 (fneg y)) fitid row, None)).
  { unfold generate_intrest_transaction.
    rewrite Htruthy, Hinverted. reflexivity. }
  exists y. eexists.
  split; [ exact Hplain | ].
  split; [ exact Htruthy | ].
  split; [ exact Hinverted | ].
  split; [ rewrite Hgen; unfold bank_transaction; reflexivity | ].
  split; [ exact Hflip | ].
  split.
  - intros Hun. rewrite format_fixed_minus.
    apply unsigned_number_spec, Hun.
  - intros counter Hact. unfold generate_transaction.
    rewrite is_funding_activity_not_buy by (rewrite Hact; discriminate).
    rewrite Hact. cbn [bind mem existsb String.eqb Ascii.eqb Bool.eqb orb].
    fold (date_str_of row). fold (fitid_of row counter).
    unfold generate_intrest_transaction.
    rewrite Htruthy, Hinverted. reflexivity.
Qed.

End Generators.

(** ** The loop over the rows and the document *)

Section Document.

Context `{Externals}.

Variable mappings : option (list MissingCusipRule).

Lemma process_rows_app (rows1 rows2 : list Row) (st : LoopState) :
  process_rows mappings st (rows1 ++ rows2)
  = let* st' := process_rows mappings st rows1 in
    process_rows mappings st' rows2.
Proof.
  revert st. induction rows1 as [| r rows1 IH]; intros st; simpl.
  - reflexivity.
  - destruct (process_row mappings st r) as [st1 | e]; simpl.
    + apply IH.
    + reflexivity.
Qed.

Lemma process_row_raises (st : LoopState) (row : Row) (e : exn) :
  generate_transaction mappings row (counter st) = Raise e ->
  process_row mappings st row = Raise e.
Proof.
  intros Hg. unfold process_row.
  destruct (parse_date (Date row)); rewrite Hg; reflexivity.
Qed.

(** The run stops at the first row that raises, with nothing written
    and the clock not read. *)
Lemma main_raises (output : string)
      (account_mapping : string -> option string)
      (rows : list Row) (w : World) (e : exn) :
  process_rows mappings initial_state rows = Raise e ->
  main output account_mapping mappings rows w = (w, Raise e).
Proof.
  intros Hp. unfold main. rewrite Hp. reflexivity.
Qed.

Lemma main_written_only_after_all_rows (output : string)
      (account_mapping : string -> option string)
      (rows : list Row) (w : World) :
  files (fst (main output account_mapping mappings rows w)) <> files w ->
  exists st, process_rows mappings initial_state rows = Ok st.
Proof.
  unfold main.
  destruct (process_rows mappings initial_state rows) as [st | e].
  - intros _. now exists st.
  - simpl. intros Hne. now elim Hne.
Qed.

(** C6.  A row whose trimmed, lower-cased activity is none of the
    recognized keywords makes [generate_transaction] raise the
    ValueError "Unknown activity" (the spec's UnknownActivityError);
    a run over rows that contain it ends with an exception, the world
    unchanged: no file is written.  The exception is this one when the
    rows before it were processed; and a file is written only when
    every row was processed. *)
Theorem unknown_activity_aborts_run (output : string)
        (account_mapping : string -> option string)
        (rows1 : list Row) (row : Row) (rows2 : list Row) (w : World) :
  existsb (String.eqb (lower (strip (Activity row)))) recognized_activities
  = false ->
  (forall counter,
      generate_transaction mappings row counter
      = Raise (UnknownActivity (Activity row)))
  /\ (exists e,
         main output account_mapping mappings (rows1 ++ row :: rows2) w
         = (w, Raise e))
  /\ (forall st,
         process_rows mappings initial_state rows1 = Ok st ->
         main output account_mapping mappings (rows1 ++ row :: rows2) w
         = (w, Raise (UnknownActivity (Activity row))))
  /\ (forall rows w',
         files (fst (main output account_mapping mappings rows w'))
         <> files w' ->
         exists st, process_rows mappings initial_state rows = Ok st).
Proof.
  intros Hun.
  assert (Hg : forall counter,
             generate_transaction mappings row counter
             = Raise (UnknownActivity (Activity row)))
    by (intro; now apply generate_transaction_unknown).
  assert (Hrow : forall st,
             process_rows mappings st (row :: rows2)
             = Raise (UnknownActivity (Activity row))).
  { intros st. simpl. rewrite (process_row_raises st row _ (Hg _)).
    reflexivity. }
  split; [ exact Hg | split; [ | split ] ].
  - case_eq (process_rows mappings initial_state rows1).
    + intros st Hst. exists (UnknownActivity (Activity row)).
      apply main_raises. rewrite process_rows_app, Hst. apply Hrow.
    + intros e He. exists e.
      apply main_raises. rewrite process_rows_app, He. reflexivity.
  - intros st Hst. apply main_raises.
    rewrite process_rows_app, Hst. apply Hrow.
  - intros rows w'. apply main_written_only_after_all_rows.
Qed.

(** *** The successful run *)

Lemma process_rows_generate_all (rows : list Row) :
  forall (st : LoopState) gens,
    generate_all mappings (counter st) rows = Ok gens ->
    exists st',
      process_rows mappings st rows = Ok st'
      /\ transactions st' = (transactions st ++ map fst gens)%list
      /\ securities st' = fold_left add_security gens (securities st)
      /\ first_account st'
         = match first_account st, rows with
           | Some a, _ => Some a
           | None, r :: _ => Some (strip (Account r))
           | None, [] => None
           end.
Proof.
  induction rows as [| r rows IH]; intros st gens Hg; simpl in Hg.
  - injection Hg as <-. exists st. simpl.
    rewrite app_nil_r. destruct (first_account st); auto.
  - case_eq (generate_transaction mappings r (counter st));
      [ intros [t i] Hr | intros e Hr ]; rewrite Hr in Hg; simpl in Hg;
      [ | discriminate ].
    case_eq (generate_all mappings (counter st + 1) rows);
      [ intros gs Hgs | intros e Hgs ]; rewrite Hgs in Hg; simpl in Hg;
      [ | discriminate ].
    injection Hg as <-.
    set (st1 :=
           {| transactions := (transactions st ++ [t])%list;
              counter := counter st + 1;
              first_account :=
                match first_account st with
                | None => Some (strip (Account r))
                | Some a => Some a
                end;
              min_date := fst (match parse_date (Date r) with
                | Some dt_obj =>
                    (match min_date st with
                     | None => Some dt_obj
                     | Some m =>
                         if dt_ltb dt_obj m then Some dt_obj else Some m
                     end,
                     match max_date st with
                     | None => Some dt_obj
                     | Some m =>
                         if dt_ltb m dt_obj then Some dt_obj else Some m
                     end)
                | None => (min_date st, max_date st)
                end);
              max_date := snd (match parse_date (Date r) with
                | Some dt_obj =>
                    (match min_date st with
                     | None => Some dt_obj
                     | Some m =>
                         if dt_ltb dt_obj m then Some dt_obj else Some m
                     end,
                     match max_date st with
                     | None => Some dt_obj
                     | Some m =>
                         if dt_ltb m dt_obj then Some dt_obj else Some m
                     end)
                | None => (min_date st, max_date st)
                end);
              securities := record_security i (securities st) |}).
    assert (Hrow : process_row mappings st r = Ok st1).
    { unfold process_row, st1.
      destruct (parse_date (Date r)); rewrite Hr; reflexivity. }
    destruct (IH st1 gs Hgs) as [st' [Hp [Ht [Hs Hf]]]].
    exists st'. simpl. rewrite Hrow. simpl.
    split; [ exact Hp | split; [ | split ] ].
    + rewrite Ht. simpl. rewrite <- app_assoc. reflexivity.
    + rewrite Hs. reflexivity.
    + rewrite Hf. simpl. destruct (first_account st); reflexivity.
Qed.

(** When every row is rendered and the account of the first row is
    mapped, the run writes one file: the lines of [qfx_lines] joined by
    newlines. *)
Lemma main_succeeds (output : string)
      (account_mapping : string -> option string)
      (r0 : Row) (rows : list Row) (w : World) gens (account_id : string) :
  generate_all mappings 1 (r0 :: rows) = Ok gens ->
  account_mapping (strip (strip (Account r0))) = Some account_id ->
  exists st dtnow dtasof dtstart_str dtend_str w',
    process_rows mappings initial_state (r0 :: rows) = Ok st
    /\ transactions st = map fst gens
    /\ securities st = fold_left add_security gens []
    /\ files w' = files w
    /\ main output account_mapping mappings (r0 :: rows) w
       = (write_file output
            (join nl
               (qfx_lines dtnow dtasof account_id dtstart_str dtend_str st))
            w',
          Ok tt).
Proof.
  intros Hg Hacc.
  destruct (process_rows_generate_all (r0 :: rows) initial_state gens Hg)
    as [st [Hp [Ht [Hs Hf]]]].
  simpl in Ht, Hs, Hf.
  exists st. unfold main. rewrite Hp, Hf.
  unfold get_account_id. rewrite Hacc.
  unfold format_ofx_datetime_opt, now.
  destruct (min_date st), (max_date st); simpl;
    do 5 eexists;
    (split; [ reflexivity
            | split; [ exact Ht
                     | split; [ exact Hs
                              | split; [ | reflexivity ] ] ] ]);
    reflexivity.
Qed.

(** *** Ordering of the fragments *)



(** *** The dictionary of securities *)

Lemma has_key_keys (k : string) (d : list (string * SecurityInfo)) :
  has_key k d = existsb (String.eqb k) (map fst d).
Proof.
  unfold has_key. induction d as [| [k' i] d IH]; simpl.
  - reflexivity.
  - rewrite IH, (String.eqb_sym k' k). reflexivity.
Qed.

Lemma has_key_In (k : string) (d : list (string * SecurityInfo)) :
  has_key k d = true <-> In k (map fst d).
Proof.
  rewrite has_key_keys, existsb_exists. split.
  - intros [x [Hin Hx]]. apply String.eqb_eq in Hx. now subst.
  - intros Hin. exists k. split; [ exact Hin | apply String.eqb_refl ].
Qed.

Lemma lookup_app (k : string) (d1 d2 : list (string * SecurityInfo)) :
  lookup k (d1 ++ d2)
  = match lookup k d1 with
    | Some i => Some i
    | None => lookup k d2
    end.
Proof.
  unfold lookup. induction d1 as [| [k' i] d1 IH]; simpl.
  - reflexivity.
  - destruct (String.eqb k' k); [ reflexivity | exact IH ].
Qed.

Lemma lookup_has_key (k : string) (d : list (string * SecurityInfo)) :
  has_key k d = true -> exists i, lookup k d = Some i.
Proof.
  unfold has_key, lookup. induction d as [| [k' i] d IH]; simpl.
  - discriminate.
  - destruct (String.eqb k' k); simpl.
    + intros _. now exists i.
    + exact IH.
Qed.

Lemma lookup_no_key (k : string) (d : list (string * SecurityInfo)) :
  has_key k d = false -> lookup k d = None.
Proof.
  unfold has_key, lookup. induction d as [| [k' i] d IH]; simpl.
  - reflexivity.
  - destruct (String.eqb k' k); simpl; [ discriminate | exact IH ].
Qed.

Section Fold.

Variable gens : list (TransactionEntry * option SecurityInfo).

Lemma securities_keys :
  forall d0,
    map fst (fold_left add_security gens d0)
    = (map fst d0
       ++ first_appearances (map fst d0)
            (map uniqueid (produced_entries gens)))%list.
Proof.
  induction gens as [| [t [i |]] gs IH]; intros d0; simpl.
  - now rewrite app_nil_r.
  - rewrite IH. unfold add_security; simpl.
    rewrite <- has_key_keys.
    destruct (has_key (uniqueid i) d0); simpl.
    + reflexivity.
    + rewrite map_app, <- app_assoc. reflexivity.
  - apply IH.
Qed.

Lemma securities_lookup (k : string) :
  forall d0,
    lookup k (fold_left add_security gens d0)
    = match lookup k d0 with
      | Some i => Some i
      | None => first_with_id k (produced_entries gens)
      end.
Proof.
  induction gens as [| [t [i |]] gs IH]; intros d0; simpl.
  - destruct (lookup k d0); reflexivity.
  - rewrite IH. unfold add_security; simpl.
    case_eq (has_key (uniqueid i) d0); intros Hk; simpl.
    + destruct (lookup k d0) as [j |] eqn:Hl; [ reflexivity | ].
      destruct (String.eqb_spec (uniqueid i) k) as [E | E];
        [ | reflexivity ].
      subst k. apply lookup_has_key in Hk. destruct Hk as [j Hj].
      congruence.
    + rewrite lookup_app.
      destruct (lookup k d0) as [j |]; [ reflexivity | ].
      unfold lookup at 1. simpl.
      destruct (String.eqb (uniqueid i) k); reflexivity.
  - apply IH.
Qed.

Lemma securities_nodup :
  forall d0,
    NoDup (map fst d0) ->
    NoDup (map fst (fold_left add_security gens d0)).
Proof.
  induction gens as [| [t [i |]] gs IH]; intros d0 Hd; simpl.
  - exact Hd.
  - apply IH. unfold add_security; simpl.
    case_eq (has_key (uniqueid i) d0); intros Hk; simpl.
    + exact Hd.
    + rewrite map_app. simpl.
      apply Permutation_NoDup with (l := uniqueid i :: map fst d0).
      * apply Permutation_cons_append.
      * constructor; [ | exact Hd ].
        intros Hin. apply has_key_In in Hin. congruence.
  - apply IH, Hd.
Qed.

Lemma securities_own_key :
  forall d0,
    (forall k i, In (k, i) d0 -> uniqueid i = k) ->
    forall k i,
      In (k, i) (fold_left add_security gens d0) -> uniqueid i = k.
Proof.
  induction gens as [| [t [i |]] gs IH]; intros d0 Hd; simpl.
  - exact Hd.
  - apply IH. unfold add_security; simpl.
    destruct (has_key (uniqueid i) d0); simpl; [ exact Hd | ].
    intros k j Hin. apply in_app_or in Hin.
    destruct Hin as [Hin | [Hin | []]]; [ now apply Hd | ].
    injection Hin as <- <-. reflexivity.
  - apply IH, Hd.
Qed.

End Fold.

(** C3.  When the run succeeds, the dictionary of securities that the
    document renders has one entry per distinct identifier among the
    entries the rows produced: its keys are those identifiers in order
    of first appearance, without repetition, and the value of a key is
    the entry of the first row that produced it.  The document lists
    the entries in that order. *)
Theorem securities_first_writer_wins (output : string)
        (account_mapping : string -> option string)
        (r0 : Row) (rows : list Row) (w : World) gens
        (account_id : string) :
  generate_all mappings 1 (r0 :: rows) = Ok gens ->
  account_mapping (strip (strip (Account r0))) = Some account_id ->
  let infos := produced_entries gens in
  exists secs,
    NoDup (map fst secs)
    /\ map fst secs = first_appearances [] (map uniqueid infos)
    /\ (forall k, lookup k secs = first_with_id k infos)
    /\ (forall k i, In (k, i) secs -> uniqueid i = k)
    /\ (secs <> [] ->
        seclist_lines secs
        = ([ "  <SECLISTMSGSRSV1>"; "    <SECLIST>" ]
           ++ map render_security secs
           ++ [ "    </SECLIST>"; "  </SECLISTMSGSRSV1>" ])%list)
    /\ exists dtnow dtasof dtstart_str dtend_str w',
        files w' = files w
        /\ main output account_mapping mappings (r0 :: rows) w
           = (write_file output
                (join nl
                   (header_lines dtnow dtasof account_id dtstart_str
                      dtend_str
                    ++ map rstrip (all_txns (map fst gens))
                    ++ balance_lines
                    ++ seclist_lines secs
                    ++ ["</OFX>"])%list)
                w',
              Ok tt).
Proof.
  intros Hg Hacc infos.
  destruct (main_succeeds output account_mapping r0 rows w gens
              account_id Hg Hacc)
    as (st & dtnow & dtasof & dtstart & dtend & w' & _ & Ht & Hs & Hw & Hm).
  exists (securities st). rewrite Hs.
  split; [ apply securities_nodup; constructor | ].
  split; [ apply (securities_keys gens []) | ].
  split; [ intros k; apply (securities_lookup gens k []) | ].
  split; [ apply securities_own_key; intros k i [] | ].
  split.
  - destruct (fold_left add_security gens []); [ congruence | reflexivity ].
  - exists dtnow, dtasof, dtstart, dtend, w'.
    split; [ exact Hw | ].
    rewrite Hm. unfold qfx_lines. rewrite Ht, Hs. reflexivity.
Qed.

End Document.

(** * The claims on concrete rows *)

Section Examples.

Import Demo.

Let ext : Externals := Demo.externals.

(** The row of the specification: Activity "buy", Description
    "XYZ initial", no CUSIP, no Symbol, Amount "-500.00", Quantity
    "500". *)
Lemma funding_activity_is_transfer_witness :
  exists out,
    generate_transaction (H := ext) (Some []) funding_row 1
    = Ok ({| txn_str := out; is_invbanktran := false |},
          Some cash_security_info)
    /\ startswith out "          <TRANSFER>" = true.
Proof.
  refine (proj1 (proj2 (proj2
    (funding_activity_is_transfer (H := ext) (Some []) funding_row 1
       "-500.00" (S754_finite true 8796093022208000 (-44))
       (S754_finite false 8796093022208000 (-44))
       _ _ _ _ _ _ _ _)))); vm_compute; reflexivity.
Defined.

Lemma buysell_without_amount_and_price_raises_witness :
  generate_transaction (H := ext) (Some []) sell_row_incomplete 3
  = Raise (NeitherAmountNorPrice sell_row_incomplete).
Proof.
  refine (proj1 (proj2 (proj2 (proj2
    (buysell_without_amount_and_price_raises (H := ext) (Some [])
       sell_row_incomplete _ _)))) 3 _); vm_compute; reflexivity.
Defined.

(** A "reinvest dist" row with a quantity and neither amount nor
    price: the buy generator, called with the default amount 0.0, does
    not raise; it renders a purchase at price 0.000000000 and total
    0.0. *)
Lemma reinvest_dist_default_amount_counterexample :
  lower (strip (Activity reinvest_dist_row)) = "reinvest dist"
  /\ normalize_currency (Amount reinvest_dist_row) false = None
  /\ normalize_currency (Price reinvest_dist_row) false = None
  /\ generate_buysell_transaction (H := ext) (Some []) reinvest_dist_row
       false "TXN202303200003" "20230320" AmountZero
     <> Raise (NeitherAmountNorPrice reinvest_dist_row)
  /\ match generate_transaction (H := ext) (Some []) reinvest_dist_row 3
     with
     | Ok (entry, Some info) =>
         is_invbanktran entry = false
         /\ kind_of (txn_str entry) = "Buy"
         /\ contains "<UNITPRICE>0.000000000</UNITPRICE>" (txn_str entry)
            = true
         /\ contains "<TOTAL>0.0</TOTAL>" (txn_str entry) = true
     | _ => False
     end.
Proof.
  split; [ reflexivity | ].
  split; [ reflexivity | ].
  split; [ reflexivity | ].
  split.
  - vm_compute. discriminate.
  - vm_compute. repeat split; reflexivity.
Qed.

(** A text that starts with a minus sign and is not negative: the
    remainder handed to [float] is "-5", and the two signs cancel. *)
Lemma double_minus_counterexample :
  minus_prefixed (strip "- -5") = true
  /\ snd (currency_parts "- -5") = "-5"
  /\ normalize_currency "- -5" false = Some "5.00"
  /\ startswith "5.00" "-" = false.
Proof.
  repeat split; vm_compute; reflexivity.
Qed.

Lemma income_without_cusip_raises_witness :
  generate_transaction (H := ext) (Some []) dividend_row_no_cusip 1
  = Raise (NoCusipForIncome "Fund payout").
Proof.
  refine (proj1
    (income_without_cusip_raises (H := ext) (Some [])
       dividend_row_no_cusip 1 _ _)).
  - left. vm_compute. reflexivity.
  - vm_compute. reflexivity.
Defined.

(** The activity "rebalance": the run over a fee, the rebalance row
    and a buy ends with the exception and an untouched world. *)
Lemma unknown_activity_aborts_run_witness :
  generate_transaction (H := ext) (Some []) rebalance_row 2
  = Raise (UnknownActivity "rebalance")
  /\ main (H := ext) "out.qfx" account_mapping (Some [])
       [fee_row; rebalance_row; buy_row] empty_world
     = (empty_world, Raise (UnknownActivity "rebalance")).
Proof.
  pose proof
    (unknown_activity_aborts_run (H := ext) (Some []) "out.qfx"
       account_mapping [fee_row] rebalance_row [buy_row] empty_world
       eq_refl) as (Hg & _ & Hm & _).
  split.
  - apply Hg.
  - apply (Hm state_after_fee). reflexivity.
Defined.


(** The order in the document for the rows Fee, Buy, Interest, Sell:
    Buy, Sell, Fee, Interest. *)
Example fee_buy_interest_sell_order :
  map kind_of (map txn_str (map fst four_rows_results))
  = ["Fee"; "Buy"; "Interest"; "Sell"]
  /\ map kind_of (all_txns (map fst four_rows_results))
     = ["Buy"; "Sell"; "Fee"; "Interest"].
Proof.
  split; vm_compute; reflexivity.
Qed.

(** Two purchases of the same CUSIP, the second without a symbol. *)
Lemma securities_first_writer_wins_witness :
  generate_all (H := ext) (Some []) 1 same_cusip_rows
  = Ok same_cusip_results
  /\ exists secs,
      NoDup (map fst secs)
      /\ map fst secs
         = first_appearances []
             (map uniqueid (produced_entries same_cusip_results))
      /\ (forall k,
             lookup k secs
             = first_with_id k (produced_entries same_cusip_results)).
Proof.
  assert (Hg : generate_all (H := ext) (Some []) 1 same_cusip_rows
               = Ok same_cusip_results) by (vm_compute; reflexivity).
  split; [ exact Hg | ].
  destruct (securities_first_writer_wins (H := ext) (Some []) "out.qfx"
              account_mapping buy_row [buy_again_row] empty_world
              same_cusip_results "12345678" Hg eq_refl)
    as (secs & Hnd & Hkeys & Hlook & _).
  exists secs. auto.
Defined.

Example same_cusip_one_entry :
  match produced_entries same_cusip_results with
  | [first; second] =>
      uniqueid first = "000123456"
      /\ uniqueid second = "000123456"
      /\ first <> second
      /\ fold_left add_security same_cusip_results []
         = [("000123456", first)]
  | _ => False
  end.
Proof.
  vm_compute. repeat split; try reflexivity. discriminate.
Qed.

(** A cash withdrawal "(250.00)" and a security transfer of quantity
    "-7". *)
Lemma transfer_direction_tag_witness :
  (exists pre,
      generate_asset_transfer (H := ext) (Some []) cash_out_row
        "TXN202304010001" "20230401"
      = Ok (pre
            ++ "            <TFERACTION>OUT</TFERACTION>" ++ nl
            ++ "            <POSTYPE>LONG</POSTYPE>" ++ nl
            ++ "          </TRANSFER>" ++ nl,
            Some cash_security_info))
  /\ exists pre info,
      generate_asset_transfer (H := ext) (Some []) security_transfer_row
        "TXN202304020002" "20230402"
      = Ok (pre
            ++ "    <UNITS>-7</UNITS>" ++ nl
            ++ "    <TFERACTION>IN</TFERACTION>" ++ nl
            ++ "    <POSTYPE>LONG</POSTYPE>" ++ nl
            ++ "  </TRANSFER>" ++ nl,
            Some info).
Proof.
  split.
  - exact (proj1
             (proj1
                (transfer_direction_tag (H := ext) (Some []) cash_out_row
                   "TXN202304010001" "20230401")
                eq_refl "-250.00" eq_refl)).
  - exact (proj2
             (transfer_direction_tag (H := ext) (Some [])
                security_transfer_row "TXN202304020002" "20230402")
             ltac:(discriminate) [] eq_refl).
Defined.

(** An interest of "1.23" is written as "-1.23". *)
Lemma interest_amount_is_inverted_witness :
  normalize_currency (Amount interest_row) false = Some "1.23"
  /\ exists rest,
      generate_intrest_transaction interest_row
        "TXN202301300003" "20230130"
      = Ok ("          <INVBANKTRAN>" ++ nl
            ++ "            <STMTTRN>" ++ nl
            ++ "              <TRNTYPE>INT</TRNTYPE>" ++ nl
            ++ "              <DTPOSTED>20230130</DTPOSTED>" ++ nl
            ++ "              <TRNAMT>-1.23</TRNAMT>" ++ nl ++ rest,
            None).
Proof.
  split; [ vm_compute; reflexivity | ].
  destruct (interest_amount_is_inverted (H := ext) (Some []) interest_row
              "TXN202301300003" "20230130"
              (S754_finite false 5539427541665710 (-52)))
    as (y & rest & _ & _ & Hinv & Hgen & _).
  - vm_compute. discriminate.
  - vm_compute. reflexivity.
  - exists rest. rewrite Hgen. f_equal. f_equal.
    assert (Ey : Some (format_fixed 2 (fneg y)) = Some "-1.23")
      by (rewrite <- Hinv; vm_compute; reflexivity).
    injection Ey as Ey. rewrite Ey. reflexivity.
Defined.

End Examples.

(** * The functions around the generators *)

(** ** Escaping of memo texts *)

Section Escape.

Lemma replace_app (old : ascii) (new s t : string) :
  replace old new (s ++ t) = replace old new s ++ replace old new t.
Proof.
  induction s as [| c s IH]; cbn [append replace].
  - reflexivity.
  - destruct (Ascii.eqb c old).
    + rewrite IH. symmetry. apply append_assoc.
    + cbn [append]. rewrite IH. reflexivity.
Qed.

Lemma xml_escape_app (s t : string) :
  xml_escape (s ++ t) = xml_escape s ++ xml_escape t.
Proof.
  unfold xml_escape. rewrite !replace_app. reflexivity.
Qed.

Lemma xml_escape_char (c : ascii) :
  xml_escape (String c "") = escape_char c.
Proof.
  unfold escape_char.
  destruct (Ascii.eqb_spec c "&") as [-> | H1]; [ reflexivity | ].
  destruct (Ascii.eqb_spec c "<") as [-> | H2]; [ reflexivity | ].
  destruct (Ascii.eqb_spec c ">") as [-> | H3]; [ reflexivity | ].
  destruct (Ascii.eqb_spec c dquote) as [-> | H4]; [ reflexivity | ].
  destruct (Ascii.eqb_spec c "'") as [-> | H5]; [ reflexivity | ].
  apply Ascii.eqb_neq in H1, H2, H3, H4, H5.
  unfold xml_escape. cbn [replace].
  rewrite H1. cbn [replace]. rewrite H2. cbn [replace].
  rewrite H3. cbn [replace]. rewrite H4. cbn [replace].
  rewrite H5. reflexivity.
Qed.

Lemma escape_char_no_markup (c : ascii) :
  string_forall (fun a => negb (markup_char a)) (escape_char c) = true.
Proof.
  unfold escape_char.
  destruct (Ascii.eqb c "&") eqn:H1; [ reflexivity | ].
  destruct (Ascii.eqb c "<") eqn:H2; [ reflexivity | ].
  destruct (Ascii.eqb c ">") eqn:H3; [ reflexivity | ].
  destruct (Ascii.eqb c dquote) eqn:H4; [ reflexivity | ].
  destruct (Ascii.eqb c "'") eqn:H5; [ reflexivity | ].
  cbn [string_forall]. unfold markup_char. rewrite H2, H3, H4, H5.
  reflexivity.
Qed.

(** X1.  The five replacements of [xml_escape], made one after the
    other with "&" first, amount to escaping every character on its
    own: no entity is escaped twice.  The result holds no angle
    bracket and no quotation mark, single or double, and is the
    concatenation of the results on the parts of the text. *)
Theorem xml_escape_each_character (text other : string) :
  xml_escape text = escape_each text
  /\ string_forall (fun c => negb (markup_char c)) (xml_escape text) = true
  /\ xml_escape (text ++ other) = xml_escape text ++ xml_escape other.
Proof.
  assert (Heach : forall t, xml_escape t = escape_each t).
  { induction t as [| c t IH].
    - reflexivity.
    - change (String c t) with (String c "" ++ t).
      rewrite xml_escape_app, xml_escape_char, IH. reflexivity. }
  split; [ apply Heach | split; [ | apply xml_escape_app ] ].
  rewrite Heach. induction text as [| c t IH]; cbn [escape_each].
  - reflexivity.
  - rewrite string_forall_app, escape_char_no_markup, IH. reflexivity.
Qed.

End Escape.

(** ** The name of the output file *)

Section OutputName.

Lemma endswith_app (a b : string) : endswith (a ++ b) b = true.
Proof.
  induction a as [| c a IH].
  - cbn [append]. destruct b; cbn [endswith]; rewrite String.eqb_refl;
      reflexivity.
  - cbn [append endswith]. rewrite IH. apply orb_true_r.
Qed.

Lemma endswith_split (s suf : string) :
  endswith s suf = true -> exists pre, s = pre ++ suf.
Proof.
  induction s as [| c s IH]; cbn [endswith]; intros Hs.
  - rewrite orb_false_r in Hs. apply String.eqb_eq in Hs.
    exists "". rewrite <- Hs. reflexivity.
  - apply orb_true_iff in Hs. destruct Hs as [Hs | Hs].
    + apply String.eqb_eq in Hs. exists "". rewrite <- Hs. reflexivity.
    + destruct (IH Hs) as [pre ->]. exists (String c pre). reflexivity.
Qed.

Lemma append_inv_head (a b c : string) : a ++ b = a ++ c -> b = c.
Proof.
  induction a as [| x a IH]; cbn [append]; intros E.
  - exact E.
  - injection E as E. apply IH, E.
Qed.

Lemma drop_last_snoc (a : string) (c : ascii) :
  drop_last (a ++ String c "") = a.
Proof.
  induction a as [| x a IH]; cbn [append].
  - reflexivity.
  - change (drop_last (String x (a ++ String c "")))
      with (match a ++ String c "" with
            | "" => ""
            | String _ _ => String x (drop_last (a ++ String c ""))
            end).
    rewrite IH.
    destruct (a ++ String c "") eqn:E; [ | reflexivity ].
    destruct a; discriminate E.
Qed.

Lemma drop_last_n_four (stem : string) (c1 c2 c3 c4 : ascii) :
  drop_last_n 4
    (stem ++ String c1 (String c2 (String c3 (String c4 ""))))
  = stem.
Proof.
  cbn [drop_last_n].
  replace (stem ++ String c1 (String c2 (String c3 (String c4 ""))))
    with ((((stem ++ String c1 "") ++ String c2 "") ++ String c3 "")
          ++ String c4 "")
    by (rewrite !append_assoc; reflexivity).
  rewrite !drop_last_snoc. reflexivity.
Qed.

(** X2.  The default name of the output ends with ".qfx" and is never
    the name of the input, so the input file is not overwritten: a name
    ending in ".csv" (in lower case) has this extension replaced, any
    other name has ".qfx" appended. *)
Theorem output_from_input_spec (input : string) :
  endswith (_output_from_input input) ".qfx" = true
  /\ _output_from_input input <> input
  /\ (forall stem,
         input = stem ++ ".csv" -> _output_from_input input = stem ++ ".qfx")
  /\ (endswith input ".csv" = false ->
      _output_from_input input = input ++ ".qfx").
Proof.
  assert (Hcsv : forall stem,
             input = stem ++ ".csv" ->
             _output_from_input input = stem ++ ".qfx").
  { intros stem ->. unfold _output_from_input.
    rewrite endswith_app. rewrite (drop_last_n_four stem "." "c" "s" "v").
    reflexivity. }
  unfold _output_from_input at 1 2 4.
  destruct (endswith input ".csv") eqn:Hend.
  - destruct (endswith_split _ _ Hend) as [stem Hstem].
    pose proof (Hcsv stem Hstem) as Hout.
    unfold _output_from_input in Hout. rewrite Hend in Hout.
    rewrite Hout.
    split; [ apply endswith_app | ].
    split; [ | split; [ exact Hcsv | discriminate ] ].
    rewrite Hstem. intros E. apply append_inv_head in E. discriminate E.
  - split; [ apply endswith_app | ].
    split; [ | split; [ exact Hcsv | reflexivity ] ].
    intros E. apply (f_equal String.length) in E.
    rewrite length_append in E. cbn [String.length] in E. lia.
Qed.

End OutputName.

(** ** Header names and the lines of the table *)

Section Table.

Section StripApp.

Variable P : ascii -> bool.

Lemma rstrip_by_all (pad : string) :
  string_forall P pad = true -> rstrip_by P pad = "".
Proof.
  induction pad as [| c pad IH]; cbn [string_forall rstrip_by].
  - reflexivity.
  - intros Hp. apply andb_true_iff in Hp. destruct Hp as [Hc Hp].
    rewrite (IH Hp), Hc. reflexivity.
Qed.

Lemma rstrip_by_app (x y : string) :
  rstrip_by P (x ++ y)
  = match rstrip_by P y with
    | "" => rstrip_by P x
    | r => x ++ r
    end.
Proof.
  induction x as [| c x IH]; cbn [append].
  - destruct (rstrip_by P y); reflexivity.
  - cbn [rstrip_by]. rewrite IH.
    destruct (rstrip_by P y) as [| c' r].
    + reflexivity.
    + destruct x; reflexivity.
Qed.

Lemma rstrip_by_app_keep (x y : string) :
  rstrip_by P y <> "" -> rstrip_by P (x ++ y) = x ++ rstrip_by P y.
Proof.
  intros Hy. rewrite rstrip_by_app.
  destruct (rstrip_by P y); [ now elim Hy | reflexivity ].
Qed.

Lemma rstrip_by_app_drop (x y : string) :
  string_forall P y = true -> rstrip_by P (x ++ y) = rstrip_by P x.
Proof.
  intros Hy. rewrite rstrip_by_app, (rstrip_by_all y Hy). reflexivity.
Qed.

Lemma lstrip_by_app_all (pad x : string) :
  string_forall P pad = true -> lstrip_by P (pad ++ x) = lstrip_by P x.
Proof.
  induction pad as [| c pad IH]; cbn [string_forall append lstrip_by].
  - reflexivity.
  - intros Hp. apply andb_true_iff in Hp. destruct Hp as [Hc Hp].
    rewrite Hc. apply IH, Hp.
Qed.

End StripApp.

Lemma lower_app (s t : string) : lower (s ++ t) = lower s ++ lower t.
Proof.
  induction s as [| c s IH]; cbn [append lower].
  - reflexivity.
  - rewrite IH. reflexivity.
Qed.

Lemma startswith_app (s t pre : string) :
  startswith s pre = true -> startswith (s ++ t) pre = true.
Proof.
  revert s. induction pre as [| a pre IH]; intros s.
  - intros _. destruct (s ++ t); reflexivity.
  - destruct s as [| b s]; cbn [startswith append]; [ discriminate | ].
    intros Hs. apply andb_true_iff in Hs. destruct Hs as [Hb Hs].
    rewrite Hb, (IH s Hs). reflexivity.
Qed.

Lemma space_not_digit (c : ascii) :
  is_space c = true -> is_digit c = false.
Proof.
  destruct c as [[] [] [] [] [] [] [] []]; intros Hc;
    try discriminate Hc; reflexivity.
Qed.

Lemma digit_not_space (c : ascii) :
  is_digit c = true -> is_space c = false.
Proof.
  intros Hc. apply numeric_char_class, digit_class, Hc.
Qed.

Lemma price_or_amount_first (base : string) :
  startswith (lower base) "price" || startswith (lower base) "amount" = true ->
  exists c rest, base = String c rest /\ is_space c = false.
Proof.
  destruct base as [| c rest]; [ discriminate | ].
  intros Hp. exists c, rest. split; [ reflexivity | ].
  cbn [lower startswith] in Hp.
  destruct c as [[] [] [] [] [] [] [] []]; try reflexivity;
    discriminate Hp.
Qed.

(** X3.  A header that starts with "price" or "amount" in any case
    loses a trailing number together with the white space before it,
    and the white space around it: the numbered copies of a column get
    the name of the column.  Any other header is only trimmed. *)
Theorem normalize_header_numbered (base ws ds pad1 pad2 : string) :
  startswith (lower base) "price" || startswith (lower base) "amount" = true ->
  rstrip base = base ->
  rstrip_by is_digit base = base ->
  string_forall is_space pad1 = true ->
  string_forall is_space pad2 = true ->
  string_forall is_space ws = true ->
  string_forall is_digit ds = true ->
  normalize_header (pad1 ++ base ++ ws ++ ds ++ pad2) = base
  /\ forall header,
      startswith (lower (strip header)) "price"
      || startswith (lower (strip header)) "amount" = false ->
      normalize_header header = strip header.
Proof.
  intros Hpa Hrb Hdb Hp1 Hp2 Hws Hds.
  split.
  2:{ intros header Hh. unfold normalize_header. rewrite Hh. reflexivity. }
  destruct (price_or_amount_first base Hpa) as (c0 & rest & Eb & Hc0).
  assert (Hbase_ne : rstrip_by is_space base <> "").
  { fold (rstrip base). rewrite Hrb, Eb. discriminate. }
  assert (Hws_nd : string_forall (fun c => negb (is_digit c)) ws = true).
  { eapply string_forall_impl; [ | exact Hws ].
    intros c Hc. apply negb_true_iff, space_not_digit, Hc. }
  assert (Hds_ns : string_forall (fun c => negb (is_space c)) ds = true).
  { eapply string_forall_impl; [ | exact Hds ].
    intros c Hc. apply negb_true_iff, digit_not_space, Hc. }
  (* the trimmed header *)
  assert (Hstrip : strip (pad1 ++ base ++ ws ++ ds ++ pad2)
                   = match ds with
                     | "" => base
                     | _ => base ++ ws ++ ds
                     end).
  { unfold strip, lstrip, rstrip.
    assert (Hlead : forall x,
               lstrip_by is_space (pad1 ++ base ++ x) = base ++ x).
    { intros x. rewrite lstrip_by_app_all by exact Hp1.
      rewrite Eb. apply lstrip_by_first, Hc0. }
    destruct ds as [| d ds'].
    - replace (pad1 ++ base ++ ws ++ "" ++ pad2)
        with ((pad1 ++ base) ++ ws ++ pad2)
        by (rewrite !append_assoc; reflexivity).
      rewrite rstrip_by_app_drop
        by (rewrite string_forall_app, Hws, Hp2; reflexivity).
      rewrite rstrip_by_app_keep by exact Hbase_ne.
      fold (rstrip base). rewrite Hrb.
      rewrite <- (append_nil_r base) at 1. rewrite Hlead.
      apply append_nil_r.
    - replace (pad1 ++ base ++ ws ++ String d ds' ++ pad2)
        with ((pad1 ++ base ++ ws) ++ String d ds' ++ pad2)
        by (rewrite !append_assoc; reflexivity).
      assert (Hd : rstrip_by is_space (String d ds' ++ pad2) = String d ds').
      { rewrite rstrip_by_app_drop by exact Hp2.
        apply rstrip_by_none, Hds_ns. }
      rewrite rstrip_by_app_keep by (rewrite Hd; discriminate).
      rewrite Hd, !append_assoc. apply Hlead. }
  unfold normalize_header. rewrite Hstrip.
  destruct ds as [| d ds'].
  - rewrite Hpa. unfold sub_trailing_number, ends_with_digit.
    rewrite Hdb, String.eqb_refl. reflexivity.
  - rewrite lower_app.
    assert (Hpre : startswith (lower base ++ lower (ws ++ String d ds'))
                     "price"
                   || startswith (lower base ++ lower (ws ++ String d ds'))
                        "amount" = true).
    { apply orb_true_iff in Hpa. apply orb_true_iff.
      destruct Hpa as [Hp | Hp]; [ left | right ];
        apply startswith_app, Hp. }
    rewrite Hpre.
    assert (Hnum : rstrip_by is_digit (base ++ ws ++ String d ds')
                   = base ++ ws).
    { rewrite (rstrip_by_app is_digit base (ws ++ String d ds')).
      rewrite (rstrip_by_app is_digit ws (String d ds')).
      rewrite (rstrip_by_all is_digit (String d ds') Hds).
      rewrite (rstrip_by_none is_digit ws Hws_nd).
      destruct ws; [ rewrite Hdb; symmetry; apply append_nil_r
                   | reflexivity ]. }
    unfold sub_trailing_number, ends_with_digit. rewrite Hnum.
    assert (Hne : String.eqb (base ++ ws) (base ++ ws ++ String d ds')
                  = false).
    { apply String.eqb_neq. intros E.
      rewrite <- (append_nil_r (base ++ ws)) in E at 1.
      rewrite append_assoc in E.
      apply append_inv_head, append_inv_head in E. discriminate E. }
    rewrite Hne. cbn [negb].
    unfold rstrip. rewrite (rstrip_by_app is_space base ws).
    rewrite (rstrip_by_all is_space ws Hws). exact Hrb.
Qed.

(** *** The search for the header *)

Lemma data_lines_spec (rows : list (list string)) :
  exists rest,
    rows = (data_lines rows ++ rest)%list
    /\ Forall (fun r => row_is_empty r = false) (data_lines rows)
    /\ (rest = [] \/ exists r rest', rest = r :: rest' /\ row_is_empty r = true).
Proof.
  induction rows as [| row rows IH]; cbn [data_lines].
  - exists []. repeat split; [ constructor | now left ].
  - destruct (row_is_empty row) eqn:He.
    + exists (row :: rows). repeat split; [ constructor | right ].
      exists row, rows. auto.
    + destruct IH as (rest & Hrows & Hall & Hrest).
      exists rest. cbn [app]. rewrite <- Hrows.
      repeat split; [ constructor; assumption | exact Hrest ].
Qed.

(** X4.  The search returns the first line whose first two fields,
    trimmed, are "Date" and "Account", and the lines after it up to the
    first line without content; the lines before the header are
    skipped.  It raises the error of the missing header exactly when no
    line is a header and no line consists of the single field "Date". *)
Theorem read_table_spec (rows : list (list string)) :
  (forall header lines,
      read_table rows = inr (header, lines) ->
      exists before rest,
        rows = (before ++ header :: lines ++ rest)%list
        /\ is_header header = true
        /\ Forall (fun r => is_header r = false) before
        /\ Forall (fun r => row_is_empty r = false) lines
        /\ (rest = []
            \/ exists r rest', rest = r :: rest' /\ row_is_empty r = true))
  /\ (read_table rows = inl HeaderNotFound <->
      Forall (fun r => is_header r = false /\ lone_date_field r = false)
        rows).
Proof.
  induction rows as [| row rows [IH1 IH2]].
  - split.
    + intros header lines Hr. discriminate Hr.
    + split; [ constructor | reflexivity ].
  - assert (Hskip :
              is_header row = false -> lone_date_field row = false ->
              read_table (row :: rows) = read_table rows).
    { intros Hh Hl. cbn [read_table].
      destruct row as [| f0 [| f1 others]]; cbn [is_header lone_date_field]
        in Hh, Hl.
      - reflexivity.
      - rewrite Hl. reflexivity.
      - destruct (String.eqb (strip f0) "Date"); [ | reflexivity ].
        cbn [andb] in Hh. rewrite Hh. reflexivity. }
    destruct (is_header row) eqn:Hh.
    + (* the header is this line *)
      assert (Hfound : read_table (row :: rows) = inr (row, data_lines rows)).
      { cbn [read_table].
        destruct row as [| f0 [| f1 others]]; cbn [is_header] in Hh;
          try discriminate Hh.
        apply andb_true_iff in Hh. destruct Hh as [H0 H1].
        rewrite H0, H1. reflexivity. }
      split.
      * intros header lines Hr. rewrite Hfound in Hr.
        injection Hr as <- <-.
        destruct (data_lines_spec rows) as (rest & Hrows & Hall & Hrest).
        exists [], rest. cbn [app]. rewrite <- Hrows.
        repeat split; [ exact Hh | constructor | exact Hall | exact Hrest ].
      * rewrite Hfound. split; [ discriminate | ].
        intros Hall. inversion Hall as [| ? ? [Hx _] _]. congruence.
    + destruct (lone_date_field row) eqn:Hl.
      * (* a line of the single field "Date" *)
        assert (Herr : read_table (row :: rows) = inl RowIndexOutOfRange).
        { cbn [read_table].
          destruct row as [| f0 [| f1 others]]; cbn [lone_date_field] in Hl;
            try discriminate Hl.
          rewrite Hl. reflexivity. }
        rewrite Herr. split; [ discriminate | ].
        split; [ discriminate | ].
        intros Hall. inversion Hall as [| ? ? [_ Hx] _]. congruence.
      * rewrite (Hskip eq_refl eq_refl). split.
        -- intros header lines Hr.
           destruct (IH1 header lines Hr)
             as (before & rest & Hrows & Hhd & Hbefore & Hlines & Hrest).
           exists (row :: before), rest. cbn [app]. rewrite <- Hrows.
           repeat split; try assumption. constructor; assumption.
        -- rewrite IH2. split.
           ++ intros Hall. constructor; [ split; assumption | exact Hall ].
           ++ intros Hall. inversion Hall. assumption.
Qed.

End Table.

(** ** The computed unit price *)

Section Price.






(** The sign does appear: an amount "(0)" is normalized to "-0.00". *)
Example compute_price_negative_zero :
  normalize_currency "(0)" false = Some "-0.00"
  /\ compute_price "5" (AmountStr "-0.00") = "-0.000000000"
  /\ compute_price "10" (AmountStr "-100.00") = "10.000000000"
  /\ compute_price "-4" (AmountStr "-100.00") = "25.000000000"
  /\ compute_price "0" (AmountStr "-100.00") = "0.00".
Proof.
  repeat split; vm_compute; reflexivity.
Qed.

End Price.

(** ** Resolution of the security of a row *)

Section Resolver.

Context `{Externals}.

Lemma first_match_first (before after : list MissingCusipRule)
      (r : MissingCusipRule) (description : string) :
  Forall (fun m => re_search (description_regex m) description = false)
    before ->
  re_search (description_regex r) description = true ->
  first_match (before ++ r :: after) description = Some r.
Proof.
  intros Hb Hr. induction Hb as [| m before Hm _ IH]; cbn [app first_match].
  - rewrite Hr. reflexivity.
  - rewrite Hm. exact IH.
Qed.

Lemma first_match_none (rules : list MissingCusipRule)
      (description : string) :
  Forall (fun m => re_search (description_regex m) description = false)
    rules ->
  first_match rules description = None.
Proof.
  intros Hb. induction Hb as [| m rules Hm _ IH]; cbn [first_match].
  - reflexivity.
  - rewrite Hm. exact IH.
Qed.

(** X6.  For a row without CUSIP, the first rule whose pattern is found
    in the trimmed description decides: the SECID block carries its
    [uniqueid] with the type OTHER, and the security entry is filed
    under its [symbol].  When no pattern is found, both lookups raise
    the ValueError "No CUSIP provided and no matching pattern found". *)
Theorem first_rule_wins (row : Row) (indent : nat)
        (before after : list MissingCusipRule) (r : MissingCusipRule) :
  strip (CUSIP row) = "" ->
  Forall (fun m =>
            re_search (description_regex m) (strip (Description row)) = false)
    before ->
  (re_search (description_regex r) (strip (Description row)) = true ->
   generate_buysell_secid (Some (before ++ r :: after)%list) row indent
   = Ok (secid_block (spaces indent) (rule_uniqueid r) "OTHER")
   /\ generate_buysell_security_info (Some (before ++ r :: after)%list) row
      = Ok {| uniqueid := rule_symbol r;
              info_entry :=
                security_info_entry (rule_info_tag r)
                  (secid_block (spaces 10) (rule_uniqueid r) "OTHER")
                  (rule_symbol r) |})
  /\ generate_buysell_secid (Some before) row indent
     = Raise (NoCusipNoPattern (strip (Description row)))
  /\ generate_buysell_security_info (Some before) row
     = Raise (NoCusipNoPattern (strip (Description row))).
Proof.
  intros Hc Hb.
  unfold generate_buysell_security_info, generate_buysell_secid.
  rewrite Hc. cbn [truthy String.eqb negb]. cbv iota.
  rewrite (first_match_none before _ Hb).
  split; [ | split; reflexivity ].
  intros Hr. rewrite (first_match_first before after r _ Hb Hr).
  split; reflexivity.
Qed.

Lemma lookups_alike (mappings : option (list MissingCusipRule))
      (row : Row) (indent : nat) :
  match generate_buysell_secid mappings row indent,
        generate_buysell_security_info mappings row with
  | Ok _, Ok _ => True
  | Raise e, Raise e' => e = e'
  | _, _ => False
  end.
Proof.
  unfold generate_buysell_security_info, generate_buysell_secid.
  destruct mappings as [ms |].
  - destruct (truthy (strip (CUSIP row))); cbn [bind]; [ exact I | ].
    destruct (first_match ms (strip (Description row))); cbn [bind];
      [ exact I | reflexivity ].
  - destruct (truthy (strip (CUSIP row))); reflexivity.
Qed.

(** X7.  The two lookups of a security resolve alike: when the SECID
    block is built, the security entry is built too, and when one
    raises, the other raises the same exception.  Hence the buy/sell
    generator either raises for want of amount and price, or raises
    what the SECID lookup raises, or returns a fragment with a security
    entry. *)
Theorem security_lookups_agree
        (mappings : option (list MissingCusipRule)) (row : Row)
        (indent : nat) :
  (forall secid,
      generate_buysell_secid mappings row indent = Ok secid ->
      exists info, generate_buysell_security_info mappings row = Ok info)
  /\ (forall e,
         generate_buysell_secid mappings row indent = Raise e ->
         generate_buysell_security_info mappings row = Raise e)
  /\ forall sell fitid date_str amount_default,
      generate_buysell_transaction mappings row sell fitid date_str
        amount_default = Raise (NeitherAmountNorPrice row)
      \/ (exists e,
             generate_buysell_secid mappings row 12 = Raise e
             /\ generate_buysell_transaction mappings row sell fitid
                  date_str amount_default = Raise e)
      \/ exists out info,
          generate_buysell_transaction mappings row sell fitid date_str
            amount_default = Ok (out, Some info).
Proof.
  pose proof (lookups_alike mappings row) as Hagree.
  split; [ | split ].
  - intros secid Hs. specialize (Hagree indent). rewrite Hs in Hagree.
    destruct (generate_buysell_security_info mappings row) as [info | e];
      [ now exists info | contradiction ].
  - intros e Hs. specialize (Hagree indent). rewrite Hs in Hagree.
    destruct (generate_buysell_security_info mappings row) as [info | e'];
      [ contradiction | congruence ].
  - intros sell fitid date_str dflt.
    specialize (Hagree 12%nat).
    unfold generate_buysell_transaction.
    match goal with
    | |- context [bind ?r _] =>
        destruct r as [[price amount] | e] eqn:Hprice
    end; cbn [bind].
    + destruct (generate_buysell_secid mappings row 12) as [secid | e];
        cbn [bind].
      * destruct (generate_buysell_security_info mappings row)
          as [info | e]; [ | contradiction ].
        right. right. cbn [bind]. eexists. exists info. reflexivity.
      * right. left. exists e. split; reflexivity.
    + left. f_equal.
      repeat match type of Hprice with
             | (if ?b then _ else _) = _ => destruct b
             | match ?o with Some _ => _ | None => _ end = _ => destruct o
             end;
        congruence.
Qed.

End Resolver.

(** ** The buy and sell fragments *)

Section BuySell.

Context `{Externals}.

Variable mappings : option (list MissingCusipRule).

(** X8.  When the row has a quantity and an amount (its own, or the
    default one), the Price column has no influence on what the buy/sell
    generator returns: the unit price is computed from quantity and
    amount. *)
Theorem price_column_is_ignored
        (row : Row) (sell : bool) (fitid date_str : string)
        (amount_default : amount_val) (price : string) :
  normalize_quantity (Quantity row) <> "" ->
  normalize_currency (Amount row) false <> None
  \/ amount_default <> AmountNone ->
  generate_buysell_transaction mappings (set_price row price) sell fitid
    date_str amount_default
  = generate_buysell_transaction mappings row sell fitid date_str
      amount_default
  /\ exists pre post,
      forall info,
        generate_buysell_security_info mappings row = Ok info ->
        generate_buysell_transaction mappings row sell fitid date_str
          amount_default
        = Ok (pre
              ++ "            <UNITPRICE>"
              ++ compute_price (normalize_quantity (Quantity row))
                   (match normalize_currency (Amount row) false with
                    | Some a => AmountStr a
                    | None => amount_default
                    end)
              ++ "</UNITPRICE>" ++ nl ++ post,
              Some info).
Proof.
  intros Hq Ha.
  assert (Htq : truthy (normalize_quantity (Quantity row)) = true).
  { destruct (truthy (normalize_quantity (Quantity row))) eqn:E;
      [ reflexivity | ].
    apply truthy_empty in E. contradiction. }
  assert (Hsome :
            negb (amount_is_none
                    match normalize_currency (Amount row) false with
                    | Some a => AmountStr a
                    | None => amount_default
                    end) = true).
  { destruct (normalize_currency (Amount row) false); [ reflexivity | ].
    destruct amount_default; try reflexivity.
    destruct Ha as [Ha | Ha]; now elim Ha. }
  split.
  - unfold generate_buysell_transaction.
    cbn [set_price Activity Description Quantity Amount Symbol Price].
    rewrite Htq, Hsome. reflexivity.
  - unfold generate_buysell_transaction. rewrite Htq, Hsome.
    cbn [andb bind].
    destruct (generate_buysell_secid mappings row 12) as [secid | e] eqn:Hs;
      cbn [bind].
    + do 2 eexists. intros info Hinfo. rewrite Hinfo. cbn [bind].
      f_equal. f_equal.
      repeat first [ exact (split_here _) | apply split_later ].
    + exists "", "". intros info Hinfo.
      pose proof (lookups_alike mappings row 12) as Hr.
      rewrite Hs, Hinfo in Hr. contradiction.
Qed.

End BuySell.
(** ** The numbers behind the normalized amounts, and the funding test *)

Lemma float_of_string_minus_fixed (c0 : ascii) (rest : string)
      (d1 d2 : ascii) :
  string_forall is_digit (String c0 rest) = true ->
  is_digit d1 = true -> is_digit d2 = true ->
  float_of_string
    ("-" ++ String c0 rest ++ "." ++ String d1 (String d2 ""))
  = Some (of_decimal true
            (digits_value 0 (String c0 rest ++ String d1 (String d2 "")))
            (-2)).
Proof.
  intros Hip Hd1 Hd2.
  set (ip := String c0 rest) in *.
  set (fp := String d1 (String d2 "")).
  assert (Hfp : string_forall is_digit fp = true)
    by (unfold fp; cbn [string_forall]; rewrite Hd1, Hd2; reflexivity).
  assert (Hnum : string_forall numeric_char (ip ++ "." ++ fp) = true).
  { rewrite !string_forall_app.
    rewrite (string_forall_impl is_digit numeric_char ip),
      (string_forall_impl is_digit numeric_char fp); auto;
      intros c Hc; apply digit_class, Hc. }
  set (body := ip ++ "." ++ fp) in *.
  change ("-" ++ body) with (String "-" body).
  unfold float_of_string, float_rstrip, float_lstrip.
  rewrite rstrip_by_none.
  2:{ cbn [string_forall]. apply andb_true_iff. split; [ reflexivity | ].
      eapply string_forall_impl; [ | exact Hnum ].
      intros c Hc. apply negb_true_iff, numeric_char_class, Hc. }
  rewrite lstrip_by_none.
  2:{ cbn [string_forall]. apply andb_true_iff. split; [ reflexivity | ].
      eapply string_forall_impl; [ | exact Hnum ].
      intros c Hc. apply negb_true_iff, numeric_char_class, Hc. }
  assert (Hund : drop_underscores "000" (String "-" body)
                 = Some (String "-" body)).
  { cbn [drop_underscores].
    change (Ascii.eqb "-" "_") with false.
    change (Ascii.eqb "000" "_") with false. cbv iota. cbn [andb].
    rewrite drop_underscores_none;
      [ reflexivity
      | eapply string_forall_impl; [ | exact Hnum ];
        intros c Hc; apply negb_true_iff, numeric_char_class, Hc
      | reflexivity ]. }
  rewrite Hund.
  change (split_sign (String "-" body)) with (true, body).
  cbv iota beta. unfold parse_decimal, body.
  change (ip ++ "." ++ fp) with (ip ++ String "." fp).
  rewrite span_digits_app by (auto; reflexivity).
  rewrite (span_digits_all fp Hfp).
  assert (Hne : String.eqb (ip ++ fp) "" = false) by reflexivity.
  rewrite Hne. reflexivity.
Qed.

(** Every two-decimal print of a binary64 number reads as a number. *)
Lemma printed_amount_parses (x : float) :
  well_formed x ->
  exists y, float_of_string (format_fixed 2 x) = Some y.
Proof.
  intros Hwf. destruct x as [s | s | | s m e].
  - destruct s; eexists; vm_compute; reflexivity.
  - destruct s; eexists; vm_compute; reflexivity.
  - eexists; vm_compute; reflexivity.
  - destruct (format_fixed_reparse s m e Hwf) as [Hn _].
    set (n := round_div (Zpos m * 100 * 2 ^ (e + unit_shift))
                (2 ^ unit_shift)) in *.
    assert (Hfmt : format_fixed 2 (S754_finite s m e)
                   = sign_str s ++ fixed_digits 2 n) by reflexivity.
    rewrite Hfmt.
    destruct (fixed_digits_2 n Hn) as (c0 & rest & d1 & d2 & E & Hip & Hd1
                                       & Hd2 & _).
    rewrite E. destruct s; cbn [sign_str].
    + eexists. apply float_of_string_minus_fixed; assumption.
    + eexists. apply float_of_string_fixed; assumption.
Qed.

Lemma normalized_amount_parses (value : string) (inverseAmount : bool)
      (a : string) :
  normalize_currency value inverseAmount = Some a ->
  exists y, float_of_string a = Some y.
Proof.
  rewrite normalize_currency_parts.
  destruct (negb (truthy (strip value))); [ discriminate | ].
  destruct (float_of_string (snd (currency_parts value))) as [num |] eqn:E.
  - intros [= <-]. apply printed_amount_parses.
    apply float_of_string_well_formed in E.
    destruct (xorb _ _); [ apply fneg_well_formed | ]; exact E.
  - intros [= <-]. eexists. vm_compute. reflexivity.
Qed.

Section Funding.

Context `{Externals}.

(** X9.  A row that passes the four textual tests of the funding check
    (activity buy, description ending in initial, no CUSIP, no Symbol)
    stops the conversion before any generator is chosen when its
    numbers cannot be compared: with the TypeError of [float(None)]
    when the Amount is empty, and with the ValueError of [float] on the
    Quantity column as written (thousands separators included) when
    that text is no number.  The normalized amount itself always reads
    as a number, so in every other case the check returns a boolean. *)
Theorem funding_check_errors
        (mappings : option (list MissingCusipRule)) (row : Row)
        (counter : Z) :
  lower (strip (Activity row)) = "buy" ->
  endswith (lower (strip (Description row))) "initial" = true ->
  strip (CUSIP row) = "" ->
  strip (Symbol row) = "" ->
  (strip (Amount row) = "" ->
   generate_transaction mappings row counter = Raise FloatOfNone)
  /\ (strip (Amount row) <> "" ->
      float_of_string (Quantity row) = None ->
      generate_transaction mappings row counter
      = Raise (FloatOfString (Quantity row)))
  /\ (strip (Amount row) <> "" ->
      float_of_string (Quantity row) <> None ->
      exists a fa fq,
        normalize_currency (Amount row) false = Some a
        /\ float_of_string a = Some fa
        /\ float_of_string (Quantity row) = Some fq
        /\ is_funding_activity row = Ok (feqb fa (fneg fq))).
Proof.
  intros Hact Hdesc Hcusip Hsym.
  assert (Htest :
            is_funding_activity row
            = match normalize_currency (Amount row) false with
              | None => Raise FloatOfNone
              | Some a =>
                  match float_of_string a with
                  | None => Raise (FloatOfString a)
                  | Some fa =>
                      match float_of_string (Quantity row) with
                      | None => Raise (FloatOfString (Quantity row))
                      | Some fq => Ok (feqb fa (fneg fq))
                      end
                  end
              end).
  { unfold is_funding_activity.
    rewrite Hact, Hdesc, Hcusip, Hsym. reflexivity. }
  split; [ | split ].
  - intros Hamt. unfold generate_transaction. rewrite Htest.
    unfold normalize_currency. rewrite Hamt. reflexivity.
  - intros Hamt Hq. unfold generate_transaction. rewrite Htest.
    destruct (normalize_currency (Amount row) false) as [a |] eqn:Ea.
    + destruct (normalized_amount_parses _ _ _ Ea) as [fa Efa].
      rewrite Efa, Hq. reflexivity.
    + rewrite normalize_currency_parts in Ea.
      rewrite (normalize_currency_nonempty _ Hamt) in Ea.
      destruct (float_of_string _); discriminate Ea.
  - intros Hamt Hq. rewrite Htest.
    destruct (normalize_currency (Amount row) false) as [a |] eqn:Ea.
    + destruct (normalized_amount_parses _ _ _ Ea) as [fa Efa].
      destruct (float_of_string (Quantity row)) as [fq |] eqn:Eq;
        [ | now elim Hq ].
      exists a, fa, fq. rewrite Efa. repeat split; reflexivity.
    + rewrite normalize_currency_parts in Ea.
      rewrite (normalize_currency_nonempty _ Hamt) in Ea.
      destruct (float_of_string _); discriminate Ea.
Qed.

End Funding.
(** ** Bank transactions and security entries *)

Section Flags.

Context `{Externals}.

Variable mappings : option (list MissingCusipRule).

Lemma make_entry_inv (r : result (string * option SecurityInfo))
      (flag : bool) (txn : TransactionEntry) (info : option SecurityInfo) :
  make_entry r flag = Ok (txn, info) ->
  is_invbanktran txn = flag /\ r = Ok (txn_str txn, info).
Proof.
  unfold make_entry, _make_txn_entry.
  destruct r as [[out i] | e]; cbn [bind fst snd]; [ | discriminate ].
  intros [= <- <-]. split; reflexivity.
Qed.

Lemma generate_buysell_transaction_security
      (row : Row) (sell : bool) (fitid date_str : string)
      (amount_default : amount_val) (out : string)
      (info : option SecurityInfo) :
  generate_buysell_transaction mappings row sell fitid date_str
    amount_default = Ok (out, info) ->
  info <> None.
Proof.
  unfold generate_buysell_transaction.
  match goal with
  | |- context [bind ?r _] => destruct r as [[price amount] | e]
  end; cbn [bind]; [ | discriminate ].
  destruct (generate_buysell_secid mappings row 12); cbn [bind];
    [ | discriminate ].
  destruct (generate_buysell_security_info mappings row); cbn [bind];
    [ | discriminate ].
  intros [= _ <-]. discriminate.
Qed.

Lemma generate_income_transaction_security
      (row : Row) (fitid date_str incometype out : string)
      (info : option SecurityInfo) :
  generate_income_transaction mappings row fitid date_str incometype
  = Ok (out, info) ->
  info <> None.
Proof.
  unfold generate_income_transaction.
  destruct (truthy (strip (CUSIP row))); cbn [bind]; [ | discriminate ].
  destruct (generate_buysell_security_info mappings row); cbn [bind];
    [ | discriminate ].
  intros [= _ <-]. discriminate.
Qed.

Lemma generate_asset_transfer_security
      (row : Row) (fitid date_str out : string)
      (info : option SecurityInfo) :
  generate_asset_transfer mappings row fitid date_str = Ok (out, info) ->
  info <> None.
Proof.
  unfold generate_asset_transfer.
  destruct (negb (truthy (strip (CUSIP row)))).
  - destruct (normalize_currency (Amount row) false); [ | discriminate ].
    intros [= _ <-]. discriminate.
  - destruct (generate_buysell_security_info mappings row); cbn [bind];
      [ | discriminate ].
    intros [= _ <-]. discriminate.
Qed.

Lemma make_entry_security (r : result (string * option SecurityInfo))
      (txn : TransactionEntry) (info : option SecurityInfo) :
  (forall out i, r = Ok (out, i) -> i <> None) ->
  make_entry r false = Ok (txn, info) ->
  is_invbanktran txn = false /\ info <> None.
Proof.
  intros Hr Hm. apply make_entry_inv in Hm. destruct Hm as [Hflag Hm].
  split; [ exact Hflag | exact (Hr _ _ Hm) ].
Qed.

Lemma make_entry_bank (r : result (string * option SecurityInfo))
      (txn : TransactionEntry) (info : option SecurityInfo) :
  (exists out, r = Ok (out, None)) ->
  make_entry r true = Ok (txn, info) ->
  is_invbanktran txn = true /\ info = None.
Proof.
  intros [out Hr] Hm. apply make_entry_inv in Hm. destruct Hm as [Hflag Hm].
  split; [ exact Hflag | congruence ].
Qed.

(** What the dispatch returns for a row that is not a funding row. *)
Lemma dispatch_flags (row : Row) (fitid date_str : string) (act : string)
      (r : result (TransactionEntry * option SecurityInfo)) :
  r = (if mem act
            ["buy"; "reinvest dividend"; "rein stc gain"; "rein cap gain"]
       then
         make_entry
           (generate_buysell_transaction mappings row false fitid date_str
              AmountNone) false
       else if String.eqb act "sell" then
         make_entry
           (generate_buysell_transaction mappings row true fitid date_str
              AmountNone) false
       else if mem act ["asset trf"; "ach activity"] then
         make_entry
           (generate_asset_transfer mappings row fitid date_str) false
       else if mem act ["dividend"] then
         make_entry
           (generate_income_transaction mappings row fitid date_str "DIV")
           false
       else if mem act ["interest"] then
         make_entry (generate_intrest_transaction row fitid date_str) true
       else if mem act ["lt cap gain"] then
         make_entry
           (generate_income_transaction mappings row fitid date_str
              "CGLONG") false
       else if mem act ["shrt trm gain"] then
         make_entry
           (generate_income_transaction mappings row fitid date_str
              "CGSHORT") false
       else if mem act ["advisory fee"] then
         make_entry (generate_fee_transaction row fitid date_str false) true
       else if mem act ["journal"] then
         make_entry (generate_fee_transaction row fitid date_str false) true
       else if mem act ["reinvest dist"] then
         make_entry
           (generate_buysell_transaction mappings row false fitid date_str
              AmountZero) false
       else Raise (UnknownActivity (Activity row))) ->
  (mem act bank_activities = true ->
   exists out,
     r = Ok ({| txn_str := out; is_invbanktran := true |}, None))
  /\ forall txn info,
      r = Ok (txn, info) ->
      is_invbanktran txn = mem act bank_activities
      /\ (info = None <-> is_invbanktran txn = true).
Proof.
  intros ->. unfold mem, bank_activities. cbn [existsb].
  repeat match goal with
         | |- context [String.eqb act ?k] =>
             destruct (String.eqb_spec act k) as [-> | ?];
             [ cbn [String.eqb Ascii.eqb Bool.eqb orb andb]
             | cbn [orb] ]
         end;
    (split;
     [ first [ discriminate
             | intros _; eexists; reflexivity ]
     | intros txn info Hg;
       first
         [ discriminate Hg
         | apply make_entry_bank in Hg;
           [ destruct Hg as [-> ->]; split; [ reflexivity | tauto ]
           | eexists; reflexivity ]
         | apply make_entry_security in Hg;
           [ destruct Hg as [-> Hi]; split; [ reflexivity | ];
             split; [ intros E; contradiction | discriminate ]
           | intros out i;
             first [ apply generate_buysell_transaction_security
                   | apply generate_income_transaction_security
                   | apply generate_asset_transfer_security ] ] ] ]).
Qed.

(** X10.  The flag that sends a fragment behind the investment
    transactions is set exactly for the activities interest, advisory
    fee and journal; these rows are always rendered, and they are the
    only ones that come without a security entry: every other rendered
    row brings the entry of its security, or of the cash position. *)
Theorem bank_flag_and_security_entry (row : Row) (counter : Z) :
  (mem (lower (strip (Activity row))) bank_activities = true ->
   exists out,
     generate_transaction mappings row counter
     = Ok ({| txn_str := out; is_invbanktran := true |}, None))
  /\ forall txn info,
      generate_transaction mappings row counter = Ok (txn, info) ->
      is_invbanktran txn
      = mem (lower (strip (Activity row))) bank_activities
      /\ (info = None <-> is_invbanktran txn = true).
Proof.
  destruct (String.eqb_spec (lower (strip (Activity row))) "buy")
    as [E | E].
  - rewrite E. split; [ discriminate | ].
    intros txn info. unfold generate_transaction. rewrite E.
    destruct (is_funding_activity row) as [[|] | e]; cbn [bind];
      [ | | discriminate ].
    + intros Hg. apply make_entry_security in Hg;
        [ | intros out i; apply generate_asset_transfer_security ].
      destruct Hg as [-> Hi]. split; [ reflexivity | ].
      split; [ intros E'; contradiction | discriminate ].
    + change (mem "buy" ["buy"; "reinvest dividend"; "rein stc gain";
                         "rein cap gain"]) with true.
      cbv iota.
      intros Hg. apply make_entry_security in Hg;
        [ | intros out i; apply generate_buysell_transaction_security ].
      destruct Hg as [-> Hi]. split; [ reflexivity | ].
      split; [ intros E'; contradiction | discriminate ].
  - apply (dispatch_flags row
             ("TXN" ++ date_str_of row ++ format_04d counter)
             (date_str_of row)).
    unfold generate_transaction.
    rewrite (is_funding_activity_not_buy row E). reflexivity.
Qed.

End Flags.
(** ** Transaction identifiers *)

Lemma digits_value_zeros (k : nat) (s : string) :
  digits_value 0 (zeros k ++ s) = digits_value 0 s.
Proof.
  induction k as [| k IH]; cbn [zeros append digits_value].
  - reflexivity.
  - exact IH.
Qed.

Lemma string_forall_zeros (k : nat) :
  string_forall is_digit (zeros k) = true.
Proof.
  induction k as [| k IH]; cbn [zeros string_forall].
  - reflexivity.
  - rewrite IH. reflexivity.
Qed.

Lemma length_zeros (k : nat) : String.length (zeros k) = k.
Proof.
  induction k as [| k IH]; cbn [zeros String.length]; congruence.
Qed.

Lemma zfill_spec (width : nat) (n : Z) :
  0 <= n ->
  string_forall is_digit (zfill width (str_nat n)) = true
  /\ digits_value 0 (zfill width (str_nat n)) = n
  /\ (width <= String.length (zfill width (str_nat n)))%nat.
Proof.
  intros Hn. destruct (str_nat_spec n Hn) as (Hdig & _ & Hval).
  unfold zfill. split; [ | split ].
  - rewrite string_forall_app, string_forall_zeros, Hdig. reflexivity.
  - rewrite digits_value_zeros. exact Hval.
  - rewrite length_append, length_zeros. lia.
Qed.

Lemma zfill_first_digit (width : nat) (n : Z) :
  0 <= n ->
  exists c rest,
    zfill width (str_nat n) = String c rest /\ is_digit c = true.
Proof.
  intros Hn. destruct (zfill_spec width n Hn) as (Hdig & _ & _).
  destruct (str_nat_spec n Hn) as (_ & Hne & _).
  destruct (zfill width (str_nat n)) as [| c rest] eqn:E.
  - unfold zfill in E.
    destruct (zeros _); [ | discriminate E ].
    cbn [append] in E. contradiction.
  - exists c, rest. split; [ reflexivity | ].
    cbn [string_forall] in Hdig. apply andb_true_iff in Hdig. tauto.
Qed.

Lemma format_04d_injective (c1 c2 : Z) :
  format_04d c1 = format_04d c2 -> c1 = c2.
Proof.
  unfold format_04d.
  destruct (Z.ltb_spec c1 0) as [H1 | H1], (Z.ltb_spec c2 0) as [H2 | H2];
    intros E.
  - cbn [append] in E. injection E as E.
    destruct (zfill_spec 3 (- c1) ltac:(lia)) as (_ & V1 & _).
    destruct (zfill_spec 3 (- c2) ltac:(lia)) as (_ & V2 & _).
    rewrite E in V1. lia.
  - destruct (zfill_first_digit 4 c2 H2) as (c & rest & E2 & Hc).
    rewrite E2 in E. cbn [append] in E. injection E as <- _.
    discriminate Hc.
  - destruct (zfill_first_digit 4 c1 H1) as (c & rest & E1 & Hc).
    rewrite E1 in E. cbn [append] in E. injection E as -> _.
    discriminate Hc.
  - destruct (zfill_spec 4 c1 H1) as (_ & V1 & _).
    destruct (zfill_spec 4 c2 H2) as (_ & V2 & _).
    rewrite E in V1. lia.
Qed.

Lemma append_inv_length (a b x y : string) :
  String.length a = String.length b ->
  a ++ x = b ++ y -> a = b /\ x = y.
Proof.
  revert b. induction a as [| c a IH]; intros [| d b] Hl E;
    try discriminate Hl.
  - split; [ reflexivity | exact E ].
  - cbn [append] in E. injection E as -> E.
    cbn [String.length] in Hl. injection Hl as Hl.
    destruct (IH b Hl E) as [-> ->]. split; reflexivity.
Qed.

Section Identifiers.

Context `{Externals}.

(** X11.  The counter is printed in a FITID with at least four
    characters, all of them digits when the counter is not negative,
    and different counters are printed differently.  Hence two rows of
    a run whose dates are printed with the same number of characters
    never share a FITID: the identifiers agree only when date and
    counter agree. *)
Theorem fitid_identifies_counter (r1 r2 : Row) (c1 c2 : Z) :
  String.length (date_str_of r1) = String.length (date_str_of r2) ->
  fitid_of r1 c1 = fitid_of r2 c2 ->
  date_str_of r1 = date_str_of r2 /\ c1 = c2
  /\ (4 <= String.length (format_04d c1))%nat
  /\ (0 <= c1 ->
      string_forall is_digit (format_04d c1) = true
      /\ digits_value 0 (format_04d c1) = c1).
Proof.
  intros Hl E. unfold fitid_of in E.
  apply append_inv_head in E.
  destruct (append_inv_length _ _ _ _ Hl E) as [Ed Ec].
  apply format_04d_injective in Ec.
  split; [ exact Ed | split; [ exact Ec | split ] ].
  - unfold format_04d. destruct (Z.ltb_spec c1 0) as [H1 | H1].
    + destruct (zfill_spec 3 (- c1) ltac:(lia)) as (_ & _ & L).
      cbn [append String.length]. lia.
    + destruct (zfill_spec 4 c1 H1) as (_ & _ & L). exact L.
  - intros H1. unfold format_04d.
    destruct (Z.ltb_spec c1 0) as [H1' | _]; [ lia | ].
    destruct (zfill_spec 4 c1 H1) as (D & V & _). split; assumption.
Qed.

End Identifiers.
(** ** The loop over the rows and the outcome of a run *)

Section Run.

Context `{Externals}.

Variable mappings : option (list MissingCusipRule).

Lemma parsed_dates_cons (row : Row) (rows : list Row) :
  parsed_dates (row :: rows)
  = (match parse_date (Date row) with
     | Some d => [d]
     | None => []
     end ++ parsed_dates rows)%list.
Proof. reflexivity. Qed.

Lemma process_rows_invariants (rows : list Row) :
  forall st st',
    process_rows mappings st rows = Ok st' ->
    min_date st' = fold_left earliest (parsed_dates rows) (min_date st)
    /\ max_date st' = fold_left latest (parsed_dates rows) (max_date st)
    /\ counter st' = counter st + Z.of_nat (List.length rows)
    /\ List.length (transactions st')
       = (List.length (transactions st) + List.length rows)%nat
    /\ first_account st'
       = match first_account st, rows with
         | Some a, _ => Some a
         | None, r :: _ => Some (strip (Account r))
         | None, [] => None
         end.
Proof.
  induction rows as [| r rows IH]; intros st st' Hp.
  - cbn [process_rows] in Hp. injection Hp as <-.
    cbn [parsed_dates flat_map fold_left List.length].
    repeat split; try lia. destruct (first_account st); reflexivity.
  - cbn [process_rows] in Hp.
    destruct (process_row mappings st r) as [st1 | e] eqn:Hrow;
      cbn [bind] in Hp; [ | discriminate Hp ].
    destruct (IH st1 st' Hp) as (Hmin & Hmax & Hc & Hl & Hf).
    unfold process_row in Hrow.
    rewrite parsed_dates_cons.
    destruct (parse_date (Date r)) as [d |];
      destruct (generate_transaction mappings r (counter st))
        as [[t i] | e];
      cbn [bind] in Hrow; try discriminate Hrow;
      injection Hrow as <-;
      cbn [min_date max_date counter transactions first_account] in *;
      cbn [app fold_left];
      (split; [ exact Hmin | ]);
      (split; [ exact Hmax | ]);
      (split; [ rewrite Hc; cbn [List.length]; lia | ]);
      (split;
       [ rewrite Hl, List.length_app; cbn [List.length]; lia
       | rewrite Hf; destruct (first_account st); reflexivity ]).
Qed.

Lemma fold_earliest_some (ds : list datetime) :
  forall m, exists lo, fold_left earliest ds (Some m) = Some lo.
Proof.
  induction ds as [| d ds IH]; intros m; cbn [fold_left earliest].
  - now exists m.
  - destruct (dt_ltb d m); apply IH.
Qed.

Lemma fold_latest_some (ds : list datetime) :
  forall m, exists hi, fold_left latest ds (Some m) = Some hi.
Proof.
  induction ds as [| d ds IH]; intros m; cbn [fold_left latest].
  - now exists m.
  - destruct (dt_ltb m d); apply IH.
Qed.

Section Ordered.

Hypothesis dt_ltb_irreflexive : forall a, dt_ltb a a = false.

Hypothesis dt_ltb_transitive :
  forall a b c, dt_ltb a b = true -> dt_ltb b c = true -> dt_ltb a c = true.

Lemma fold_earliest_bound (ds : list datetime) :
  forall m (seen : list datetime),
    In m seen ->
    (forall d, In d seen -> dt_ltb d m = false) ->
    exists lo,
      fold_left earliest ds (Some m) = Some lo
      /\ In lo (seen ++ ds)
      /\ forall d, In d (seen ++ ds) -> dt_ltb d lo = false.
Proof.
  induction ds as [| d ds IH]; intros m seen Hin Hlow.
  - exists m. rewrite app_nil_r. cbn [fold_left]. auto.
  - cbn [fold_left earliest].
    replace (seen ++ d :: ds)%list with ((seen ++ [d]) ++ ds)%list
      by (rewrite <- app_assoc; reflexivity).
    destruct (dt_ltb d m) eqn:Hd.
    + apply IH.
      * apply in_or_app. right. left. reflexivity.
      * intros d' Hd'. apply in_app_or in Hd'.
        destruct Hd' as [Hd' | [<- | []]].
        -- destruct (dt_ltb d' d) eqn:E; [ | reflexivity ].
           rewrite <- (Hlow d' Hd'). symmetry.
           apply (dt_ltb_transitive d' d m E Hd).
        -- apply dt_ltb_irreflexive.
    + apply IH.
      * apply in_or_app. left. exact Hin.
      * intros d' Hd'. apply in_app_or in Hd'.
        destruct Hd' as [Hd' | [<- | []]].
        -- apply Hlow, Hd'.
        -- exact Hd.
Qed.

Lemma fold_latest_bound (ds : list datetime) :
  forall m (seen : list datetime),
    In m seen ->
    (forall d, In d seen -> dt_ltb m d = false) ->
    exists hi,
      fold_left latest ds (Some m) = Some hi
      /\ In hi (seen ++ ds)
      /\ forall d, In d (seen ++ ds) -> dt_ltb hi d = false.
Proof.
  induction ds as [| d ds IH]; intros m seen Hin Hup.
  - exists m. rewrite app_nil_r. cbn [fold_left]. auto.
  - cbn [fold_left latest].
    replace (seen ++ d :: ds)%list with ((seen ++ [d]) ++ ds)%list
      by (rewrite <- app_assoc; reflexivity).
    destruct (dt_ltb m d) eqn:Hd.
    + apply IH.
      * apply in_or_app. right. left. reflexivity.
      * intros d' Hd'. apply in_app_or in Hd'.
        destruct Hd' as [Hd' | [<- | []]].
        -- destruct (dt_ltb d d') eqn:E; [ | reflexivity ].
           rewrite <- (Hup d' Hd'). symmetry.
           apply (dt_ltb_transitive m d d' Hd E).
        -- apply dt_ltb_irreflexive.
    + apply IH.
      * apply in_or_app. left. exact Hin.
      * intros d' Hd'. apply in_app_or in Hd'.
        destruct Hd' as [Hd' | [<- | []]].
        -- apply Hup, Hd'.
        -- exact Hd.
Qed.

(** X12.  When the comparison of dates is a strict order, the loop
    leaves in [min_date] and [max_date] a date of the rows that no date
    of the rows is earlier than, and one that no date of the rows is
    later than; rows whose date cannot be read are passed over, and
    both stay [None] exactly when no row has a readable date. *)
Theorem date_range_bounds (rows : list Row) (st : LoopState) :
  process_rows mappings initial_state rows = Ok st ->
  match parsed_dates rows with
  | [] => min_date st = None /\ max_date st = None
  | _ :: _ =>
      exists lo hi,
        min_date st = Some lo /\ max_date st = Some hi
        /\ In lo (parsed_dates rows) /\ In hi (parsed_dates rows)
        /\ forall d,
            In d (parsed_dates rows) ->
            dt_ltb d lo = false /\ dt_ltb hi d = false
  end.
Proof.
  intros Hp.
  destruct (process_rows_invariants rows _ _ Hp) as (Hmin & Hmax & _).
  cbn [initial_state min_date max_date] in Hmin, Hmax.
  destruct (parsed_dates rows) as [| d0 ds].
  - split; assumption.
  - cbn [fold_left earliest latest] in Hmin, Hmax.
    destruct (fold_earliest_bound ds d0 [d0]) as (lo & Elo & Ilo & Hlo).
    { left. reflexivity. }
    { intros d [<- | []]. apply dt_ltb_irreflexive. }
    destruct (fold_latest_bound ds d0 [d0]) as (hi & Ehi & Ihi & Hhi).
    { left. reflexivity. }
    { intros d [<- | []]. apply dt_ltb_irreflexive. }
    exists lo, hi. rewrite Hmin, Hmax.
    repeat split; auto.
Qed.

End Ordered.

(** X13.  Every row of a run that reaches the end of the loop has
    produced one transaction, the counters are 1, 2, ... in input order,
    and the account is the trimmed Account of the first row. *)
Theorem one_transaction_per_row (rows : list Row) (st : LoopState) :
  process_rows mappings initial_state rows = Ok st ->
  List.length (transactions st) = List.length rows
  /\ counter st = 1 + Z.of_nat (List.length rows)
  /\ first_account st
     = match rows with
       | r :: _ => Some (strip (Account r))
       | [] => None
       end
  /\ exists gens,
      generate_all mappings 1 rows = Ok gens
      /\ transactions st = map fst gens.
Proof.
  intros Hp.
  destruct (process_rows_invariants rows _ _ Hp) as (_ & _ & Hc & Hl & Hf).
  cbn [initial_state counter transactions first_account List.length] in *.
  repeat split; try assumption.
  assert (Hgen :
            forall rows0 st0 st1,
              process_rows mappings st0 rows0 = Ok st1 ->
              exists gens,
                generate_all mappings (counter st0) rows0 = Ok gens
                /\ transactions st1
                   = (transactions st0 ++ map fst gens)%list).
  { clear. induction rows0 as [| r rows0 IH]; intros st0 st1 Hp.
    - cbn [process_rows] in Hp. injection Hp as <-. exists [].
      cbn [generate_all map]. rewrite app_nil_r. split; reflexivity.
    - cbn [process_rows] in Hp.
      destruct (process_row mappings st0 r) as [st' | e] eqn:Hrow;
        cbn [bind] in Hp; [ | discriminate Hp ].
      destruct (IH _ _ Hp) as (gens & Hg & Ht).
      unfold process_row in Hrow. cbn [generate_all].
      destruct (parse_date (Date r));
        destruct (generate_transaction mappings r (counter st0))
          as [[t i] | e];
        cbn [bind] in Hrow |- *; try discriminate Hrow;
        injection Hrow as <-;
        cbn [counter transactions] in Hg, Ht;
        rewrite Hg; cbn [bind];
        exists ((t, i) :: gens);
        (split; [ reflexivity | ]);
        rewrite Ht, <- app_assoc; reflexivity. }
  destruct (Hgen rows _ _ Hp) as (gens & Hg & Ht).
  exists gens. split; [ exact Hg | exact Ht ].
Qed.

(** X14.  A run either fails and leaves the world as it was (no file,
    no reading of the clock), or adds exactly the output file.  It
    fails with "No account information" when there is no row, and with
    the exception of [get_account_id] when the account of the first row
    is not mapped; when it succeeds the clock was read twice, and twice
    more when no row has a readable date. *)
Theorem main_outcome (output : string)
        (account_mapping : string -> option string)
        (rows : list Row) (w : World) :
  match main output account_mapping mappings rows w with
  | (w', Raise e) =>
      w' = w
      /\ (rows = [] -> e = NoAccountInformation)
      /\ forall st r0 rest,
          process_rows mappings initial_state rows = Ok st ->
          rows = r0 :: rest ->
          account_mapping (strip (strip (Account r0))) = None
          /\ e = AccountNotMapped (strip (strip (Account r0)))
  | (w', Ok _) =>
      exists r0 rest account_id content,
        rows = r0 :: rest
        /\ account_mapping (strip (strip (Account r0))) = Some account_id
        /\ files w' = (output, content) :: files w
        /\ clock_reads w' = (clock_reads w + clock_readings rows)%nat
  end.
Proof.
  unfold main.
  destruct (process_rows mappings initial_state rows) as [st | e] eqn:Hp.
  - destruct (process_rows_invariants rows _ _ Hp)
      as (Hmin & Hmax & _ & _ & Hf).
    cbn [initial_state min_date max_date first_account] in Hmin, Hmax, Hf.
    rewrite Hf. destruct rows as [| r0 rest].
    + split; [ reflexivity | ]. split; [ reflexivity | ].
      intros st' r0 rest _ E. discriminate E.
    + unfold get_account_id.
      destruct (account_mapping (strip (strip (Account r0))))
        as [account_id |] eqn:Hacc.
      * unfold clock_readings.
        unfold format_ofx_datetime_opt, now.
        rewrite Hmin, Hmax.
        destruct (parsed_dates (r0 :: rest)) as [| d0 ds].
        -- cbn [fold_left]. cbv iota beta.
           exists r0, rest, account_id. eexists.
           cbn [write_file files clock_reads].
           repeat split; [ exact Hacc | lia ].
        -- cbn [fold_left earliest latest].
           destruct (fold_earliest_some ds d0) as [lo ->].
           destruct (fold_latest_some ds d0) as [hi ->].
           cbv iota beta.
           exists r0, rest, account_id. eexists.
           cbn [write_file files clock_reads].
           repeat split; [ exact Hacc | lia ].
      * split; [ reflexivity | ]. split; [ discriminate | ].
        intros st' r1 rest1 _ [= <- <-].
        split; [ exact Hacc | reflexivity ].
  - split; [ reflexivity | ]. split.
    + intros ->. discriminate Hp.
    + intros st r0 rest E. discriminate E.
Qed.

Lemma alike_but_account_refl (A : Type) (r : result A) :
  alike_but_account r r.
Proof.
  destruct r as [x | e]; cbn [alike_but_account];
    [ reflexivity | left; reflexivity ].
Qed.

Lemma make_entry_alike (r1 r2 : result (string * option SecurityInfo))
      (flag : bool) :
  alike_but_account r1 r2 ->
  alike_but_account (make_entry r1 flag) (make_entry r2 flag).
Proof.
  destruct r1 as [x | e1], r2 as [y | e2]; cbn [alike_but_account];
    try contradiction.
  - intros ->. reflexivity.
  - intros He. exact He.
Qed.

Lemma generate_buysell_transaction_set_account
      (account : string) (row : Row) (sell : bool)
      (fitid date_str : string) (amount_default : amount_val) :
  alike_but_account
    (generate_buysell_transaction mappings (set_account account row) sell
       fitid date_str amount_default)
    (generate_buysell_transaction mappings row sell fitid date_str
       amount_default).
Proof.
  unfold generate_buysell_transaction.
  cbn [set_account Date Account Activity Description CUSIP Symbol Quantity
       Price Amount].
  change (generate_buysell_secid mappings (set_account account row) 12)
    with (generate_buysell_secid mappings row 12).
  change (generate_buysell_security_info mappings
            (set_account account row))
    with (generate_buysell_security_info mappings row).
  match goal with
  | |- context [if ?b then Ok _ else _] => destruct b
  end; [ apply alike_but_account_refl | ].
  destruct (normalize_currency (Price row) false) as [p |].
  - match goal with
    | |- context [if ?b then _ else Raise _] => destruct b
    end; [ apply alike_but_account_refl | ].
    cbn [bind alike_but_account]. right. exists row, account.
    split; reflexivity.
  - cbn [bind alike_but_account]. right. exists row, account.
    split; reflexivity.
Qed.

Lemma generate_transaction_set_account (account : string) (row : Row)
      (c : Z) :
  alike_but_account
    (generate_transaction mappings (set_account account row) c)
    (generate_transaction mappings row c).
Proof.
  unfold generate_transaction.
  change (is_funding_activity (set_account account row))
    with (is_funding_activity row).
  change (parse_date (Date (set_account account row)))
    with (parse_date (Date row)).
  change (Activity (set_account account row)) with (Activity row).
  set (date_str := match parse_date (Date row) with
                   | Some dt_obj => strftime dt_obj "%Y%m%d"
                   | None => "00000000"
                   end).
  set (fitid := "TXN" ++ date_str ++ format_04d c).
  change (generate_asset_transfer mappings (set_account account row)
            fitid date_str)
    with (generate_asset_transfer mappings row fitid date_str).
  change (generate_intrest_transaction (set_account account row) fitid
            date_str)
    with (generate_intrest_transaction row fitid date_str).
  change (generate_fee_transaction (set_account account row) fitid
            date_str false)
    with (generate_fee_transaction row fitid date_str false).
  change (generate_income_transaction mappings (set_account account row)
            fitid date_str "DIV")
    with (generate_income_transaction mappings row fitid date_str "DIV").
  change (generate_income_transaction mappings (set_account account row)
            fitid date_str "CGLONG")
    with (generate_income_transaction mappings row fitid date_str
            "CGLONG").
  change (generate_income_transaction mappings (set_account account row)
            fitid date_str "CGSHORT")
    with (generate_income_transaction mappings row fitid date_str
            "CGSHORT").
  destruct (is_funding_activity row) as [funding | e]; cbn [bind];
    [ | apply alike_but_account_refl ].
  repeat match goal with
         | |- context [if ?b then _ else _] => destruct b
         end;
    first [ apply alike_but_account_refl
          | apply make_entry_alike,
              generate_buysell_transaction_set_account ].
Qed.

Lemma process_row_set_account (account : string) (st : LoopState)
      (row : Row) :
  first_account st <> None ->
  alike_but_account (process_row mappings st (set_account account row))
    (process_row mappings st row)
  /\ forall st', process_row mappings st row = Ok st' ->
                 first_account st' <> None.
Proof.
  intros Hf. unfold process_row.
  change (parse_date (Date (set_account account row)))
    with (parse_date (Date row)).
  pose proof (generate_transaction_set_account account row (counter st))
    as Hg.
  destruct (first_account st) as [a |]; [ | now elim Hf ].
  destruct (generate_transaction mappings (set_account account row)
              (counter st)) as [[t1 i1] | e1],
      (generate_transaction mappings row (counter st)) as [[t2 i2] | e2];
    cbn [alike_but_account] in Hg; try contradiction;
    destruct (parse_date (Date row)); cbn [bind alike_but_account];
    try injection Hg as -> ->;
    (split;
     [ first [ reflexivity | exact Hg ]
     | intros st' E; first [ discriminate E
                           | injection E as <-; discriminate ] ]).
Qed.

Lemma process_rows_set_account (f : Row -> string) (rows : list Row) :
  forall st,
    first_account st <> None ->
    alike_but_account
      (process_rows mappings st (map (fun r => set_account (f r) r) rows))
      (process_rows mappings st rows).
Proof.
  induction rows as [| r rows IH]; intros st Hf.
  - apply alike_but_account_refl.
  - cbn [map process_rows].
    destruct (process_row_set_account (f r) st r Hf) as [Hrow Hnext].
    destruct (process_row mappings st (set_account (f r) r))
      as [st1 | e1],
        (process_row mappings st r) as [st2 | e2];
      cbn [alike_but_account] in Hrow; try contradiction; cbn [bind].
    + subst st2. apply IH. apply (Hnext st1). reflexivity.
    + exact Hrow.
Qed.

(** X15.  Only the Account of the first row reaches the output.  With
    anything else in the Account column of the other rows the run
    succeeds or fails alike; when it succeeds it leaves the same world,
    hence writes the same file; when it fails the world is the same and
    the exception is the same, except that the error of the missing
    amount and price prints the row as it was given, Account
    included. *)
Theorem later_accounts_are_ignored (output : string)
        (account_mapping : string -> option string)
        (f : Row -> string) (r0 : Row) (rest : list Row) (w : World) :
  fst (main output account_mapping mappings
         (r0 :: map (fun r => set_account (f r) r) rest) w)
  = fst (main output account_mapping mappings (r0 :: rest) w)
  /\ alike_but_account
       (snd (main output account_mapping mappings
               (r0 :: map (fun r => set_account (f r) r) rest) w))
       (snd (main output account_mapping mappings (r0 :: rest) w)).
Proof.
  unfold main. cbn [process_rows].
  destruct (process_row mappings initial_state r0) as [st1 | e] eqn:E;
    cbn [bind].
  - assert (Hf : first_account st1 <> None).
    { unfold process_row in E.
      destruct (parse_date (Date r0));
        destruct (generate_transaction mappings r0 (counter initial_state))
          as [[t i] | e'];
        cbn [bind] in E; try discriminate E; injection E as <-;
        cbn [first_account initial_state]; discriminate. }
    pose proof (process_rows_set_account f rest st1 Hf) as Hrows.
    destruct (process_rows mappings st1
                (map (fun r => set_account (f r) r) rest)) as [sa | e1],
        (process_rows mappings st1 rest) as [sb | e2];
      cbn [alike_but_account] in Hrows; try contradiction.
    + subst sb. split; [ reflexivity | apply alike_but_account_refl ].
    + split; [ reflexivity | exact Hrows ].
  - split; [ reflexivity | apply alike_but_account_refl ].
Qed.

End Run.
(** ** Amounts: their shape, their absence, and the derived total *)

(** X16.  Whatever [normalize_currency] returns is "nan", "inf",
    "-inf", or an optional minus sign, at least one digit, a point
    and exactly two digits; and [float] reads it back as a number. *)
Theorem normalize_currency_shape (value : string) (inverseAmount : bool)
        (a : string) :
  normalize_currency value inverseAmount = Some a ->
  (exists y, float_of_string a = Some y)
  /\ (In a ["nan"; "inf"; "-inf"]
      \/ exists sg c0 rest d1 d2,
          a = sign_str sg ++ String c0 rest ++ "."
                ++ String d1 (String d2 "")
          /\ string_forall is_digit (String c0 rest) = true
          /\ is_digit d1 = true /\ is_digit d2 = true).
Proof.
  intros Hn. split; [ exact (normalized_amount_parses _ _ _ Hn) | ].
  rewrite normalize_currency_parts in Hn.
  destruct (negb (truthy (strip value))); [ discriminate Hn | ].
  assert (Hshape :
            forall x,
              well_formed x ->
              In (format_fixed 2 x) ["nan"; "inf"; "-inf"]
              \/ exists sg c0 rest d1 d2,
                  format_fixed 2 x
                  = sign_str sg ++ String c0 rest ++ "."
                      ++ String d1 (String d2 "")
                  /\ string_forall is_digit (String c0 rest) = true
                  /\ is_digit d1 = true /\ is_digit d2 = true).
  { intros x Hwf. destruct x as [s | s | | s m e].
    - right. exists s, "0"%char, "", "0"%char, "0"%char.
      destruct s; repeat split.
    - left. destruct s; cbn [format_fixed sign_str append In]; auto.
    - left. left. reflexivity.
    - right. destruct (format_fixed_reparse s m e Hwf) as [Hn' _].
      set (n := round_div (Zpos m * 100 * 2 ^ (e + unit_shift))
                  (2 ^ unit_shift)) in *.
      assert (Hfmt : format_fixed 2 (S754_finite s m e)
                     = sign_str s ++ fixed_digits 2 n) by reflexivity.
      destruct (fixed_digits_2 n Hn')
        as (c0 & rest & d1 & d2 & E & Hip & Hd1 & Hd2 & _).
      exists s, c0, rest, d1, d2. rewrite Hfmt, E.
      repeat split; assumption. }
  destruct (float_of_string (snd (currency_parts value))) as [num |] eqn:E.
  - injection Hn as <-. apply Hshape.
    apply float_of_string_well_formed in E.
    destruct (xorb _ _); [ apply fneg_well_formed | ]; exact E.
  - injection Hn as <-. right.
    exists false, "0"%char, "", "0"%char, "0"%char. repeat split.
Qed.

Section Amounts.

Context `{Externals}.

Variable mappings : option (list MissingCusipRule).

Lemma normalize_currency_empty (value : string) (inverseAmount : bool) :
  strip value = "" -> normalize_currency value inverseAmount = None.
Proof.
  intros E. unfold normalize_currency. rewrite E. reflexivity.
Qed.

(** X17.  A row whose Amount is empty after trimming is not rejected
    as such.  A cash transfer (asset trf or ach activity without CUSIP)
    stops the run with the AttributeError of [None.startswith]; an
    interest, advisory fee or journal row is rendered with the text
    None as its TRNAMT. *)
Theorem empty_amount_outcomes (row : Row) (counter : Z) :
  strip (Amount row) = "" ->
  (In (lower (strip (Activity row))) ["asset trf"; "ach activity"] ->
   strip (CUSIP row) = "" ->
   generate_transaction mappings row counter = Raise NoneHasNoStartswith)
  /\ (In (lower (strip (Activity row))) bank_activities ->
      generate_transaction mappings row counter
      = Ok ({| txn_str :=
                 bank_transaction
                   (if String.eqb (lower (strip (Activity row))) "interest"
                    then "INT" else "FEE")
                   (date_str_of row) "None" (fitid_of row counter) row;
               is_invbanktran := true |},
            None)).
Proof.
  intros Hamt. split.
  - intros Hact Hc. unfold generate_transaction.
    rewrite is_funding_activity_not_buy
      by (intro E; rewrite E in Hact; cbn [In] in Hact;
          intuition discriminate).
    cbn [bind].
    assert (Ht : generate_asset_transfer mappings row
                   (fitid_of row counter) (date_str_of row)
                 = Raise NoneHasNoStartswith).
    { unfold generate_asset_transfer.
      rewrite Hc, (normalize_currency_empty _ false Hamt). reflexivity. }
    cbn [In] in Hact.
    destruct Hact as [E | [E | []]]; rewrite <- E;
      cbn [mem existsb String.eqb Ascii.eqb Bool.eqb orb]; cbv iota;
      fold (date_str_of row); fold (fitid_of row counter);
      rewrite Ht; reflexivity.
  - intros Hact. unfold generate_transaction.
    rewrite is_funding_activity_not_buy
      by (intro E; rewrite E in Hact; cbn [In bank_activities] in Hact;
          intuition discriminate).
    cbn [bind]. unfold bank_activities in Hact. cbn [In] in Hact.
    destruct Hact as [E | [E | [E | []]]]; rewrite <- E;
      cbn [mem existsb String.eqb Ascii.eqb Bool.eqb orb]; cbv iota;
      unfold make_entry, generate_intrest_transaction,
        generate_fee_transaction, _make_txn_entry;
      rewrite ?(normalize_currency_empty _ false Hamt);
      cbn [truthy_option];
      rewrite ?(normalize_currency_empty _ false Hamt);
      reflexivity.
Qed.


End Amounts.
(** ** Rows with a CUSIP and the rules for rows without one *)

Section Rules.

Context `{Externals}.

Variables rules1 rules2 : list MissingCusipRule.

Variable row : Row.

Hypothesis has_cusip : strip (CUSIP row) <> "".

Lemma cusip_truthy : truthy (strip (CUSIP row)) = true.
Proof.
  destruct (truthy (strip (CUSIP row))) eqn:E; [ reflexivity | ].
  apply truthy_empty in E. contradiction.
Qed.

Lemma generate_buysell_secid_rules (indent : nat) :
  generate_buysell_secid (Some rules1) row indent
  = generate_buysell_secid (Some rules2) row indent.
Proof.
  unfold generate_buysell_secid. rewrite cusip_truthy. reflexivity.
Qed.

Lemma generate_buysell_security_info_rules :
  generate_buysell_security_info (Some rules1) row
  = generate_buysell_security_info (Some rules2) row.
Proof.
  unfold generate_buysell_security_info. rewrite cusip_truthy.
  rewrite generate_buysell_secid_rules. reflexivity.
Qed.

Lemma generate_buysell_transaction_rules
      (sell : bool) (fitid date_str : string) (amount_default : amount_val) :
  generate_buysell_transaction (Some rules1) row sell fitid date_str
    amount_default
  = generate_buysell_transaction (Some rules2) row sell fitid date_str
      amount_default.
Proof.
  unfold generate_buysell_transaction.
  rewrite generate_buysell_secid_rules,
    generate_buysell_security_info_rules.
  reflexivity.
Qed.

Lemma generate_income_transaction_rules
      (fitid date_str incometype : string) :
  generate_income_transaction (Some rules1) row fitid date_str incometype
  = generate_income_transaction (Some rules2) row fitid date_str
      incometype.
Proof.
  unfold generate_income_transaction.
  rewrite generate_buysell_security_info_rules. reflexivity.
Qed.

Lemma generate_asset_transfer_rules (fitid date_str : string) :
  generate_asset_transfer (Some rules1) row fitid date_str
  = generate_asset_transfer (Some rules2) row fitid date_str.
Proof.
  unfold generate_asset_transfer.
  rewrite generate_buysell_security_info_rules. reflexivity.
Qed.

(** X19.  The rules for rows without CUSIP play no part for a row that
    has one: with any two lists of rules the row is rendered alike, and
    it fails alike; its security is filed under the trimmed CUSIP. *)
Theorem rules_unused_with_cusip (counter : Z) :
  generate_transaction (Some rules1) row counter
  = generate_transaction (Some rules2) row counter
  /\ forall info,
      generate_buysell_security_info (Some rules1) row = Ok info ->
      uniqueid info = strip (CUSIP row).
Proof.
  split.
  - unfold generate_transaction.
    rewrite !generate_buysell_transaction_rules,
      !generate_income_transaction_rules,
      !generate_asset_transfer_rules.
    reflexivity.
  - intros info. unfold generate_buysell_security_info.
    rewrite cusip_truthy.
    destruct (generate_buysell_secid (Some rules1) row 10); cbn [bind];
      [ | discriminate ].
    intros [= <-]. reflexivity.
Qed.

End Rules.
(** * Further properties on concrete rows *)

Section MoreExamples.

Import Demo.

Let ext : Externals := Demo.externals.

Lemma demo_dt_ltb_irreflexive (a : Demo.date) : demo_dt_ltb a a = false.
Proof.
  destruct a as [[y m] d]. unfold demo_dt_ltb.
  rewrite !Z.ltb_irrefl, !Z.eqb_refl. reflexivity.
Qed.

Lemma demo_dt_ltb_transitive (a b c : Demo.date) :
  demo_dt_ltb a b = true -> demo_dt_ltb b c = true ->
  demo_dt_ltb a c = true.
Proof.
  destruct a as [[y1 m1] d1], b as [[y2 m2] d2], c as [[y3 m3] d3].
  unfold demo_dt_ltb.
  rewrite !orb_true_iff, !andb_true_iff, !orb_true_iff, !andb_true_iff,
    !Z.ltb_lt, !Z.eqb_eq.
  lia.
Qed.

(** The second of two numbered price columns. *)
Lemma normalize_header_numbered_witness :
  normalize_header (" " ++ "Price" ++ " " ++ "2" ++ "") = "Price".
Proof.
  refine (proj1 (normalize_header_numbered "Price" " " "2" " " ""
                   _ _ _ _ _ _ _)); vm_compute; reflexivity.
Defined.

(** "Money Market Fund" is matched by the second and by the third
    rule; the second one decides. *)
Lemma first_rule_wins_witness :
  generate_buysell_secid (H := ext)
    (Some ([bond_rule] ++ money_market_rule :: [market_rule])%list)
    money_market_row 12
  = Ok (secid_block (spaces 12) (rule_uniqueid money_market_rule) "OTHER").
Proof.
  refine (proj1 (proj1 (first_rule_wins (H := ext) money_market_row 12
                          [bond_rule] [market_rule] money_market_rule
                          _ _) _)).
  - vm_compute; reflexivity.
  - repeat constructor.
  - vm_compute; reflexivity.
Defined.

Lemma price_column_is_ignored_witness :
  generate_buysell_transaction (H := ext) (Some [])
    (set_price buy_row "9.99") false "TXN202301060002" "20230106"
    AmountNone
  = generate_buysell_transaction (H := ext) (Some []) buy_row false
      "TXN202301060002" "20230106" AmountNone.
Proof.
  refine (proj1 (price_column_is_ignored (H := ext) (Some []) buy_row
                   false "TXN202301060002" "20230106" AmountNone "9.99"
                   _ _)).
  - vm_compute; discriminate.
  - left. vm_compute; discriminate.
Defined.

(** A funding row without Amount, and one whose Quantity is written
    with a thousands separator. *)
Lemma funding_check_errors_witness :
  generate_transaction (H := ext) (Some []) blank_funding_row 1
  = Raise FloatOfNone
  /\ generate_transaction (H := ext) (Some []) separator_funding_row 1
     = Raise (FloatOfString (Quantity separator_funding_row)).
Proof.
  split.
  - refine (proj1 (funding_check_errors (H := ext) (Some [])
                     blank_funding_row 1 _ _ _ _) _);
      vm_compute; reflexivity.
  - refine (proj1 (proj2 (funding_check_errors (H := ext) (Some [])
                            separator_funding_row 1 _ _ _ _)) _ _);
      vm_compute; reflexivity || discriminate.
Defined.

(** Two rows of the same day with the same counter would share their
    FITID. *)
Lemma fitid_identifies_counter_witness :
  date_str_of (H := ext) fee_row = date_str_of (H := ext) funding_row
  /\ 7 = 7
  /\ (4 <= String.length (format_04d 7))%nat
  /\ (0 <= 7 ->
      string_forall is_digit (format_04d 7) = true
      /\ digits_value 0 (format_04d 7) = 7).
Proof.
  refine (fitid_identifies_counter (H := ext) fee_row funding_row 7 7 _ _);
    vm_compute; reflexivity.
Defined.

Lemma dated_rows_processed :
  process_rows (H := ext) (Some []) initial_state dated_rows
  = Ok state_after_dated.
Proof. reflexivity. Qed.

(** The rows of January 30th, of no date and of January 5th. *)
Lemma date_range_bounds_witness :
  exists lo hi,
    min_date state_after_dated = Some lo
    /\ max_date state_after_dated = Some hi
    /\ In lo (parsed_dates (H := ext) dated_rows)
    /\ In hi (parsed_dates (H := ext) dated_rows)
    /\ forall d,
        In d (parsed_dates (H := ext) dated_rows) ->
        dt_ltb (Externals := ext) d lo = false
        /\ dt_ltb (Externals := ext) hi d = false.
Proof.
  exact (date_range_bounds (H := ext) (Some []) demo_dt_ltb_irreflexive
           demo_dt_ltb_transitive dated_rows state_after_dated
           dated_rows_processed).
Defined.

(** Three rows: the counters 1, 2 and 3 in the order of the rows. *)
Lemma one_transaction_per_row_witness :
  List.length (transactions state_after_dated) = List.length dated_rows
  /\ counter state_after_dated = 1 + Z.of_nat (List.length dated_rows)
  /\ first_account state_after_dated
     = Some (strip (Account interest_row))
  /\ exists gens,
      generate_all (H := ext) (Some []) 1 dated_rows = Ok gens
      /\ transactions state_after_dated = map fst gens.
Proof.
  exact (one_transaction_per_row (H := ext) (Some []) dated_rows
           state_after_dated dated_rows_processed).
Defined.

Example dated_rows_counters :
  map (fun t => contains "<FITID>TXN202301300001</FITID>" (txn_str t)
                || contains "<FITID>TXN000000000002</FITID>" (txn_str t)
                || contains "<FITID>TXN202301050003</FITID>" (txn_str t))
    (transactions state_after_dated)
  = [true; true; true]
  /\ map (fun t => kind_of (txn_str t)) (transactions state_after_dated)
     = ["Interest"; "Fee"; "Fee"].
Proof. vm_compute. split; reflexivity. Qed.

(** The Account of a later row shows in the message of the error of
    the missing amount and price, and nowhere else. *)
Example later_account_in_error :
  main (H := ext) "out.qfx" account_mapping (Some [])
    [fee_row; set_account "Other" sell_row_incomplete] empty_world
  = (empty_world,
     Raise (NeitherAmountNorPrice (set_account "Other" sell_row_incomplete)))
  /\ main (H := ext) "out.qfx" account_mapping (Some [])
       [fee_row; sell_row_incomplete] empty_world
     = (empty_world, Raise (NeitherAmountNorPrice sell_row_incomplete)).
Proof. split; vm_compute; reflexivity. Qed.

Lemma normalize_currency_shape_witness :
  (exists y, float_of_string "-1234.50" = Some y)
  /\ (In "-1234.50" ["nan"; "inf"; "-inf"]
      \/ exists sg c0 rest d1 d2,
          "-1234.50"
          = sign_str sg ++ String c0 rest ++ "."
              ++ String d1 (String d2 "")
          /\ string_forall is_digit (String c0 rest) = true
          /\ is_digit d1 = true /\ is_digit d2 = true).
Proof.
  refine (normalize_currency_shape "(1,234.5)" false "-1234.50" _).
  vm_compute; reflexivity.
Defined.

(** A withdrawal whose Amount holds only blanks. *)
Lemma empty_amount_outcomes_witness :
  generate_transaction (H := ext) (Some []) blank_transfer_row 1
  = Raise NoneHasNoStartswith.
Proof.
  refine (proj1 (empty_amount_outcomes (H := ext) (Some [])
                   blank_transfer_row 1 _) _ _).
  - vm_compute; reflexivity.
  - right. left. vm_compute; reflexivity.
  - vm_compute; reflexivity.
Defined.


Example priced_sale_total :
  match generate_transaction (H := ext) (Some []) priced_sell_row 4 with
  | Ok (entry, _) =>
      contains "<TOTAL>-300.00</TOTAL>" (txn_str entry) = true
      /\ contains "<UNITPRICE>100.00</UNITPRICE>" (txn_str entry) = true
  | Raise _ => False
  end.
Proof. vm_compute. split; reflexivity. Qed.

Lemma rules_unused_with_cusip_witness :
  generate_transaction (H := ext) (Some rules) buy_row 2
  = generate_transaction (H := ext) (Some []) buy_row 2.
Proof.
  refine (proj1 (rules_unused_with_cusip (H := ext) rules [] buy_row _ 2)).
  vm_compute; discriminate.
Defined.

End MoreExamples.
